(** * multiexchangefutures: futures trading wrappers over exchange SDKs

    A shallow embedding of the decision logic of
    [BinanceFutures.py], [OKXFutures.py], [ByBitFutures.py] and
    [BitGetFutures.py]: precision from step strings, ceiling rounding,
    position sizing, trading-mode resolution and the life cycle of
    protective orders.

    Python values are modelled as follows.
    - [str] is [string] (a byte sequence); [str.upper] acts on ASCII letters.
    - [int] is [Z].
    - [float] is a parameter of the development (class [PyFloat]) with two
      instances: [binary64], IEEE 754 double precision as CPython computes
      it, built on the standard library's [SpecFloat]; and [exact], the
      rational numbers, that is the same program with rounding-free
      arithmetic.
    - a raised exception is the [Raise] case of [result].
    - a [dict] read from an SDK is a record; a key that may be absent is an
      [option] field.  Strings that an SDK gives for numbers
      ([float(f['notional'])], [float(data['price'])]) stand as the number
      read.
    - the python-binance client is a state threaded through the calls: the
      answers to the read requests, the book of open orders and the log of
      the requests sent.  The exchange accepts every order, gives it the
      next free id, and refuses to cancel an order it does not know. *)

From Stdlib Require Import ZArith QArith Qround Qabs List String Ascii Bool Lia Lqa.
From Stdlib Require Import SpecFloat.
From Stdlib Require Import Sorting.Sorted Sorting.Permutation.
Import ListNotations.

Local Open Scope string_scope.
Local Open Scope Z_scope.
Local Open Scope list_scope.

(** ** Exceptions *)

(** The reasons for which the modelled code raises [ValueError]. *)
Inductive value_error : Type :=
| SymbolNotFound          (* "Symbol ... not found in get_trading_symbols()" *)
| BelowMinNotional        (* "Calculated quantity is below the minimum notional value" *)
| BadPrice                (* "Price is 0 or negative", "Bad price for ...", "Current price is 0 or invalid" *)
| NaNToInteger.           (* math.ceil(nan): "cannot convert float NaN to integer" *)

Inductive exn : Type :=
| ValueError (why : value_error)
| ZeroDivisionError
| OverflowError
| KeyError (key : string)
| OkxAPIException
| ClientError (code : Z).   (* any other exception raised by an SDK client *)

Inductive result (A : Type) : Type :=
| Ok (a : A)
| Raise (e : exn).
Arguments Ok {A} a.
Arguments Raise {A} e.

Definition rbind {A B} (r : result A) (k : A -> result B) : result B :=
  match r with
  | Ok a => k a
  | Raise e => Raise e
  end.

Declare Scope result_scope.
Delimit Scope result_scope with res.
Notation "x <- r ;; k" := (rbind r (fun x => k))
  (at level 61, r at next level, right associativity) : result_scope.

(** ** Python strings *)

Module PyStr.

(** [len(s)] *)
Definition len (s : string) : Z := Z.of_nat (String.length s).

(** [s.upper()], on ASCII letters. *)
Definition upper_char (c : ascii) : ascii :=
  let n := nat_of_ascii c in
  if (Nat.leb 97 n && Nat.leb n 122)%bool then ascii_of_nat (n - 32) else c.

Fixpoint upper (s : string) : string :=
  match s with
  | EmptyString => EmptyString
  | String c s' => String (upper_char c) (upper s')
  end.

(** [s.rstrip(c)] for a one-character argument: drop the longest suffix
    made of [c] only. *)
Fixpoint rstrip (c : ascii) (s : string) : string :=
  match s with
  | EmptyString => EmptyString
  | String a s' =>
      match rstrip c s' with
      | EmptyString => if Ascii.eqb a c then EmptyString else String a EmptyString
      | r => String a r
      end
  end.

(** [c in s] *)
Fixpoint contains (c : ascii) (s : string) : bool :=
  match s with
  | EmptyString => false
  | String a s' => if Ascii.eqb a c then true else contains c s'
  end.

(** [s.split(c)]: the pieces between the occurrences of [c]; never empty. *)
Fixpoint split (c : ascii) (s : string) : list string :=
  match s with
  | EmptyString => [EmptyString]
  | String a s' =>
      if Ascii.eqb a c then EmptyString :: split c s'
      else match split c s' with
           | p :: ps => String a p :: ps
           | [] => [String a EmptyString]
           end
  end.

End PyStr.

(** ** Python floats *)

(** The operations of [float] (and of [int] where they meet) that the
    modelled code uses.  [float_of_int] is the implicit conversion of an
    [int] operand in mixed arithmetic; [int_truediv] is [/] on two [int]s. *)
Class PyFloat (F : Type) : Type := {
  float_of_int : Z -> result F;
  fmul : F -> F -> F;
  fdiv : F -> F -> result F;
  flt : F -> F -> bool;
  fle : F -> F -> bool;
  fzero : F;
  math_ceil : F -> result Z;
  int_truediv : Z -> Z -> result F
}.

(** *** IEEE 754 binary64, as in CPython *)

Module B64.

Definition prec : Z := 53.
Definition emax : Z := 1024.

Definition float : Type := spec_float.

Definition is_nan (x : float) : bool :=
  match x with S754_nan => true | _ => false end.

Definition is_zero (x : float) : bool :=
  match x with S754_zero _ => true | _ => false end.

(** [float(n)]: round to nearest, ties to even; too large an [int]
    raises [OverflowError]. *)
Definition of_int (n : Z) : result float :=
  match binary_normalize prec emax n 0 false with
  | S754_infinity _ => Raise OverflowError
  | x => Ok x
  end.

Definition mul (x y : float) : float := SFmul prec emax x y.

(** [x / y] on floats: a zero divisor raises. *)
Definition div (x y : float) : result float :=
  if is_zero y then Raise ZeroDivisionError else Ok (SFdiv prec emax x y).

Definition ltb (x y : float) : bool := SFltb x y.
Definition leb (x y : float) : bool := SFleb x y.

(** [math.ceil(x)]: the least integer not below [x]. *)
Definition ceil (x : float) : result Z :=
  match x with
  | S754_nan => Raise (ValueError NaNToInteger)
  | S754_infinity _ => Raise OverflowError
  | S754_zero _ => Ok 0
  | S754_finite s m e =>
      let n := if s then Z.neg m else Z.pos m in
      match e with
      | Z.neg p => Ok (- ((- n) / 2 ^ Z.pos p))
      | _ => Ok (n * 2 ^ e)
      end
  end.

(** [a / b] on two [int]s: the quotient of the integers, rounded once. *)
Definition truediv (a b : Z) : result float :=
  if b =? 0 then Raise ZeroDivisionError
  else if a =? 0 then Ok (S754_zero false)
  else
    let s := xorb (a <? 0) (b <? 0) in
    let '(mz, ez, lz) := SFdiv_core_binary prec emax (Z.abs a) 0 (Z.abs b) 0 in
    match binary_round_aux prec emax s mz ez lz with
    | S754_infinity _ => Raise OverflowError
    | x => Ok x
    end.

(** The rational value of a finite float. *)
Definition to_Q (x : float) : Q :=
  match x with
  | S754_finite s m e =>
      let n := if s then Z.neg m else Z.pos m in
      match e with
      | Z.neg p => Qmake n (2 ^ p)
      | _ => inject_Z (n * 2 ^ e)
      end
  | _ => 0%Q
  end.

(** A decimal literal [n / 10^k], as [float("...")] reads it. *)
Definition dec (n : Z) (k : nat) : float :=
  match truediv n (10 ^ Z.of_nat k) with
  | Ok x => x
  | Raise _ => S754_nan
  end.

End B64.

#[export] Instance binary64 : PyFloat B64.float := {|
  float_of_int := B64.of_int;
  fmul := B64.mul;
  fdiv := B64.div;
  flt := B64.ltb;
  fle := B64.leb;
  fzero := S754_zero false;
  math_ceil := B64.ceil;
  int_truediv := B64.truediv
|}.

(** *** Exact arithmetic *)

Module Exact.

Definition div (x y : Q) : result Q :=
  if Qeq_bool y 0 then Raise ZeroDivisionError else Ok (x / y)%Q.

Definition ltb (x y : Q) : bool := negb (Qle_bool y x).

Definition truediv (a b : Z) : result Q :=
  if b =? 0 then Raise ZeroDivisionError else Ok (inject_Z a / inject_Z b)%Q.

End Exact.

#[export] Instance exact : PyFloat Q := {|
  float_of_int := fun n => Ok (inject_Z n);
  fmul := Qmult;
  fdiv := Exact.div;
  flt := Exact.ltb;
  fle := Qle_bool;
  fzero := 0%Q;
  math_ceil := fun x => Ok (Qceiling x);
  int_truediv := Exact.truediv
|}.

(** ** Shared helpers *)

Section Shared.
Context {F : Type} {PF : PyFloat F}.

(** [round_more(number, digits)] of [BinanceFutures.py], [ByBitFutures.py]
    and [BitGetFutures.py]:
    [scale = 10 ** digits; return math.ceil(number * scale) / scale].
    [digits] is a precision, never negative: for a negative [digits]
    Python's [10 ** digits] is a float, a case the definition does not
    cover. *)
Definition round_more (number : F) (digits : Z) : result F :=
  (let scale := 10 ^ digits in
   s <- float_of_int scale ;;
   n <- math_ceil (fmul number s) ;;
   int_truediv n scale)%res.

(** Truth value of a float: [x != 0]. *)
Definition truthy (x : F) : bool := negb (fle x fzero && fle fzero x).

(** [a] may stand before [b] in a sorted list: [b < a] is false. *)
Definition not_after (a b : F) : Prop := flt b a = false.

(** [sorted(l)]: a stable sort that compares with [<] only.  Where [<]
    orders the elements, that is on floats other than NaN, a stable sort
    has one result, the list CPython's [sorted] returns; with NaN among
    the elements the result depends on the comparisons made, and the
    theorems on the order of the targets leave such lists out. *)
Fixpoint insert_sorted (x : F) (l : list F) : list F :=
  match l with
  | [] => [x]
  | y :: l' => if flt x y then x :: y :: l' else y :: insert_sorted x l'
  end.

Definition sort_asc (l : list F) : list F :=
  fold_left (fun acc x => insert_sorted x acc) l [].

(** [sorted(l, reverse=r)]: with [reverse] the list is reversed, sorted
    and reversed again, which keeps the sort stable. *)
Definition sorted (l : list F) (reverse : bool) : list F :=
  if reverse then rev (sort_asc (rev l)) else sort_asc l.

End Shared.

(** ** Binance *)

Module Binance.
Section WithFloat.
Context {F : Type} {PF : PyFloat F}.

(** *** The data the SDK client exchanges *)

(** An entry of a symbol's ['filters']. *)
Record Filter : Type := {
  filterType : string;
  stepSize : option string;
  tickSize : option string;
  notional : option F
}.

(** An entry of [futures_exchange_info()['symbols']]. *)
Record SymbolInfo : Type := {
  info_symbol : string;
  filters : list Filter
}.

(** An entry of [futures_account()['positions']]. *)
Record Position : Type := {
  pos_positionSide : option string
}.

(** The keyword arguments of [futures_create_order]; an absent key is
    [None]. *)
Record OrderParams : Type := {
  symbol : string;
  side : string;
  type : string;
  quantity : option F;
  positionSide : string;
  price : option string;
  timeInForce : option string;
  stopPrice : option F;
  closePosition : option bool
}.

(** An open order as [futures_get_open_orders] lists it. *)
Record Order : Type := {
  orderId : Z;
  params : OrderParams
}.

(** The state-changing requests the client has sent, oldest first. *)
Inductive Request : Type :=
| ChangeLeverage (sym : string) (leverage : Z)
| CreateOrder (p : OrderParams)
| CancelOrder (sym : string) (oid : Z).

(** The SDK client together with the exchange behind it: what it answers
    to the read requests, the book of open orders and the log of the
    requests sent. *)
Record Client : Type := {
  exchange_info : list SymbolInfo;
  ticker : string -> result F;
  account : result (list Position);
  open_orders : list Order;
  next_order_id : Z;
  requests : list Request
}.

Definition with_orders (c : Client) (os : list Order) (n : Z) (r : list Request) : Client :=
  {| exchange_info := exchange_info c; ticker := ticker c; account := account c;
     open_orders := os; next_order_id := n; requests := r |}.

(** *** Calls that read or change the client, and may raise *)

Definition M (A : Type) : Type := Client -> result A * Client.

Definition ret {A} (a : A) : M A := fun c => (Ok a, c).
Definition raise {A} (e : exn) : M A := fun c => (Raise e, c).
Definition lift {A} (r : result A) : M A := fun c => (r, c).
Definition bind {A B} (m : M A) (k : A -> M B) : M B :=
  fun c => match m c with
           | (Ok a, c') => k a c'
           | (Raise e, c') => (Raise e, c')
           end.

Notation "x <- m ;; k" := (bind m (fun x => k))
  (at level 61, m at next level, right associativity).
Notation "m ;;; k" := (bind m (fun _ => k))
  (at level 61, right associativity).

(** [for x in l: f(x)] *)
Fixpoint for_each {A} (f : A -> M unit) (l : list A) : M unit :=
  match l with
  | [] => ret tt
  | x :: l' => f x ;;; for_each f l'
  end.

(** *** The SDK client *)

Definition client_futures_exchange_info : M (list SymbolInfo) :=
  fun c => (Ok (exchange_info c), c).

Definition client_futures_symbol_ticker (sym : string) : M F :=
  fun c => (ticker c sym, c).

Definition client_futures_account : M (list Position) :=
  fun c => (account c, c).

Definition client_futures_get_open_orders : M (list Order) :=
  fun c => (Ok (open_orders c), c).

Definition client_futures_change_leverage (sym : string) (leverage : Z) : M unit :=
  fun c => (Ok tt, with_orders c (open_orders c) (next_order_id c)
                     (requests c ++ [ChangeLeverage sym leverage])).

(** A new order gets the next free id and joins the open orders. *)
Definition client_futures_create_order (p : OrderParams) : M Order :=
  fun c =>
    let o := {| orderId := next_order_id c; params := p |} in
    (Ok o, with_orders c (open_orders c ++ [o]) (next_order_id c + 1)
             (requests c ++ [CreateOrder p])).

Definition is_order (sym : string) (oid : Z) (o : Order) : bool :=
  String.eqb (symbol (params o)) sym && (orderId o =? oid).

(** Cancelling removes the order from the book; an unknown order is an
    error of the exchange. *)
Definition client_futures_cancel_order (sym : string) (oid : Z) : M unit :=
  fun c =>
    if existsb (is_order sym oid) (open_orders c) then
      (Ok tt, with_orders c (filter (fun o => negb (is_order sym oid o)) (open_orders c))
                (next_order_id c) (requests c ++ [CancelOrder sym oid]))
    else (Raise (ClientError (-2011)), c).

(** *** [BinanceFuturesTrade] *)

Definition get_trading_symbols : M (list SymbolInfo) :=
  client_futures_exchange_info.

Definition get_open_orders : M (list Order) :=
  client_futures_get_open_orders.

Definition futures_change_leverage (sym : string) (leverage : Z) : M unit :=
  client_futures_change_leverage sym leverage.

Definition close_order (sym : string) (order_id : Z) : M unit :=
  client_futures_cancel_order sym order_id.

(** [next((x for x in symbols if x.get('symbol') == symbol), None)] *)
Definition find_symbol (sym : string) (symbols : list SymbolInfo) : option SymbolInfo :=
  find (fun x => String.eqb (info_symbol x) sym) symbols.

(** [max(len(step.rstrip('0')) - 2, 0)] *)
Definition step_precision (step : string) : Z :=
  Z.max (PyStr.len (PyStr.rstrip "0" step) - 2) 0.

Definition default (d : string) (o : option string) : string :=
  match o with Some s => s | None => d end.

(** The loop over the filters of [get_quantity_precision]: the first
    [LOT_SIZE] filter decides. *)
Fixpoint lot_size_precision (fs : list Filter) : Z :=
  match fs with
  | [] => 0
  | flt :: fs' =>
      if String.eqb (filterType flt) "LOT_SIZE"
      then step_precision (default "1" (stepSize flt))
      else lot_size_precision fs'
  end.

Definition get_quantity_precision (sym : string) : M Z :=
  symbols <- get_trading_symbols ;;
  match find_symbol sym symbols with
  | None => raise (ValueError SymbolNotFound)
  | Some s => ret (lot_size_precision (filters s))
  end.

Fixpoint price_filter_precision (fs : list Filter) : Z :=
  match fs with
  | [] => 0
  | flt :: fs' =>
      if String.eqb (filterType flt) "PRICE_FILTER"
      then step_precision (default "1" (tickSize flt))
      else price_filter_precision fs'
  end.

Definition get_price_precision (sym : string) : M Z :=
  symbols <- get_trading_symbols ;;
  match find_symbol sym symbols with
  | None => raise (ValueError SymbolNotFound)
  | Some s => ret (price_filter_precision (filters s))
  end.

(** [p.get('positionSide') in ['LONG', 'SHORT']] *)
Definition long_or_short (p : Position) : bool :=
  match pos_positionSide p with
  | Some s => String.eqb s "LONG" || String.eqb s "SHORT"
  | None => false
  end.

Definition get_trading_mode : M string :=
  positions <- client_futures_account ;;
  ret (if existsb long_or_short positions then "HEDGE" else "ONE_WAY").

(** ['BOTH'], or ['LONG'/'SHORT'] from the side under ['HEDGE']. *)
Definition position_side_of (trading_mode side_ : string) : string :=
  if String.eqb trading_mode "HEDGE"
  then (if String.eqb (PyStr.upper side_) "BUY" then "LONG" else "SHORT")
  else "BOTH".

(** ['SELL' if side.upper() == 'BUY' else 'BUY'] *)
Definition closing_side (side_ : string) : string :=
  if String.eqb (PyStr.upper side_) "BUY" then "SELL" else "BUY".

(** The condition under which [close_stop_loss_orders] and
    [close_take_profit_orders] cancel an order. *)
Definition order_matches (sym ty position_side : string) (o : Order) : bool :=
  String.eqb (symbol (params o)) sym
  && String.eqb (type (params o)) ty
  && String.eqb (positionSide (params o)) position_side.

Definition close_orders_of_type (ty sym position_side : string) : M unit :=
  os <- get_open_orders ;;
  for_each (fun ord_obj =>
              if order_matches sym ty position_side ord_obj
              then close_order sym (orderId ord_obj)
              else ret tt) os.

Definition close_stop_loss_orders (sym position_side : string) : M unit :=
  close_orders_of_type "STOP_MARKET" sym position_side.

Definition close_take_profit_orders (sym position_side : string) : M unit :=
  close_orders_of_type "TAKE_PROFIT_MARKET" sym position_side.

Definition stop_loss_params (sym side_ : string) (stop_loss : F) (position_side : string)
  : OrderParams :=
  {| symbol := sym; side := closing_side side_; type := "STOP_MARKET";
     quantity := None; positionSide := position_side; price := None;
     timeInForce := None; stopPrice := Some stop_loss; closePosition := Some true |}.

Definition create_stop_loss (sym side_ : string) (stop_loss : option F)
    (trading_mode : option string) : M unit :=
  match stop_loss with
  | None => ret tt
  | Some sl =>
      tm <- match trading_mode with
            | Some s => if String.eqb s EmptyString then get_trading_mode else ret s
            | None => get_trading_mode
            end ;;
      let position_side := position_side_of tm side_ in
      close_stop_loss_orders sym position_side ;;;
      client_futures_create_order (stop_loss_params sym side_ sl position_side) ;;;
      ret tt
  end.

(** The order of one take-profit target: the last one closes the
    position, the others carry [chunk]. *)
Definition take_profit_params (sym side_ position_side : string) (use_qty : option F) (tp : F)
  : OrderParams :=
  match use_qty with
  | None =>
      {| symbol := sym; side := closing_side side_; type := "TAKE_PROFIT_MARKET";
         quantity := None; positionSide := position_side; price := None;
         timeInForce := None; stopPrice := Some tp; closePosition := Some true |}
  | Some q =>
      {| symbol := sym; side := closing_side side_; type := "TAKE_PROFIT_MARKET";
         quantity := Some q; positionSide := position_side; price := None;
         timeInForce := None; stopPrice := Some tp; closePosition := None |}
  end.

(** [for i, tp in enumerate(sorted_targets)], from index [i] on. *)
Fixpoint take_profit_loop (sym side_ position_side : string) (chunk : F) (n : nat)
    (i : nat) (tps : list F) : M unit :=
  match tps with
  | [] => ret tt
  | tp :: tps' =>
      let use_qty := if Nat.eqb i (n - 1) then None else Some chunk in
      client_futures_create_order (take_profit_params sym side_ position_side use_qty tp) ;;;
      take_profit_loop sym side_ position_side chunk n (S i) tps'
  end.

Definition bulk_create_take_profits (sym side_ : string) (quantity_ : F)
    (take_profit_targets : option (list F)) (trading_mode : option string) : M unit :=
  match take_profit_targets with
  | None | Some [] => ret tt
  | Some targets =>
      tm <- match trading_mode with
            | Some s => ret s
            | None => get_trading_mode
            end ;;
      let position_side := position_side_of tm side_ in
      close_take_profit_orders sym position_side ;;;
      len <- lift (float_of_int (Z.of_nat (List.length targets))) ;;
      chunk <- lift (fdiv quantity_ len) ;;
      qty_prec <- get_quantity_precision sym ;;
      chunk <- lift (round_more chunk qty_prec) ;;
      let sorted_targets := sorted targets (String.eqb (PyStr.upper side_) "SELL") in
      take_profit_loop sym side_ position_side chunk (List.length sorted_targets) 0 sorted_targets
  end.

(** The loop of [calculate_quantity_from_usdt] over the filters: the last
    [MIN_NOTIONAL] filter decides; [f['notional']] must be there. *)
Fixpoint min_notional_of (fs : list Filter) (acc : F) : result F :=
  match fs with
  | [] => Ok acc
  | f :: fs' =>
      if String.eqb (filterType f) "MIN_NOTIONAL"
      then match notional f with
           | Some v => min_notional_of fs' v
           | None => Raise (KeyError "notional")
           end
      else min_notional_of fs' acc
  end.

Definition calculate_quantity_from_usdt (sym : string) (usdt_amount : F) (leverage : Z)
    (adjust_to_min_notional : bool) (take_profit_targets : option (list F)) : M F :=
  current_price <- client_futures_symbol_ticker sym ;;
  lev <- lift (float_of_int leverage) ;;
  let notional_ := fmul usdt_amount lev in
  quantity_ <- lift (fdiv notional_ current_price) ;;
  symbols_info <- get_trading_symbols ;;
  match find_symbol sym symbols_info with
  | None => raise (ValueError SymbolNotFound)
  | Some symbol_item =>
      min_notional <- lift (min_notional_of (filters symbol_item) fzero) ;;
      min_notional <-
        match take_profit_targets with
        | Some (t :: ts) =>
            n <- lift (float_of_int (Z.of_nat (List.length (t :: ts)))) ;;
            ret (fmul min_notional n)
        | _ => ret min_notional
        end ;;
      let actual_notional := fmul quantity_ current_price in
      quantity_ <-
        (if flt actual_notional min_notional
         then if adjust_to_min_notional
              then lift (fdiv min_notional current_price)
              else raise (ValueError BelowMinNotional)
         else ret quantity_) ;;
      qty_precision <- get_quantity_precision sym ;;
      lift (round_more quantity_ qty_precision)
  end.

Section CreateOrder.
  (** [str(price)] *)
Variable str : F -> string.

Definition create_order (sym side_ order_type : string) (quantity_ : F)
      (price_ stop_loss : option F) (take_profit_targets : option (list F))
      (leverage : Z) : M Order :=
    futures_change_leverage sym leverage ;;;
    tm <- get_trading_mode ;;
    let position_side := position_side_of tm side_ in
    let limit := String.eqb (PyStr.upper order_type) "LIMIT" in
    let order_params :=
      {| symbol := sym; side := PyStr.upper side_; type := PyStr.upper order_type;
         quantity := Some quantity_; positionSide := position_side;
         price := match price_ with
                  | Some p => if limit then Some (str p) else None
                  | None => None
                  end;
         timeInForce := match price_ with
                        | Some _ => if limit then Some "GTC" else None
                        | None => None
                        end;
         stopPrice := None; closePosition := None |} in
    new_order <- client_futures_create_order order_params ;;
    match stop_loss with
    | Some sl => if truthy sl then create_stop_loss sym side_ (Some sl) None else ret tt
    | None => ret tt
    end ;;;
    match take_profit_targets with
    | Some (t :: ts) => bulk_create_take_profits sym side_ quantity_ (Some (t :: ts)) None
    | _ => ret tt
    end ;;;
    ret new_order.
End CreateOrder.

End WithFloat.

Arguments Filter F : clear implicits.
Arguments SymbolInfo F : clear implicits.
Arguments OrderParams F : clear implicits.
Arguments Order F : clear implicits.
Arguments Request F : clear implicits.
Arguments Client F : clear implicits.

End Binance.

(** ** OKX *)

Module OKX.
Section WithFloat.
Context {F : Type} {PF : PyFloat F}.

(** An entry of the ['data'] of [/public/instruments]. *)
Record Instrument : Type := {
  minSz : option F;
  stepSz : option string;
  tickSz : option string
}.

(** An entry of the ['data'] of [/market/ticker]. *)
Record Ticker : Type := { last : option F }.

(** An entry of the ['data'] of [/account/config]. *)
Record AccountConfig : Type := { posMode : option string }.

(** The answers of the SDK clients.  A response is [None] when it is
    falsy or has no ['data'] key. *)
Record Client : Type := {
  get_ticker : string -> result (option (list Ticker));
  get_instruments : string -> string -> result (option (list Instrument));
  get_account_config : result (option (list AccountConfig))
}.

(** What [round_more] returns: [math.ceil] gives an [int], [/] a [float]. *)
Inductive number : Type :=
| Int (n : Z)
| Float (x : F).

Definition round_more (x : F) (digits : Z) : result number :=
  (if digits <=? 0 then
     n <- math_ceil x ;; Ok (Int n)
   else
     let scale := 10 ^ digits in
     s <- float_of_int scale ;;
     n <- math_ceil (fmul x s) ;;
     r <- int_truediv n scale ;;
     Ok (Float r))%res.

Definition _calc_precision (step_str : string) : Z :=
  if negb (PyStr.contains "." step_str) then 0
  else
    let splitted := PyStr.split "." step_str in
    PyStr.len (PyStr.rstrip "0" (nth 1 splitted EmptyString)).

Definition default (d : string) (o : option string) : string :=
  match o with Some s => s | None => d end.

Definition get_quantity_precision (c : Client) (sym : string) : result Z :=
  (info <- get_instruments c "SWAP" sym ;;
   match info with
   | Some (i :: _) => Ok (_calc_precision (default "0.0001" (stepSz i)))
   | _ => Ok 0
   end)%res.

Definition get_price_precision (c : Client) (sym : string) : result Z :=
  (info <- get_instruments c "SWAP" sym ;;
   match info with
   | Some (i :: _) => Ok (_calc_precision (default "0.0001" (tickSz i)))
   | _ => Ok 0
   end)%res.

Definition get_current_price (c : Client) (sym : string) : result F :=
  (resp <- get_ticker c sym ;;
   match resp with
   | Some (t :: _) => Ok (match last t with Some p => p | None => fzero end)
   | _ => Ok fzero
   end)%res.

(** The handler [except OkxAPIException: return 'ONE_WAY'] catches that
    exception only. *)
Definition get_trading_mode (c : Client) : result string :=
  match get_account_config c with
  | Ok (Some (conf :: _)) =>
      match posMode conf with
      | Some pmode => if String.eqb pmode "long_short_mode" then Ok "HEDGE" else Ok "ONE_WAY"
      | None => Ok "ONE_WAY"
      end
  | Ok _ => Ok "ONE_WAY"
  | Raise OkxAPIException => Ok "ONE_WAY"
  | Raise e => Raise e
  end.

Definition calculate_quantity_from_usdt (c : Client) (sym : string) (usdt_amount : F)
    (leverage : Z) (adjust_to_min_notional : bool) (take_profit_targets : option (list F))
  : result F :=
  (price <- get_current_price c sym ;;
   if fle price fzero then Raise (ValueError BadPrice)
   else
     lev <- float_of_int leverage ;;
     raw_qty <- fdiv (fmul usdt_amount lev) price ;;
     inst_info <- get_instruments c "SWAP" sym ;;
     let min_sz :=
       match inst_info with
       | Some (i :: _) => match minSz i with Some m => m | None => fzero end
       | _ => fzero
       end in
     Ok (if flt raw_qty min_sz && adjust_to_min_notional then min_sz else raw_qty))%res.

End WithFloat.
Arguments Client F : clear implicits.
Arguments number F : clear implicits.
End OKX.

(** ** Bybit *)

Module ByBit.
Section WithFloat.
Context {F : Type} {PF : PyFloat F}.

(** An entry of [resp["result"]["list"]] of [get_tickers]. *)
Record Ticker : Type := { symbol : string; lastPrice : F }.

(** A response: its [retCode] and, when present, [result.list]. *)
Record Tickers : Type := { retCode : Z; result_list : option (list Ticker) }.

Record Client : Type := { get_tickers : string -> result Tickers }.

Fixpoint price_in (sym : string) (l : list Ticker) : F :=
  match l with
  | [] => fzero
  | item :: l' => if String.eqb (symbol item) sym then lastPrice item else price_in sym l'
  end.

Definition get_current_price (c : Client) (sym : string) : result F :=
  (resp <- get_tickers c sym ;;
   match result_list resp with
   | Some l => if retCode resp =? 0 then Ok (price_in sym l) else Ok fzero
   | None => Ok fzero
   end)%res.

Definition get_trading_mode (c : Client) : result string := Ok "ONE_WAY".

Definition calculate_quantity_from_usdt (c : Client) (sym : string) (usdt_amount : F)
    (leverage : Z) (adjust_to_min_notional : bool) (take_profit_targets : option (list F))
  : result F :=
  (price <- get_current_price c sym ;;
   if fle price fzero then Raise (ValueError BadPrice)
   else
     lev <- float_of_int leverage ;;
     quantity <- fdiv (fmul usdt_amount lev) price ;;
     round_more quantity 3)%res.

End WithFloat.
Arguments Client F : clear implicits.
End ByBit.

(** ** Bitget *)

Module BitGet.
Section WithFloat.
Context {F : Type} {PF : PyFloat F}.

(** An entry of the ['data'] of [mix_get_accounts]. *)
Record Account : Type := { holdMode : option string }.

(** [mix_get_single_symbol_ticker] answers with [resp["data"]["last"]]
    when it is there and reads as a float. *)
Record Client : Type := {
  mix_get_single_symbol_ticker : string -> result (option F);
  mix_get_accounts : result (option (list Account))
}.

Definition get_current_price (c : Client) (sym : string) : result F :=
  (resp <- mix_get_single_symbol_ticker c sym ;;
   match resp with
   | Some p => Ok p
   | None => Ok fzero
   end)%res.

Definition get_trading_mode (c : Client) : result string :=
  (acc_data <- mix_get_accounts c ;;
   match acc_data with
   | Some (a :: _) =>
       match holdMode a with
       | Some hold_mode =>
           if String.eqb hold_mode "double_hold_mode" then Ok "HEDGE" else Ok "ONE_WAY"
       | None => Ok "ONE_WAY"
       end
   | _ => Ok "ONE_WAY"
   end)%res.

Definition calculate_quantity_from_usdt (c : Client) (sym : string) (usdt_amount : F)
    (leverage : Z) (adjust_to_min_notional : bool) (take_profit_targets : option (list F))
  : result F :=
  (current_price <- get_current_price c sym ;;
   if fle current_price fzero then Raise (ValueError BadPrice)
   else
     lev <- float_of_int leverage ;;
     fdiv (fmul usdt_amount lev) current_price)%res.

End WithFloat.
Arguments Client F : clear implicits.
End BitGet.

(** The value of what OKX's [round_more] returns in exact arithmetic. *)
Definition okx_value (r : OKX.number Q) : Q :=
  match r with
  | OKX.Int n => inject_Z n
  | OKX.Float y => y
  end.

(** ** Concrete clients *)

Module Examples.
Import Binance.

(** One instrument: quantities in steps of [0.001], prices in steps of
    [0.10], a minimum notional of 5. *)
Definition btcusdt : SymbolInfo B64.float :=
  {| info_symbol := "BTCUSDT";
     filters :=
       [ {| filterType := "PRICE_FILTER"; stepSize := None; tickSize := Some "0.10";
            notional := None |};
         {| filterType := "LOT_SIZE"; stepSize := Some "0.001"; tickSize := None;
            notional := None |};
         {| filterType := "MIN_NOTIONAL"; stepSize := None; tickSize := None;
            notional := Some (B64.dec 5 0) |} ] |}.

(** A one-way account over [btcusdt] with the given last price. *)
Definition client_at (last_price : B64.float) : Client B64.float :=
  {| exchange_info := [btcusdt];
     ticker := fun _ => Ok last_price;
     account := Ok [ {| pos_positionSide := Some "BOTH" |} ];
     open_orders := [];
     next_order_id := 1;
     requests := [] |}.

(** The same client when the account request fails. *)
Definition client_down : Client B64.float :=
  {| exchange_info := [btcusdt];
     ticker := fun _ => Ok (B64.dec 50000 0);
     account := Raise (ClientError (-1021));
     open_orders := [];
     next_order_id := 1;
     requests := [] |}.

(** Clients whose only instrument has the quantity step [step]. *)
Definition client_with_step (step : string) : Client B64.float :=
  {| exchange_info :=
       [ {| info_symbol := "BTCUSDT";
            filters := [ {| filterType := "LOT_SIZE"; stepSize := Some step;
                            tickSize := None; notional := None |} ] |} ];
     ticker := fun _ => Ok (B64.dec 50000 0);
     account := Ok [];
     open_orders := [];
     next_order_id := 1;
     requests := [] |}.

Definition okx_with_step (step : string) : OKX.Client B64.float :=
  {| OKX.get_ticker := fun _ => Ok (Some [ {| OKX.last := Some (B64.dec 50000 0) |} ]);
     OKX.get_instruments := fun _ _ =>
       Ok (Some [ {| OKX.minSz := Some (B64.dec 1 0); OKX.stepSz := Some step;
                     OKX.tickSz := Some "0.1" |} ]);
     OKX.get_account_config := Ok (Some [ {| OKX.posMode := Some "net_mode" |} ]) |}.

Definition bitget_down : BitGet.Client B64.float :=
  {| BitGet.mix_get_single_symbol_ticker := fun _ => Ok (Some (B64.dec 50000 0));
     BitGet.mix_get_accounts := Raise (ClientError 40014) |}.

End Examples.

(** ** Observations on a Binance client *)

Module BinanceObs.
Section WithFloat.
Context {F : Type} {PF : PyFloat F}.
Import Binance.

(** The order book of an exchange: ids are unique and below the next
    free id. *)
Definition well_formed (c : Client F) : Prop :=
  NoDup (map orderId (open_orders c))
  /\ Forall (fun o => orderId o < next_order_id c) (open_orders c).

(** The orders that a sweep over the listed orders [l] removes from the
    book: those that a matching order of [l] names by symbol and id. *)
Definition swept (ty sym position_side : string) (l : list (Order F)) (o : Order F) : bool :=
  existsb (fun x => order_matches sym ty position_side x && is_order sym (orderId x) o) l.

(** The cancel requests for a list of orders, in their order. *)
Definition cancellations (sym : string) (os : list (Order F)) : list (Request F) :=
  map (fun o => CancelOrder sym (orderId o)) os.

(** The trading mode [create_stop_loss] works with: the argument unless it
    is [None] or empty, else the account's. *)
Definition mode_for_stop_loss (trading_mode : option string) (c : Client F) : result string :=
  match trading_mode with
  | Some s => if String.eqb s EmptyString then fst (get_trading_mode c) else Ok s
  | None => fst (get_trading_mode c)
  end.

(** The trading mode [bulk_create_take_profits] works with: the argument
    unless it is [None]. *)
Definition mode_for_take_profits (trading_mode : option string) (c : Client F) : result string :=
  match trading_mode with
  | Some s => Ok s
  | None => fst (get_trading_mode c)
  end.

(** The orders of a ladder over the targets [tps], already sorted: every
    target but the last with the quantity [chunk], the last one closing
    the position. *)
Definition ladder (sym side_ position_side : string) (chunk : F) (tps : list F)
  : list (OrderParams F) :=
  match tps with
  | [] => []
  | t :: ts =>
      map (take_profit_params sym side_ position_side (Some chunk)) (removelast tps)
      ++ [take_profit_params sym side_ position_side None (last tps t)]
  end.

(** The orders the book gains when [ps] are accepted from id [n] on. *)
Fixpoint booked (n : Z) (ps : list (OrderParams F)) : list (Order F) :=
  match ps with
  | [] => []
  | p :: ps' => {| orderId := n; params := p |} :: booked (n + 1) ps'
  end.

(** The precision [get_quantity_precision] finds for a listed symbol. *)
Definition listed_precision (c : Client F) (sym : string) : option Z :=
  match find_symbol sym (exchange_info c) with
  | Some s => Some (lot_size_precision (filters s))
  | None => None
  end.

(** The orders [take_profit_loop] sends from index [i] on. *)
Fixpoint ladder_from (sym side_ position_side : string) (chunk : F) (n i : nat)
    (tps : list F) : list (OrderParams F) :=
  match tps with
  | [] => []
  | tp :: tps' =>
      take_profit_params sym side_ position_side
        (if Nat.eqb i (n - 1) then None else Some chunk) tp
      :: ladder_from sym side_ position_side chunk n (S i) tps'
  end.

(** [round_more(quantity / n, d)], the quantity of a leg. *)
Definition chunk_quantity (quantity_ : F) (n : nat) (d : Z) : result F :=
  (len <- float_of_int (Z.of_nat n) ;;
   chunk <- fdiv quantity_ len ;;
   round_more chunk d)%res.

(** The orders among the requests sent. *)
Fixpoint created (rs : list (Request F)) : list (OrderParams F) :=
  match rs with
  | [] => []
  | CreateOrder p :: rs' => p :: created rs'
  | _ :: rs' => created rs'
  end.

(** The quantities that a list of orders states. *)
Fixpoint explicit_quantities (ps : list (OrderParams F)) : list F :=
  match ps with
  | [] => []
  | p :: ps' =>
      match quantity p with
      | Some q => q :: explicit_quantities ps'
      | None => explicit_quantities ps'
      end
  end.

(** The threshold of [calculate_quantity_from_usdt]: the minimum notional,
    times the number of targets when there are some. *)
Definition notional_threshold (min_notional : F) (take_profit_targets : option (list F))
  : result F :=
  match take_profit_targets with
  | Some (t :: ts) =>
      (n <- float_of_int (Z.of_nat (List.length (t :: ts))) ;; Ok (fmul min_notional n))%res
  | _ => Ok min_notional
  end.

(** A call that leaves the requests already sent in place, whatever its
    outcome. *)
Definition extends {A} (m : M A) : Prop :=
  forall c : Client F, exists rest, requests (snd (m c)) = requests c ++ rest.

End WithFloat.
End BinanceObs.

(** The sum of a list of rationals. *)
Definition Qsum (l : list Q) : Q := fold_right Qplus 0%Q l.

Module ExampleBooks.
Import Binance.

Definition protective (sym ty position_side : string) (trigger : B64.float)
  : OrderParams B64.float :=
  {| symbol := sym; side := "SELL"; type := ty; quantity := None;
     positionSide := position_side; price := None; timeInForce := None;
     stopPrice := Some trigger; closePosition := Some true |}.

(** A book with a stop and a take-profit on BTCUSDT, a stop on ETHUSDT and
    a stop on the long side of BTCUSDT. *)
Definition book : list (Order B64.float) :=
  [ {| orderId := 1; params := protective "BTCUSDT" "STOP_MARKET" "BOTH" (B64.dec 45000 0) |};
    {| orderId := 2; params := protective "BTCUSDT" "TAKE_PROFIT_MARKET" "BOTH" (B64.dec 55000 0) |};
    {| orderId := 3; params := protective "ETHUSDT" "STOP_MARKET" "BOTH" (B64.dec 2000 0) |};
    {| orderId := 4; params := protective "BTCUSDT" "STOP_MARKET" "LONG" (B64.dec 44000 0) |} ].

Definition client_with_book : Client B64.float :=
  {| exchange_info := [Examples.btcusdt];
     ticker := fun _ => Ok (B64.dec 50000 0);
     account := Ok [ {| pos_positionSide := Some "BOTH" |} ];
     open_orders := book;
     next_order_id := 5;
     requests := [] |}.

(** An instrument priced at 1 with quantities in steps of [0.01] and a
    minimum notional of [0.55]. *)
Definition usdcusdt : SymbolInfo B64.float :=
  {| info_symbol := "USDCUSDT";
     filters :=
       [ {| filterType := "LOT_SIZE"; stepSize := Some "0.01"; tickSize := None;
            notional := None |};
         {| filterType := "MIN_NOTIONAL"; stepSize := None; tickSize := None;
            notional := Some (B64.dec 55 2) |} ] |}.

Definition client_usdc : Client B64.float :=
  {| exchange_info := [Examples.btcusdt; usdcusdt];
     ticker := fun _ => Ok (B64.dec 1 0);
     account := Ok [ {| pos_positionSide := Some "BOTH" |} ];
     open_orders := [];
     next_order_id := 1;
     requests := [] |}.

(** The same instruments in exact arithmetic, at the last price 50000. *)
Definition exact_filters (step : string) (min_notional : Q) : list (Filter Q) :=
  [ {| filterType := "LOT_SIZE"; stepSize := Some step; tickSize := None; notional := None |};
    {| filterType := "MIN_NOTIONAL"; stepSize := None; tickSize := None;
       notional := Some min_notional |} ].

Definition exact_client : Client Q :=
  {| exchange_info := [ {| info_symbol := "BTCUSDT"; filters := exact_filters "0.001" 5 |} ];
     ticker := fun _ => Ok 50000%Q;
     account := Ok [ {| pos_positionSide := Some "BOTH" |} ];
     open_orders := [];
     next_order_id := 1;
     requests := [] |}.

End ExampleBooks.

(** ** The order of doubles *)

Module B64Order.

(** Doubles other than NaN compare as their ranks do, lexicographically:
    the class (negative infinity, negative, zero, positive, positive
    infinity), then the exponent, then the mantissa. *)
Definition rank (x : B64.float) : Z * Z * Z :=
  match x with
  | S754_infinity true => (-2, 0, 0)
  | S754_finite true m e => (-1, - e, Z.neg m)
  | S754_zero _ => (0, 0, 0)
  | S754_nan => (0, 0, 0)
  | S754_finite false m e => (1, e, Z.pos m)
  | S754_infinity false => (2, 0, 0)
  end.

Definition lex_le (a b : Z * Z * Z) : Prop :=
  let '(a1, a2, a3) := a in
  let '(b1, b2, b3) := b in
  a1 < b1 \/ (a1 = b1 /\ (a2 < b2 \/ (a2 = b2 /\ a3 <= b3))).

Definition lex_lt (a b : Z * Z * Z) : Prop :=
  let '(a1, a2, a3) := a in
  let '(b1, b2, b3) := b in
  a1 < b1 \/ (a1 = b1 /\ (a2 < b2 \/ (a2 = b2 /\ a3 < b3))).

(** [a <= b] and [a >= b] on doubles, as relations. *)
Definition le (a b : B64.float) : Prop := B64.leb a b = true.
Definition ge (a b : B64.float) : Prop := B64.leb b a = true.

Definition not_nan (x : B64.float) : Prop := B64.is_nan x = false.

End B64Order.

(** ** Inputs of the examples *)

Module Inputs.

Definition three_targets : list B64.float := [B64.dec 100 0; B64.dec 90 0; B64.dec 110 0].

Definition near_targets : option (list B64.float) :=
  Some [B64.dec 101 2; B64.dec 102 2; B64.dec 103 2].

(** The state after [bulk_create_take_profits('BTCUSDT', 'BUY', 0.001,
    [100, 90, 110])] on the one-way account. *)
Definition after_ladder : Binance.Client B64.float :=
  snd (Binance.bulk_create_take_profits "BTCUSDT" "BUY" (B64.dec 1 3) (Some three_targets) None
         (Examples.client_at (B64.dec 95 0))).

(** [0.55 * 3], the minimum notional of [usdcusdt] for three targets. *)
Definition threshold_for_three : B64.float := B64.mul (B64.dec 55 2) (B64.dec 3 0).

End Inputs.

(** ** Inputs of the further examples *)

Module Calls.

(** [str(price)] where the examples need one. *)
Definition str_of (s : string) : B64.float -> string := fun _ => s.

(** [0.0], a stop-loss price that counts as none. *)
Definition zero : B64.float := S754_zero false.

Definition nan : B64.float := S754_nan.

Definition two_targets : list B64.float := [B64.dec 56000 0; B64.dec 54000 0].

(** The book of [ExampleBooks.client_with_book] after
    [close_stop_loss_orders('BTCUSDT', 'BOTH')]. *)
Definition after_stop_sweep : Binance.Client B64.float :=
  snd (Binance.close_stop_loss_orders "BTCUSDT" "BOTH" ExampleBooks.client_with_book).

End Calls.

(** ** Further read requests of [BinanceFuturesTrade] *)

Module BinanceReads.
Section WithFloat.
Context {F : Type} {PF : PyFloat F}.
Import Binance.

(** The loop of [get_min_notional] over the filters: the first
    [MIN_NOTIONAL] filter decides, [f.get('notional', 0)] is there or 0. *)
Fixpoint first_min_notional (fs : list (Filter F)) : F :=
  match fs with
  | [] => fzero
  | f :: fs' =>
      if String.eqb (filterType f) "MIN_NOTIONAL"
      then match notional f with Some v => v | None => fzero end
      else first_min_notional fs'
  end.

(** [f.get('filterType') == 'MIN_NOTIONAL'] *)
Definition is_min_notional (f : Filter F) : bool :=
  String.eqb (filterType f) "MIN_NOTIONAL".

Definition get_min_notional (sym : string) : M F :=
  bind get_trading_symbols (fun syms =>
    match find_symbol sym syms with
    | None => raise (ValueError SymbolNotFound)
    | Some s => ret (first_min_notional (filters s))
    end).

End WithFloat.

(** An entry of the ['brackets'] of a leverage bracket. *)
Record Bracket : Type := { initialLeverage : option Z }.

(** An entry of the answer of [futures_leverage_bracket]. *)
Record LeverageBracket : Type := {
  bracket_symbol : option string;
  brackets : option (list Bracket)
}.

(** What [get_max_leverage_for_symbol] can raise: the client's
    exception, [KeyError] of [b['initialLeverage']], [ValueError] of
    [max()] on an empty sequence, and its own [ValueError]. *)
Inductive leverage_error : Type :=
| ClientRaised (e : exn)
| MissingKey (key : string)
| MaxOfEmpty
| NoLeverageInfo.

Inductive outcome (A : Type) : Type :=
| Returned (a : A)
| Failed (e : leverage_error).
Arguments Returned {A} a.
Arguments Failed {A} e.

(** [max(b['initialLeverage'] for b in bracket_list)], with [acc] the
    largest value met so far, if any. *)
Fixpoint max_initial_leverage (acc : option Z) (bracket_list : list Bracket) : outcome Z :=
  match bracket_list with
  | [] => match acc with Some m => Returned m | None => Failed MaxOfEmpty end
  | b :: bs =>
      match initialLeverage b with
      | None => Failed (MissingKey "initialLeverage")
      | Some l =>
          max_initial_leverage (Some (match acc with Some m => Z.max m l | None => l end)) bs
      end
  end.

(** [bracket_obj.get('symbol') == symbol] *)
Definition for_symbol (sym : string) (o : LeverageBracket) : bool :=
  match bracket_symbol o with Some s => String.eqb s sym | None => false end.

Definition bracket_list_of (o : LeverageBracket) : list Bracket :=
  match brackets o with Some l => l | None => [] end.

(** The loop over the answer. *)
Fixpoint max_leverage_loop (sym : string) (objs : list LeverageBracket) (max_leverage : Z)
  : outcome Z :=
  match objs with
  | [] => Returned max_leverage
  | bracket_obj :: rest =>
      if for_symbol sym bracket_obj then
        match max_initial_leverage None (bracket_list_of bracket_obj) with
        | Returned possible => max_leverage_loop sym rest (Z.max max_leverage possible)
        | Failed e => Failed e
        end
      else max_leverage_loop sym rest max_leverage
  end.

Definition get_max_leverage_for_symbol
    (futures_leverage_bracket : result (list LeverageBracket)) (sym : string) : outcome Z :=
  match futures_leverage_bracket with
  | Raise e => Failed (ClientRaised e)
  | Ok objs =>
      match max_leverage_loop sym objs (-1) with
      | Returned max_leverage =>
          if max_leverage <? 1 then Failed NoLeverageInfo else Returned max_leverage
      | Failed e => Failed e
      end
  end.

(** The leverages listed for a symbol in an answer. *)
Definition listed_leverage (sym : string) (objs : list LeverageBracket) (l : Z) : Prop :=
  exists o b, In o objs /\ for_symbol sym o = true
              /\ In b (bracket_list_of o) /\ initialLeverage b = Some l.

(** Every entry of the answer for the symbol lists at least one bracket,
    and each of its brackets carries ['initialLeverage']. *)
Definition complete (sym : string) (objs : list LeverageBracket) : Prop :=
  forall o, In o objs -> for_symbol sym o = true ->
    bracket_list_of o <> []
    /\ forall b, In b (bracket_list_of o) -> initialLeverage b <> None.

End BinanceReads.

(** ** Finite doubles *)

Module B64Finite.

(** A double that is neither NaN nor an infinity. *)
Definition finite (x : B64.float) : bool :=
  match x with
  | S754_zero _ | S754_finite _ _ _ => true
  | _ => false
  end.

End B64Finite.

(** ** Answers of [futures_leverage_bracket] *)

Module Brackets.
Import BinanceReads.

Definition tier (l : Z) : Bracket := {| initialLeverage := Some l |}.

Definition ethusdt : LeverageBracket :=
  {| bracket_symbol := Some "ETHUSDT"; brackets := Some [tier 100; tier 75; tier 50] |}.

Definition btcusdt : LeverageBracket :=
  {| bracket_symbol := Some "BTCUSDT"; brackets := Some [tier 50; tier 125; tier 100] |}.

(** An entry for BTCUSDT without ['brackets']. *)
Definition btcusdt_bare : LeverageBracket :=
  {| bracket_symbol := Some "BTCUSDT"; brackets := None |}.

End Brackets.

(** ** A large amount *)

Module Large.

(** [1e308] *)
Definition amount : B64.float :=
  match B64.of_int (10 ^ 308) with Ok x => x | Raise _ => S754_nan end.

Definition bitget_at (p : B64.float) : BitGet.Client B64.float :=
  {| BitGet.mix_get_single_symbol_ticker := fun _ => Ok (Some p);
     BitGet.mix_get_accounts := Ok None |}.

Definition bybit_at (p : B64.float) : ByBit.Client B64.float :=
  {| ByBit.get_tickers := fun sym =>
       Ok {| ByBit.retCode := 0;
             ByBit.result_list := Some [ {| ByBit.symbol := sym; ByBit.lastPrice := p |} ] |} |}.

End Large.

(** ** Refused requests *)

Module Refused.

(** Bybit answering [retCode = 10001] with an empty result. *)
Definition bybit : ByBit.Client B64.float :=
  {| ByBit.get_tickers := fun _ => Ok {| ByBit.retCode := 10001; ByBit.result_list := None |} |}.

(** OKX refusing the account request. *)
Definition okx : OKX.Client B64.float :=
  {| OKX.get_ticker := fun _ => Ok None;
     OKX.get_instruments := fun _ _ => Ok None;
     OKX.get_account_config := Raise OkxAPIException |}.

End Refused.

(** * Properties *)

(** ** Precision of a step string *)

Section Precision.
Local Open Scope string_scope.

Lemma rstrip_keeps_point (c : ascii) (frac : string) :
  c <> "."%char ->
  PyStr.rstrip c (String "." frac) = String "." (PyStr.rstrip c frac).
Proof.
  intros Hc. cbn [PyStr.rstrip].
  destruct (PyStr.rstrip c frac); [|reflexivity].
  destruct (Ascii.eqb_spec "." c); [congruence|reflexivity].
Qed.

Lemma step_precision_point (a : ascii) (frac : string) :
  Binance.step_precision (String a (String "." frac))
  = PyStr.len (PyStr.rstrip "0" frac).
Proof.
  unfold Binance.step_precision.
  change (PyStr.rstrip "0" (String a (String "." frac)))
    with (match PyStr.rstrip "0" (String "." frac) with
          | EmptyString => if Ascii.eqb a "0" then EmptyString else String a EmptyString
          | r => String a r
          end).
  rewrite rstrip_keeps_point by discriminate.
  unfold PyStr.len. cbn [String.length].
  lia.
Qed.

Lemma split_no_sep (c : ascii) (s : string) :
  PyStr.contains c s = false -> PyStr.split c s = [s].
Proof.
  induction s as [|a s IH]; cbn [PyStr.contains PyStr.split]; [reflexivity|].
  destruct (Ascii.eqb a c); [discriminate|].
  intros Hs. rewrite (IH Hs). reflexivity.
Qed.

Lemma split_at_sep (c : ascii) (ip rest : string) :
  PyStr.contains c ip = false ->
  PyStr.split c (ip ++ String c rest) = ip :: PyStr.split c rest.
Proof.
  induction ip as [|a ip IH]; cbn [PyStr.contains PyStr.split String.append].
  - intros _. rewrite Ascii.eqb_refl. reflexivity.
  - destruct (Ascii.eqb a c); [discriminate|].
    intros Hs. rewrite (IH Hs). reflexivity.
Qed.

Lemma contains_app (c : ascii) (s t : string) :
  PyStr.contains c (s ++ String c t) = true.
Proof.
  induction s as [|a s IH]; cbn [PyStr.contains String.append].
  - now rewrite Ascii.eqb_refl.
  - destruct (Ascii.eqb a c); [reflexivity|exact IH].
Qed.

Lemma calc_precision_point (ip frac : string) :
  PyStr.contains "." ip = false ->
  PyStr.contains "." frac = false ->
  OKX._calc_precision (ip ++ String "." frac) = PyStr.len (PyStr.rstrip "0" frac).
Proof.
  intros Hi Hf. unfold OKX._calc_precision.
  rewrite contains_app. cbn [negb].
  rewrite (split_at_sep _ _ _ Hi), (split_no_sep _ _ Hf). reflexivity.
Qed.

Lemma calc_precision_no_point (s : string) :
  PyStr.contains "." s = false -> OKX._calc_precision s = 0.
Proof.
  intros Hs. unfold OKX._calc_precision. now rewrite Hs.
Qed.

(** C3, as the spec states its third example: it does not hold.  The
    fraction of ["0.010"] without its trailing zero is ["01"], two
    digits, and both computations return 2. *)
Lemma precision_0_010_is_not_1 :
  OKX._calc_precision "0.010" = 2 /\ Binance.step_precision "0.010" = 2
  /\ OKX.get_quantity_precision (Examples.okx_with_step "0.010") "BTC-USDT-SWAP" = Ok 2
  /\ fst (Binance.get_quantity_precision "BTCUSDT" (Examples.client_with_step "0.010")) = Ok 2
  /\ ~ (OKX._calc_precision "0.010" = 1 /\ Binance.step_precision "0.010" = 1).
Proof.
  repeat split; try reflexivity. intros [H _]. discriminate H.
Qed.

(** C3, amended.  For a step [ip.frac] with one decimal point, OKX's
    [_calc_precision] is the number of characters of [frac] that remain
    when its trailing zeros are dropped, and a step without a decimal
    point gives 0; Binance's [max(len(step.rstrip('0')) - 2, 0)] gives
    the same number whenever exactly one character stands before the
    point, and 0 for a one-character step.  [get_quantity_precision]
    returns these numbers for the step of the instrument.  On ["0.0001"],
    ["1"] and ["0.010"] both give 4, 0 and 2. *)
Theorem precision_counts_fraction_digits :
  (forall ip frac,
      PyStr.contains "." ip = false -> PyStr.contains "." frac = false ->
      OKX._calc_precision (ip ++ String "." frac) = PyStr.len (PyStr.rstrip "0" frac))
  /\ (forall s, PyStr.contains "." s = false -> OKX._calc_precision s = 0)
  /\ (forall a frac,
         Binance.step_precision (String a (String "." frac))
         = PyStr.len (PyStr.rstrip "0" frac))
  /\ (forall a, Binance.step_precision (String a EmptyString) = 0)
  /\ (forall step,
         OKX.get_quantity_precision (Examples.okx_with_step step) "BTC-USDT-SWAP"
         = Ok (OKX._calc_precision step)
         /\ fst (Binance.get_quantity_precision "BTCUSDT" (Examples.client_with_step step))
            = Ok (Binance.step_precision step))
  /\ (OKX._calc_precision "0.0001" = 4 /\ Binance.step_precision "0.0001" = 4)
  /\ (OKX._calc_precision "1" = 0 /\ Binance.step_precision "1" = 0)
  /\ (OKX._calc_precision "0.010" = 2 /\ Binance.step_precision "0.010" = 2).
Proof.
  split; [exact calc_precision_point|].
  split; [exact calc_precision_no_point|].
  split; [exact step_precision_point|].
  split.
  - intros a. unfold Binance.step_precision. cbn [PyStr.rstrip].
    destruct (Ascii.eqb a "0"); reflexivity.
  - split; [intros step; split; reflexivity|].
    repeat split; reflexivity.
Qed.

Lemma precision_counts_fraction_digits_witness :
  PyStr.contains "." "10" = false /\ PyStr.contains "." "2500" = false
  /\ OKX._calc_precision "10.2500" = 2.
Proof.
  split; [reflexivity|]. split; [reflexivity|].
  exact (proj1 precision_counts_fraction_digits "10" "2500" eq_refl eq_refl).
Defined.

End Precision.

(** ** Rounding up *)

Section RoundMoreExact.
Local Open Scope Q_scope.

Lemma pow10_pos (d : Z) : (0 <= d)%Z -> (0 < 10 ^ d)%Z.
Proof. intros Hd. apply Z.pow_pos_nonneg; lia. Qed.

Lemma inject_pow10_pos (d : Z) : (0 <= d)%Z -> 0 < inject_Z (10 ^ d).
Proof.
  intros Hd. change 0 with (inject_Z 0). rewrite <- Zlt_Qlt. now apply pow10_pos.
Qed.

(** The quotient of a ceiling: [ceil(x * s) / s] lies in [[x, x + 1/s)]. *)
Lemma ceiling_quotient_bounds (x s : Q) :
  0 < s ->
  x <= inject_Z (Qceiling (x * s)) / s
  /\ inject_Z (Qceiling (x * s)) / s - x < 1 / s.
Proof.
  intros Hs.
  pose proof (Qle_ceiling (x * s)) as Hle.
  pose proof (Qceiling_lt (x * s)) as Hlt.
  unfold Z.sub in Hlt. rewrite inject_Z_plus in Hlt.
  change (inject_Z (- (1))) with (-(1)) in Hlt.
  assert (Hs' : ~ s == 0) by (intros E; rewrite E in Hs; discriminate).
  split.
  - apply Qle_shift_div_l; assumption.
  - setoid_replace (inject_Z (Qceiling (x * s)) / s - x)
      with ((inject_Z (Qceiling (x * s)) - x * s) / s) by (field; exact Hs').
    apply Qlt_shift_div_l; [assumption|].
    assert (E : (inject_Z (Qceiling (x * s)) - x * s) / s * s
                == inject_Z (Qceiling (x * s)) - x * s) by (field; exact Hs').
    rewrite E. lra.
Qed.

Lemma round_more_exact (x : Q) (d : Z) :
  (0 <= d)%Z ->
  round_more x d = Ok (inject_Z (Qceiling (x * inject_Z (10 ^ d))) / inject_Z (10 ^ d)).
Proof.
  intros Hd. unfold round_more. cbn.
  unfold Exact.truediv.
  pose proof (pow10_pos d Hd).
  destruct (Z.eqb_spec (10 ^ d) 0); [lia|reflexivity].
Qed.

Lemma okx_round_more_exact (x : Q) (d : Z) :
  (0 <= d)%Z ->
  exists r, OKX.round_more x d = Ok r
    /\ match r with
       | OKX.Int n => d = 0%Z /\ n = Qceiling x
       | OKX.Float y => (0 < d)%Z /\ round_more x d = Ok y
       end.
Proof.
  intros Hd. unfold OKX.round_more.
  destruct (Z.leb_spec d 0).
  - eexists. split; [reflexivity|]. cbn. split; [lia|reflexivity].
  - rewrite round_more_exact by lia. cbn. unfold Exact.truediv.
    pose proof (pow10_pos d Hd).
    destruct (Z.eqb_spec (10 ^ d) 0); [lia|].
    eexists. split; [reflexivity|]. cbn. split; [lia|reflexivity].
Qed.

End RoundMoreExact.

Section CeilingOfDoubles.
Local Open Scope Q_scope.

(** [math.ceil] on a finite double returns the least integer not below
    its value. *)
Lemma ceil_least_integer_above (x : B64.float) (n : Z) :
  B64.ceil x = Ok n -> B64.to_Q x <= inject_Z n /\ inject_Z n - 1 < B64.to_Q x.
Proof.
  assert (Hpred : forall k : Q, k <= k /\ k - 1 < k) by (intros k; split; lra).
  destruct x as [s|s| |s m e]; cbn [B64.ceil B64.to_Q]; try discriminate.
  - intros [= <-]. apply Hpred.
  - set (n0 := if s then Z.neg m else Z.pos m).
    destruct e as [|p|p]; intros E.
    + assert (n = n0 * 2 ^ 0)%Z by congruence. subst n. apply Hpred.
    + assert (n = n0 * 2 ^ Z.pos p)%Z by congruence. subst n. apply Hpred.
    + assert (n = - (- n0 / 2 ^ Z.pos p))%Z by congruence. subst n. clear E.
      assert (HD : (0 < 2 ^ Z.pos p)%Z) by (apply Z.pow_pos_nonneg; lia).
      pose proof (Z.div_mod (- n0) (2 ^ Z.pos p) ltac:(lia)) as Hdm.
      pose proof (Z.mod_pos_bound (- n0) (2 ^ Z.pos p) HD) as Hr.
      rewrite Qmake_Qdiv, Pos2Z.inj_pow.
      set (D := (2 ^ Z.pos p)%Z) in *.
      set (q := (- n0 / D)%Z) in *. set (r := ((- n0) mod D)%Z) in *.
      assert (HDq : 0 < inject_Z D) by (change 0 with (inject_Z 0); now rewrite <- Zlt_Qlt).
      assert (Hn0 : inject_Z n0 == inject_Z (- q) * inject_Z D - inject_Z r).
      { rewrite <- inject_Z_mult. unfold Qminus. rewrite <- inject_Z_opp, <- inject_Z_plus.
        apply inject_Z_injective. lia. }
      assert (Hr0 : 0 <= inject_Z r) by (change 0 with (inject_Z 0); rewrite <- Zle_Qle; lia).
      assert (HrD : inject_Z r < inject_Z D) by (rewrite <- Zlt_Qlt; lia).
      split.
      * apply Qle_shift_div_r; [exact HDq|]. rewrite Hn0. lra.
      * apply Qlt_shift_div_l; [exact HDq|]. rewrite Hn0. lra.
Qed.

End CeilingOfDoubles.

(** C8, as stated, on doubles: it does not hold.
    [round_more(28.700000000000003, 1)] is [28.7], below its argument,
    because [28.700000000000003 * 10] rounds to [287.0]; and
    [round_more(1.1, 2)] is [1.11], which exceeds the double [1.1] by more
    than [1/100]. *)
Lemma round_more_binary64_breaks_bounds :
  (round_more (B64.dec 28700000000000003 15) 1 = Ok (B64.dec 287 1)
   /\ B64.leb (B64.dec 28700000000000003 15) (B64.dec 287 1) = false
   /\ ~ (B64.to_Q (B64.dec 28700000000000003 15) <= B64.to_Q (B64.dec 287 1))%Q)
  /\ (round_more (B64.dec 11 1) 2 = Ok (B64.dec 111 2)
      /\ ~ (B64.to_Q (B64.dec 111 2) - B64.to_Q (B64.dec 11 1) < 1 / inject_Z (10 ^ 2))%Q).
Proof.
  split; [split; [|split]|split].
  - vm_compute. reflexivity.
  - vm_compute. reflexivity.
  - intros H. apply Qle_bool_iff in H. vm_compute in H. discriminate H.
  - vm_compute. reflexivity.
  - intros H. apply Qlt_not_le in H. apply H.
    apply Qle_bool_iff. vm_compute. reflexivity.
Qed.

(** C8, amended.  In exact arithmetic, for every [x] and every [d >= 0],
    [round_more(x, d)] returns some [r] with [r >= x] and
    [r - x < 10^-d], in the Binance, Bybit and Bitget version as in OKX's;
    on doubles, [round_more(1.2301, 2) = 1.24]. *)
Theorem round_more_rounds_up (x : Q) (d : Z) :
  0 <= d ->
  (exists r, round_more x d = Ok r
             /\ (x <= r)%Q /\ (r - x < 1 / inject_Z (10 ^ d))%Q)
  /\ (exists r, OKX.round_more x d = Ok r
                /\ (x <= okx_value r)%Q
                /\ (okx_value r - x < 1 / inject_Z (10 ^ d))%Q)
  /\ round_more (B64.dec 12301 4) 2 = Ok (B64.dec 124 2)
  /\ OKX.round_more (B64.dec 12301 4) 2 = Ok (OKX.Float (B64.dec 124 2)).
Proof.
  intros Hd.
  pose proof (ceiling_quotient_bounds x _ (inject_pow10_pos d Hd)) as [Hle Hlt].
  split; [|split; [|split; vm_compute; reflexivity]].
  - eexists. split; [apply round_more_exact; exact Hd|]. split; assumption.
  - destruct (okx_round_more_exact x d Hd) as [r [Hr Hcase]].
    exists r. split; [exact Hr|].
    destruct r as [n|y]; cbn [okx_value].
    + destruct Hcase as [-> ->].
      pose proof (Qle_ceiling x). pose proof (Qceiling_lt x) as Hc.
      unfold Z.sub in Hc. rewrite inject_Z_plus in Hc.
      change (inject_Z (- (1))) with (-(1))%Q in Hc.
      change (inject_Z (10 ^ 0)) with 1%Q.
      split; [assumption|]. setoid_replace (1 / 1)%Q with 1%Q by reflexivity. lra.
    + destruct Hcase as [_ Hy]. rewrite round_more_exact in Hy by exact Hd.
      injection Hy as <-. split; assumption.
Qed.

Lemma round_more_rounds_up_witness :
  exists r, round_more (12301 # 10000)%Q 2 = Ok r
            /\ ((12301 # 10000) <= r)%Q /\ (r - (12301 # 10000) < 1 / inject_Z (10 ^ 2))%Q.
Proof.
  exact (proj1 (round_more_rounds_up (12301 # 10000)%Q 2 ltac:(lia))).
Defined.

(** ** Trading mode *)

Section TradingMode.
Context {F : Type} {PF : PyFloat F}.

Lemma binance_get_trading_mode_run (c : Binance.Client F) :
  Binance.get_trading_mode c
  = match Binance.account c with
    | Ok positions =>
        (Ok (if existsb Binance.long_or_short positions then "HEDGE" else "ONE_WAY"), c)
    | Raise e => (Raise e, c)
    end.
Proof.
  unfold Binance.get_trading_mode, Binance.bind, Binance.client_futures_account, Binance.ret.
  destruct (Binance.account c); reflexivity.
Qed.

End TradingMode.

(** When the account request is answered, every implementation returns
    ['ONE_WAY'] or ['HEDGE']; Bybit sends no request. *)
Lemma get_trading_mode_answered (F : Type) (PF : PyFloat F) :
  (forall (c : OKX.Client F) conf,
      OKX.get_account_config c = Ok conf ->
      OKX.get_trading_mode c = Ok "ONE_WAY" \/ OKX.get_trading_mode c = Ok "HEDGE")
  /\ (forall c : ByBit.Client F, ByBit.get_trading_mode c = Ok "ONE_WAY")
  /\ (forall (c : Binance.Client F) positions,
         Binance.account c = Ok positions ->
         Binance.get_trading_mode c = (Ok "ONE_WAY", c)
         \/ Binance.get_trading_mode c = (Ok "HEDGE", c))
  /\ (forall (c : BitGet.Client F) accounts,
         BitGet.mix_get_accounts c = Ok accounts ->
         BitGet.get_trading_mode c = Ok "ONE_WAY" \/ BitGet.get_trading_mode c = Ok "HEDGE").
Proof.
  split; [|split; [reflexivity|split]].
  - intros c conf H. unfold OKX.get_trading_mode. rewrite H.
    destruct conf as [[|conf l]|]; auto.
    destruct (OKX.posMode conf) as [pmode|]; auto.
    destruct (String.eqb pmode "long_short_mode"); auto.
  - intros c ps H. rewrite binance_get_trading_mode_run, H.
    destruct (existsb Binance.long_or_short ps); auto.
  - intros c accounts H. unfold BitGet.get_trading_mode. rewrite H.
    destruct accounts as [[|a l]|]; cbn; auto.
    destruct (BitGet.holdMode a) as [m|]; auto.
    destruct (String.eqb m "double_hold_mode"); auto.
Qed.

(** OKX: the handler around the request turns an [OkxAPIException] into
    the default ['ONE_WAY']. *)
Lemma okx_get_trading_mode_default (F : Type) (PF : PyFloat F) (c : OKX.Client F) :
  OKX.get_account_config c = Raise OkxAPIException -> OKX.get_trading_mode c = Ok "ONE_WAY".
Proof. intros H. unfold OKX.get_trading_mode. now rewrite H. Qed.

(** Binance and Bitget: no handler, whatever the request raises comes
    out of [get_trading_mode]. *)
Lemma binance_get_trading_mode_raises (F : Type) (PF : PyFloat F) (c : Binance.Client F)
    (e : exn) :
  Binance.account c = Raise e -> Binance.get_trading_mode c = (Raise e, c).
Proof. intros H. now rewrite binance_get_trading_mode_run, H. Qed.

Lemma bitget_get_trading_mode_raises (F : Type) (PF : PyFloat F) (c : BitGet.Client F)
    (e : exn) :
  BitGet.mix_get_accounts c = Raise e -> BitGet.get_trading_mode c = Raise e.
Proof. intros H. unfold BitGet.get_trading_mode. now rewrite H. Qed.

(** C4 on Binance and Bitget: the default is missing.  Where OKX answers
    a refused account request with ['ONE_WAY'], Binance's and Bitget's
    [get_trading_mode] raise the exception of the request, and the calls
    that resolve the mode through it stop with that exception:
    [create_stop_loss] on Binance sends nothing. *)
Theorem get_trading_mode_without_default :
  OKX.get_trading_mode Refused.okx = Ok "ONE_WAY"
  /\ fst (Binance.get_trading_mode Examples.client_down) = Raise (ClientError (-1021))
  /\ BitGet.get_trading_mode Examples.bitget_down = Raise (ClientError 40014)
  /\ Binance.create_stop_loss "BTCUSDT" "BUY" (Some (B64.dec 45000 0)) None
       Examples.client_down
     = (Raise (ClientError (-1021)), Examples.client_down).
Proof.
  split; [|split; [|split]].
  - apply (okx_get_trading_mode_default _ binary64). reflexivity.
  - rewrite (binance_get_trading_mode_raises _ binary64 _ (ClientError (-1021)));
      reflexivity.
  - apply (bitget_get_trading_mode_raises _ binary64). reflexivity.
  - unfold Binance.create_stop_loss, Binance.bind at 1.
    rewrite (binance_get_trading_mode_raises _ binary64 _ (ClientError (-1021)));
      reflexivity.
Qed.

(** ** The price guard of position sizing *)

Section PriceGuard.
Context {F : Type} {PF : PyFloat F}.

(** Bybit, Bitget and OKX refuse a price that is zero or negative before
    any arithmetic is done. *)
Lemma bybit_rejects_bad_price (c : ByBit.Client F) sym usdt lev adj tps p :
  ByBit.get_current_price c sym = Ok p -> fle p fzero = true ->
  ByBit.calculate_quantity_from_usdt c sym usdt lev adj tps = Raise (ValueError BadPrice).
Proof.
  intros Hp Hle. unfold ByBit.calculate_quantity_from_usdt. rewrite Hp. cbn. now rewrite Hle.
Qed.

Lemma bitget_rejects_bad_price (c : BitGet.Client F) sym usdt lev adj tps p :
  BitGet.get_current_price c sym = Ok p -> fle p fzero = true ->
  BitGet.calculate_quantity_from_usdt c sym usdt lev adj tps = Raise (ValueError BadPrice).
Proof.
  intros Hp Hle. unfold BitGet.calculate_quantity_from_usdt. rewrite Hp. cbn. now rewrite Hle.
Qed.

Lemma okx_rejects_bad_price (c : OKX.Client F) sym usdt lev adj tps p :
  OKX.get_current_price c sym = Ok p -> fle p fzero = true ->
  OKX.calculate_quantity_from_usdt c sym usdt lev adj tps = Raise (ValueError BadPrice).
Proof.
  intros Hp Hle. unfold OKX.calculate_quantity_from_usdt. rewrite Hp. cbn. now rewrite Hle.
Qed.

End PriceGuard.

(** C5 on Binance: the guard is missing.  With a last price of [-1] the
    call returns the quantity [-100.0] for 100 USDT at leverage 1, and with
    a last price of [0] it stops on the division, with [ZeroDivisionError]
    and not with the [ValueError] of the other three implementations. *)
Theorem binance_sizes_without_price_guard :
  B64.leb (B64.dec (-1) 0) (S754_zero false) = true
  /\ fst (Binance.calculate_quantity_from_usdt "BTCUSDT" (B64.dec 100 0) 1 true None
            (Examples.client_at (B64.dec (-1) 0)))
     = Ok (B64.dec (-100) 0)
  /\ fst (Binance.calculate_quantity_from_usdt "BTCUSDT" (B64.dec 100 0) 1 true None
            (Examples.client_at (S754_zero false)))
     = Raise ZeroDivisionError.
Proof.
  repeat split; vm_compute; reflexivity.
Qed.

(** ** The Binance client: running the calls *)

Section BinanceRuns.
Context {F : Type} {PF : PyFloat F}.
Import Binance BinanceObs.

Lemma bind_ok {A B} (m : M A) (k : A -> M B) (c c' : Client F) (a : A) :
  m c = (Ok a, c') -> bind m k c = k a c'.
Proof. intros E. unfold bind. now rewrite E. Qed.

Lemma bind_raise {A B} (m : M A) (k : A -> M B) (c c' : Client F) (e : exn) :
  m c = (Raise e, c') -> bind m k c = (Raise e, c').
Proof. intros E. unfold bind. now rewrite E. Qed.

Lemma with_orders_same (c : Client F) :
  with_orders c (open_orders c) (next_order_id c) (requests c) = c.
Proof. destruct c; reflexivity. Qed.

Lemma filter_all {A} (f : A -> bool) (l : list A) :
  (forall x, In x l -> f x = true) -> filter f l = l.
Proof.
  induction l as [|a l IH]; cbn; intros Hf; [reflexivity|].
  rewrite (Hf a) by now left. f_equal. apply IH. intros x Hx. apply Hf. now right.
Qed.

Lemma filter_filter {A} (f g : A -> bool) (l : list A) :
  filter f (filter g l) = filter (fun x => g x && f x) l.
Proof.
  induction l as [|a l IH]; cbn; [reflexivity|].
  destruct (g a); cbn; [destruct (f a)|]; now rewrite IH.
Qed.

Lemma NoDup_map_inj {A B} (f : A -> B) (l : list A) (x y : A) :
  NoDup (map f l) -> In x l -> In y l -> f x = f y -> x = y.
Proof.
  induction l as [|a l IH]; cbn; [contradiction|].
  intros Hnd Hx Hy E. inversion Hnd as [|? ? Hnot Hnd']; subst.
  destruct Hx as [->|Hx], Hy as [->|Hy]; auto.
  - exfalso. apply Hnot. rewrite E. now apply in_map.
  - exfalso. apply Hnot. rewrite <- E. now apply in_map.
Qed.

Lemma order_matches_symbol ty sym position_side (o : Order F) :
  order_matches sym ty position_side o = true -> String.eqb (symbol (params o)) sym = true.
Proof.
  unfold order_matches. intros H.
  apply andb_true_iff in H as [H _]. now apply andb_true_iff in H as [H _].
Qed.

Lemma swept_own_book ty sym position_side (l : list (Order F)) (o : Order F) :
  NoDup (map orderId l) -> In o l ->
  swept ty sym position_side l o = order_matches sym ty position_side o.
Proof.
  intros Hnd Ho. apply eq_true_iff_eq. unfold swept. rewrite existsb_exists. split.
  - intros [x [Hx H]]. apply andb_true_iff in H as [Hm Hid].
    unfold is_order in Hid. apply andb_true_iff in Hid as [_ Hid].
    apply Z.eqb_eq in Hid.
    now rewrite (NoDup_map_inj orderId l o x Hnd Ho Hx Hid).
  - intros Hm. exists o. split; [exact Ho|].
    rewrite Hm. unfold is_order.
    rewrite (order_matches_symbol _ _ _ _ Hm), Z.eqb_refl. reflexivity.
Qed.

Lemma cancel_loop_run ty sym position_side (l : list (Order F)) :
  forall c : Client F,
    NoDup (map orderId l) ->
    (forall o, In o l -> order_matches sym ty position_side o = true -> In o (open_orders c)) ->
    for_each (fun ord_obj =>
                if order_matches sym ty position_side ord_obj
                then close_order sym (orderId ord_obj)
                else ret tt) l c
    = (Ok tt,
       with_orders c
         (filter (fun o => negb (swept ty sym position_side l o)) (open_orders c))
         (next_order_id c)
         (requests c ++ cancellations sym (filter (order_matches sym ty position_side) l))).
Proof.
  induction l as [|x l IH]; intros c Hnd Hin.
  - cbn. unfold ret. rewrite filter_all by reflexivity.
    now rewrite app_nil_r, with_orders_same.
  - inversion Hnd as [|? ? Hnot Hnd']; subst.
    cbn [for_each filter].
    destruct (order_matches sym ty position_side x) eqn:Hm.
    + assert (Hx : In x (open_orders c)) by (apply Hin; [now left|exact Hm]).
      assert (Hex : existsb (is_order sym (orderId x)) (open_orders c) = true).
      { apply existsb_exists. exists x. split; [exact Hx|]. unfold is_order.
        now rewrite (order_matches_symbol _ _ _ _ Hm), Z.eqb_refl. }
      erewrite bind_ok; cycle 1.
      { unfold close_order, client_futures_cancel_order. rewrite Hex. reflexivity. }
      rewrite IH; [|exact Hnd'|].
      * cbn [open_orders next_order_id requests with_orders exchange_info ticker account].
        f_equal. unfold with_orders. cbn. f_equal.
        -- rewrite filter_filter. apply filter_ext. intros o.
           unfold swept. cbn [existsb]. rewrite Hm. cbn [andb].
           now rewrite negb_orb.
        -- unfold cancellations. cbn [map]. now rewrite <- app_assoc.
      * intros o Ho Hmo. cbn [open_orders with_orders].
        apply filter_In. split; [apply Hin; [now right|exact Hmo]|].
        unfold is_order. apply negb_true_iff, andb_false_iff. right.
        apply Z.eqb_neq. intros E. apply Hnot. rewrite <- E. now apply in_map.
    + erewrite bind_ok by reflexivity.
      rewrite IH; [|exact Hnd'|intros o Ho; apply Hin; now right].
      f_equal. f_equal. apply filter_ext. intros o.
      unfold swept. cbn [existsb]. now rewrite Hm.
Qed.

Lemma close_orders_of_type_run ty sym position_side (c : Client F) :
  well_formed c ->
  close_orders_of_type ty sym position_side c
  = (Ok tt,
     with_orders c
       (filter (fun o => negb (order_matches sym ty position_side o)) (open_orders c))
       (next_order_id c)
       (requests c
        ++ cancellations sym (filter (order_matches sym ty position_side) (open_orders c)))).
Proof.
  intros [Hnd _]. unfold close_orders_of_type.
  erewrite bind_ok by reflexivity.
  rewrite cancel_loop_run; [|exact Hnd|auto].
  f_equal. f_equal. apply filter_ext_in. intros o Ho.
  now rewrite swept_own_book.
Qed.

End BinanceRuns.

(** ** Protective orders on Binance *)

Section BinanceProtective.
Context {F : Type} {PF : PyFloat F}.
Import Binance BinanceObs.

Lemma well_formed_filter (c : Client F) (f : Order F -> bool) (r : list (Request F)) :
  well_formed c -> well_formed (with_orders c (filter f (open_orders c)) (next_order_id c) r).
Proof.
  intros [Hnd Hlt]. split; cbn.
  - clear Hlt. induction (open_orders c) as [|o l IH]; cbn; [constructor|].
    inversion Hnd as [|? ? Hnot Hnd']; subst.
    destruct (f o); cbn; [|now apply IH].
    constructor; [|now apply IH].
    intros Hin. apply Hnot. apply in_map_iff in Hin as [y [Hy Hin]].
    apply filter_In in Hin as [Hin _]. rewrite <- Hy. now apply in_map.
  - apply Forall_forall. intros o Ho. apply filter_In in Ho as [Ho _].
    rewrite Forall_forall in Hlt. now apply Hlt.
Qed.

Lemma well_formed_create (c : Client F) (p : OrderParams F) :
  well_formed c -> well_formed (snd (client_futures_create_order p c)).
Proof.
  intros [Hnd Hlt]. split; cbn.
  - rewrite map_app. cbn. rewrite Forall_forall in Hlt.
    apply NoDup_app; [exact Hnd|repeat constructor; intros []|].
    intros a Ha [<-|[]]. apply in_map_iff in Ha as [o [Ho Hin]].
    specialize (Hlt o Hin). lia.
  - apply Forall_app. split.
    + eapply Forall_impl; [|exact Hlt]. cbn. intros; lia.
    + repeat constructor. cbn. lia.
Qed.

Lemma create_stop_loss_run (c : Client F) sym side_ sl trading_mode mode :
  well_formed c ->
  mode_for_stop_loss trading_mode c = Ok mode ->
  create_stop_loss sym side_ (Some sl) trading_mode c
  = (Ok tt,
     with_orders c
       (filter (fun o => negb (order_matches sym "STOP_MARKET" (position_side_of mode side_) o))
          (open_orders c)
        ++ [ {| orderId := next_order_id c;
                params := stop_loss_params sym side_ sl (position_side_of mode side_) |} ])
       (next_order_id c + 1)
       (requests c
        ++ cancellations sym
             (filter (order_matches sym "STOP_MARKET" (position_side_of mode side_))
                (open_orders c))
        ++ [ CreateOrder (stop_loss_params sym side_ sl (position_side_of mode side_)) ])).
Proof.
  intros Hwf Hmode. unfold create_stop_loss.
  assert (Htm : (match trading_mode with
                 | Some s => if String.eqb s EmptyString then get_trading_mode else ret s
                 | None => get_trading_mode
                 end) c = (Ok mode, c)).
  { unfold mode_for_stop_loss in Hmode. rewrite binance_get_trading_mode_run in Hmode.
    destruct trading_mode as [s|]; [destruct (String.eqb s EmptyString)|];
      rewrite ?binance_get_trading_mode_run;
      try (destruct (account c); cbn in Hmode; congruence).
    unfold ret. congruence. }
  erewrite bind_ok by exact Htm.
  erewrite bind_ok by (apply close_orders_of_type_run; exact Hwf).
  erewrite bind_ok by reflexivity.
  unfold ret. f_equal. unfold with_orders. cbn. f_equal.
  now rewrite <- app_assoc.
Qed.

Lemma filter_app_single {A} (f : A -> bool) (l : list A) (x : A) :
  f x = true -> (forall y, In y l -> f y = false) -> filter f (l ++ [x]) = [x].
Proof.
  intros Hx Hl. rewrite filter_app. cbn. rewrite Hx.
  replace (filter f l) with (@nil A); [reflexivity|].
  symmetry. induction l as [|a l IH]; cbn; [reflexivity|].
  rewrite (Hl a) by now left. apply IH. intros y Hy. apply Hl. now right.
Qed.

Lemma stop_loss_params_match sym side_ (sl : F) position_side n :
  order_matches sym "STOP_MARKET" position_side
    {| orderId := n; params := stop_loss_params sym side_ sl position_side |} = true.
Proof.
  unfold order_matches. cbn. now rewrite !String.eqb_refl.
Qed.

Lemma one_stop_after_sweep (l : list (Order F)) sym side_ (sl : F) position_side n :
  filter (order_matches sym "STOP_MARKET" position_side)
    (filter (fun o => negb (order_matches sym "STOP_MARKET" position_side o)) l
     ++ [ {| orderId := n; params := stop_loss_params sym side_ sl position_side |} ])
  = [ {| orderId := n; params := stop_loss_params sym side_ sl position_side |} ].
Proof.
  apply filter_app_single; [apply stop_loss_params_match|].
  intros y Hy. apply filter_In in Hy as [_ Hy]. now apply negb_true_iff.
Qed.

End BinanceProtective.

(** C10.  On a book with unique order ids, [close_stop_loss_orders] ends
    normally and leaves the client as it was except that the open orders
    matching the symbol, the type ['STOP_MARKET'] and the position side are
    gone, one cancel request having been sent for each of them; every other
    open order, so every take-profit order and every order of another
    symbol or position side, stays.  [close_take_profit_orders] does the
    same for ['TAKE_PROFIT_MARKET'] and leaves every stop order. *)
Theorem close_orders_cancel_exactly_the_matching (F : Type) (PF : PyFloat F)
    (c : Binance.Client F) (sym position_side : string) :
  BinanceObs.well_formed c ->
  let stop := Binance.order_matches sym "STOP_MARKET" position_side in
  let take := Binance.order_matches sym "TAKE_PROFIT_MARKET" position_side in
  let after_sl := snd (Binance.close_stop_loss_orders sym position_side c) in
  let after_tp := snd (Binance.close_take_profit_orders sym position_side c) in
  (Binance.close_stop_loss_orders sym position_side c
   = (Ok tt,
      Binance.with_orders c
        (filter (fun o => negb (stop o)) (Binance.open_orders c))
        (Binance.next_order_id c)
        (Binance.requests c
         ++ BinanceObs.cancellations sym (filter stop (Binance.open_orders c))))
   /\ (forall o, In o (Binance.open_orders after_sl)
                 <-> In o (Binance.open_orders c) /\ stop o = false)
   /\ (forall o, In o (Binance.open_orders c) ->
                 Binance.type (Binance.params o) = "TAKE_PROFIT_MARKET" ->
                 In o (Binance.open_orders after_sl)))
  /\ (Binance.close_take_profit_orders sym position_side c
      = (Ok tt,
         Binance.with_orders c
           (filter (fun o => negb (take o)) (Binance.open_orders c))
           (Binance.next_order_id c)
           (Binance.requests c
            ++ BinanceObs.cancellations sym (filter take (Binance.open_orders c))))
      /\ (forall o, In o (Binance.open_orders after_tp)
                    <-> In o (Binance.open_orders c) /\ take o = false)
      /\ (forall o, In o (Binance.open_orders c) ->
                    Binance.type (Binance.params o) = "STOP_MARKET" ->
                    In o (Binance.open_orders after_tp))).
Proof.
  intros Hwf stop take after_sl after_tp.
  subst after_sl after_tp.
  unfold Binance.close_stop_loss_orders, Binance.close_take_profit_orders.
  rewrite !close_orders_of_type_run by exact Hwf. cbn [snd Binance.open_orders Binance.with_orders].
  split; (split; [reflexivity|]); split.
  - intros o. rewrite filter_In, negb_true_iff. reflexivity.
  - intros o Ho Hty. apply filter_In. split; [exact Ho|].
    apply negb_true_iff. subst stop. unfold Binance.order_matches. rewrite Hty.
    cbn. now rewrite andb_false_r.
  - intros o. rewrite filter_In, negb_true_iff. reflexivity.
  - intros o Ho Hty. apply filter_In. split; [exact Ho|].
    apply negb_true_iff. subst take. unfold Binance.order_matches. rewrite Hty.
    cbn. now rewrite andb_false_r.
Qed.

Lemma client_with_book_well_formed : BinanceObs.well_formed ExampleBooks.client_with_book.
Proof.
  split; cbn.
  - repeat constructor; cbn; intuition discriminate.
  - repeat constructor; cbn; lia.
Defined.

Lemma close_orders_cancel_exactly_the_matching_witness :
  BinanceObs.well_formed ExampleBooks.client_with_book
  /\ map Binance.orderId
       (Binance.open_orders
          (snd (Binance.close_stop_loss_orders "BTCUSDT" "BOTH" ExampleBooks.client_with_book)))
     = [2; 3; 4].
Proof.
  split; [exact client_with_book_well_formed|].
  destruct (close_orders_cancel_exactly_the_matching _ _ ExampleBooks.client_with_book
              "BTCUSDT" "BOTH" client_with_book_well_formed) as [[E _] _].
  rewrite E. reflexivity.
Defined.

Section StopLossReplacement.
Context {F : Type} {PF : PyFloat F}.
Import Binance BinanceObs.

Lemma well_formed_ext (c c' : Client F) :
  open_orders c' = open_orders c -> next_order_id c' = next_order_id c ->
  well_formed c -> well_formed c'.
Proof. unfold well_formed. intros -> ->. auto. Qed.

Lemma well_formed_sweep_create (c : Client F) (f : Order F -> bool) (p : OrderParams F)
    (r : list (Request F)) :
  well_formed c ->
  well_formed (with_orders c
                 (filter f (open_orders c) ++ [ {| orderId := next_order_id c; params := p |} ])
                 (next_order_id c + 1) r).
Proof.
  intros Hwf.
  apply (well_formed_ext
           (snd (client_futures_create_order p
                   (with_orders c (filter f (open_orders c)) (next_order_id c) []))));
    [reflexivity|reflexivity|].
  apply well_formed_create. now apply well_formed_filter.
Qed.

Lemma mode_for_stop_loss_with_orders (c : Client F) tm os n r :
  mode_for_stop_loss tm (with_orders c os n r) = mode_for_stop_loss tm c.
Proof.
  unfold mode_for_stop_loss. rewrite !binance_get_trading_mode_run. cbn.
  destruct (account c); reflexivity.
Qed.

End StopLossReplacement.

(** C7.  On a book with unique order ids and with the trading mode
    resolved, [create_stop_loss] with a stop price sends the cancel
    requests for every open ['STOP_MARKET'] order of the symbol and position
    side and then one create request: a ['STOP_MARKET'] order with
    [closePosition], the stop price, and the side opposite to the entry.
    Without a stop price it does nothing.  After a second call there is
    exactly one open stop order for the symbol and position side, the one
    of the second call. *)
Theorem create_stop_loss_replaces_the_stop (F : Type) (PF : PyFloat F)
    (c : Binance.Client F) (sym side_ : string) (sl1 sl2 : F)
    (trading_mode : option string) (mode : string) :
  BinanceObs.well_formed c ->
  BinanceObs.mode_for_stop_loss trading_mode c = Ok mode ->
  let position_side := Binance.position_side_of mode side_ in
  let stop : Binance.Order F -> bool :=
    Binance.order_matches sym "STOP_MARKET" position_side in
  let order (sl : F) : Binance.OrderParams F :=
    {| Binance.symbol := sym;
       Binance.side := if String.eqb (PyStr.upper side_) "BUY" then "SELL" else "BUY";
       Binance.type := "STOP_MARKET"; Binance.quantity := None;
       Binance.positionSide := position_side; Binance.price := None;
       Binance.timeInForce := None; Binance.stopPrice := Some sl;
       Binance.closePosition := Some true |} in
  let c1 := snd (Binance.create_stop_loss sym side_ (Some sl1) trading_mode c) in
  let c2 := snd (Binance.create_stop_loss sym side_ (Some sl2) trading_mode c1) in
  Binance.create_stop_loss sym side_ (Some sl1) trading_mode c = (Ok tt, c1)
  /\ Binance.requests c1
     = (Binance.requests c
        ++ BinanceObs.cancellations sym (filter stop (Binance.open_orders c))
        ++ [Binance.CreateOrder (order sl1)])%list
  /\ Binance.open_orders c1
     = (filter (fun o => negb (stop o)) (Binance.open_orders c)
        ++ [ {| Binance.orderId := Binance.next_order_id c; Binance.params := order sl1 |} ])%list
  /\ Binance.create_stop_loss sym side_ None trading_mode c = (Ok tt, c)
  /\ Binance.create_stop_loss sym side_ (Some sl2) trading_mode c1 = (Ok tt, c2)
  /\ filter stop (Binance.open_orders c2)
     = [ {| Binance.orderId := Binance.next_order_id c + 1; Binance.params := order sl2 |} ].
Proof.
  intros Hwf Hmode position_side stop order c1 c2.
  pose proof (create_stop_loss_run c sym side_ sl1 trading_mode mode Hwf Hmode) as E1.
  assert (Hc1 : c1 = snd (Binance.create_stop_loss sym side_ (Some sl1) trading_mode c))
    by reflexivity.
  rewrite E1 in Hc1. cbn [snd] in Hc1.
  assert (Hwf1 : BinanceObs.well_formed c1)
    by (rewrite Hc1; now apply well_formed_sweep_create).
  assert (Hmode1 : BinanceObs.mode_for_stop_loss trading_mode c1 = Ok mode)
    by (rewrite Hc1, mode_for_stop_loss_with_orders; exact Hmode).
  pose proof (create_stop_loss_run c1 sym side_ sl2 trading_mode mode Hwf1 Hmode1) as E2.
  assert (Hc2 : c2 = snd (Binance.create_stop_loss sym side_ (Some sl2) trading_mode c1))
    by reflexivity.
  rewrite E2 in Hc2. cbn [snd] in Hc2.
  split; [rewrite E1, Hc1; reflexivity|].
  split; [rewrite Hc1; reflexivity|].
  split; [rewrite Hc1; reflexivity|].
  split; [reflexivity|].
  split; [rewrite E2, Hc2; reflexivity|].
  rewrite Hc2. cbn [Binance.open_orders Binance.with_orders].
  replace (Binance.next_order_id c1) with (Binance.next_order_id c + 1)
    by (rewrite Hc1; reflexivity).
  apply one_stop_after_sweep.
Qed.

Lemma create_stop_loss_replaces_the_stop_witness :
  BinanceObs.well_formed ExampleBooks.client_with_book
  /\ BinanceObs.mode_for_stop_loss None ExampleBooks.client_with_book = Ok "ONE_WAY"
  /\ map Binance.orderId
       (filter (Binance.order_matches "BTCUSDT" "STOP_MARKET" "BOTH")
          (Binance.open_orders
             (snd (Binance.create_stop_loss "BTCUSDT" "BUY" (Some (B64.dec 46000 0)) None
                     (snd (Binance.create_stop_loss "BTCUSDT" "BUY" (Some (B64.dec 45500 0)) None
                             ExampleBooks.client_with_book))))))
     = [6].
Proof.
  split; [exact client_with_book_well_formed|]. split; [reflexivity|].
  destruct (create_stop_loss_replaces_the_stop _ _ ExampleBooks.client_with_book
              "BTCUSDT" "BUY" (B64.dec 45500 0) (B64.dec 46000 0) None "ONE_WAY"
              client_with_book_well_formed eq_refl) as (_ & _ & _ & _ & _ & E).
  cbv zeta in E. change (Binance.position_side_of "ONE_WAY" "BUY") with "BOTH" in E.
  rewrite E. reflexivity.
Defined.

(** ** The request log only grows *)

Section RequestLog.
Context {F : Type} {PF : PyFloat F}.
Import Binance BinanceObs.
Local Abbreviation extends := (BinanceObs.extends (F:=F)).

Lemma extends_ret {A} (a : A) : extends (ret a).
Proof. intros c. exists []. cbn. now rewrite app_nil_r. Qed.

Lemma extends_raise {A} (e : exn) : extends (@raise F A e).
Proof. intros c. exists []. cbn. now rewrite app_nil_r. Qed.

Lemma extends_lift {A} (r : result A) : extends (@lift F A r).
Proof. intros c. exists []. cbn. now rewrite app_nil_r. Qed.

Lemma extends_bind {A B} (m : @M F A) (k : A -> @M F B) :
  extends m -> (forall a, extends (k a)) -> extends (bind m k).
Proof.
  intros Hm Hk c. unfold bind.
  destruct (Hm c) as [r1 E1]. destruct (m c) as [[a|e] c'] eqn:Em; cbn in E1.
  - destruct (Hk a c') as [r2 E2]. exists (r1 ++ r2)%list.
    now rewrite E2, E1, app_assoc.
  - exists r1. exact E1.
Qed.

Lemma extends_for_each {A} (f : A -> @M F unit) (l : list A) :
  (forall a, extends (f a)) -> extends (for_each f l).
Proof.
  intros Hf. induction l as [|a l IH]; cbn [for_each].
  - apply extends_ret.
  - apply extends_bind; [apply Hf|intros _; exact IH].
Qed.

Lemma extends_read {A} (g : Client F -> result A) : extends (fun c => (g c, c)).
Proof. intros c. exists []. cbn. now rewrite app_nil_r. Qed.

Lemma extends_create (p : OrderParams F) : extends (client_futures_create_order p).
Proof. intros c. now exists [CreateOrder p]. Qed.

Lemma extends_cancel (sym : string) (oid : Z) : extends (client_futures_cancel_order sym oid).
Proof.
  intros c. unfold client_futures_cancel_order.
  destruct (existsb (is_order sym oid) (open_orders c)).
  - now exists [CancelOrder sym oid].
  - exists []. cbn. now rewrite app_nil_r.
Qed.

Lemma extends_get_trading_mode : extends (@get_trading_mode F).
Proof.
  apply extends_bind; [apply (extends_read account)|intros; apply extends_ret].
Qed.

Lemma extends_get_quantity_precision (sym : string) : extends (@get_quantity_precision F sym).
Proof.
  apply extends_bind; [apply (extends_read (fun c => Ok (exchange_info c)))|].
  intros symbols. destruct (find_symbol sym symbols); [apply extends_ret|apply extends_raise].
Qed.

Lemma extends_close_orders_of_type ty sym position_side :
  extends (@close_orders_of_type F ty sym position_side).
Proof.
  apply extends_bind; [apply (extends_read (fun c => Ok (open_orders c)))|].
  intros os. apply extends_for_each. intros o.
  destruct (order_matches sym ty position_side o); [apply extends_cancel|apply extends_ret].
Qed.

Lemma extends_create_stop_loss sym side_ (stop_loss : option F) trading_mode :
  extends (create_stop_loss sym side_ stop_loss trading_mode).
Proof.
  unfold create_stop_loss. destruct stop_loss as [sl|]; [|apply extends_ret].
  apply extends_bind.
  - destruct trading_mode as [s|]; [destruct (String.eqb s EmptyString)|];
      first [apply extends_get_trading_mode|apply extends_ret].
  - intros tm. apply extends_bind; [apply extends_close_orders_of_type|].
    intros _. apply extends_bind; [apply extends_create|intros; apply extends_ret].
Qed.

Lemma extends_take_profit_loop sym side_ position_side (chunk : F) n (tps : list F) :
  forall i, extends (take_profit_loop sym side_ position_side chunk n i tps).
Proof.
  induction tps as [|tp tps IH]; intros i; cbn [take_profit_loop].
  - apply extends_ret.
  - apply extends_bind; [apply extends_create|intros _; apply IH].
Qed.

Lemma extends_bulk_create_take_profits sym side_ (q : F) targets trading_mode :
  extends (bulk_create_take_profits sym side_ q targets trading_mode).
Proof.
  unfold bulk_create_take_profits. destruct targets as [[|t ts]|]; try apply extends_ret.
  apply extends_bind.
  - destruct trading_mode; [apply extends_ret|apply extends_get_trading_mode].
  - intros tm. apply extends_bind; [apply extends_close_orders_of_type|].
    intros _. apply extends_bind; [apply extends_lift|].
    intros len. apply extends_bind; [apply extends_lift|].
    intros chunk. apply extends_bind; [apply extends_get_quantity_precision|].
    intros d. apply extends_bind; [apply extends_lift|].
    intros chunk'. apply extends_take_profit_loop.
Qed.

Lemma get_trading_mode_resolved (c : Client F) (mode : string) os n r :
  fst (get_trading_mode c) = Ok mode ->
  get_trading_mode (with_orders c os n r) = (Ok mode, with_orders c os n r).
Proof.
  rewrite !binance_get_trading_mode_run. cbn.
  destruct (account c); cbn; [|discriminate]. now intros [= <-].
Qed.

End RequestLog.

(** C9.  With the trading mode resolved, [create_order] for a ['LIMIT']
    order sends the leverage change and then the order, whether or not a
    price is given: without a price the order has neither [price] nor
    [timeInForce]; with a price it has [str(price)] and
    [timeInForce='GTC'].  When no stop-loss and no targets are asked for,
    the call returns the accepted order. *)
Theorem create_order_limit_price_fields (F : Type) (PF : PyFloat F) (str : F -> string)
    (c : Binance.Client F) (sym side_ order_type : string) (quantity_ : F)
    (price_ stop_loss : option F) (take_profit_targets : option (list F)) (leverage : Z)
    (mode : string) :
  fst (Binance.get_trading_mode c) = Ok mode ->
  PyStr.upper order_type = "LIMIT" ->
  let order : Binance.OrderParams F :=
    {| Binance.symbol := sym; Binance.side := PyStr.upper side_; Binance.type := "LIMIT";
       Binance.quantity := Some quantity_;
       Binance.positionSide := Binance.position_side_of mode side_;
       Binance.price := match price_ with Some p => Some (str p) | None => None end;
       Binance.timeInForce := match price_ with Some _ => Some "GTC" | None => None end;
       Binance.stopPrice := None; Binance.closePosition := None |} in
  let run := Binance.create_order str sym side_ order_type quantity_ price_ stop_loss
               take_profit_targets leverage c in
  (exists rest,
      Binance.requests (snd run)
      = (Binance.requests c
         ++ [Binance.ChangeLeverage sym leverage; Binance.CreateOrder order] ++ rest)%list)
  /\ (price_ = None -> Binance.price order = None /\ Binance.timeInForce order = None)
  /\ (forall p, price_ = Some p ->
                Binance.price order = Some (str p) /\ Binance.timeInForce order = Some "GTC")
  /\ (stop_loss = None -> take_profit_targets = None ->
      run = (Ok {| Binance.orderId := Binance.next_order_id c; Binance.params := order |},
             Binance.with_orders c
               (Binance.open_orders c
                ++ [ {| Binance.orderId := Binance.next_order_id c; Binance.params := order |} ])
               (Binance.next_order_id c + 1)
               (Binance.requests c
                ++ [Binance.ChangeLeverage sym leverage; Binance.CreateOrder order]))).
Proof.
  intros Hmode Hlimit order run.
  set (o := {| Binance.orderId := Binance.next_order_id c; Binance.params := order |}).
  set (c1 := Binance.with_orders c (Binance.open_orders c ++ [o]) (Binance.next_order_id c + 1)
               (Binance.requests c
                ++ [Binance.ChangeLeverage sym leverage; Binance.CreateOrder order])).
  set (after :=
         Binance.bind
           (match stop_loss with
            | Some sl => if truthy sl
                         then Binance.create_stop_loss sym side_ (Some sl) None
                         else Binance.ret tt
            | None => Binance.ret tt
            end)
           (fun _ =>
              Binance.bind
                (match take_profit_targets with
                 | Some (t :: ts) =>
                     Binance.bulk_create_take_profits sym side_ quantity_ (Some (t :: ts)) None
                 | _ => Binance.ret tt
                 end)
                (fun _ => Binance.ret o))).
  assert (Hrun : run = after c1).
  { subst run. unfold Binance.create_order.
    erewrite bind_ok by reflexivity.
    erewrite bind_ok
      by (unfold Binance.futures_change_leverage, Binance.client_futures_change_leverage;
          apply get_trading_mode_resolved; exact Hmode).
    rewrite Hlimit. change (String.eqb "LIMIT" "LIMIT") with true.
    erewrite bind_ok by reflexivity.
    subst after c1 o order. unfold Binance.with_orders. cbn.
    now rewrite <- app_assoc. }
  assert (Hext : BinanceObs.extends after).
  { apply extends_bind.
    - destruct stop_loss as [sl|]; [destruct (truthy sl)|];
        first [apply extends_create_stop_loss|apply extends_ret].
    - intros _. apply extends_bind; [|intros; apply extends_ret].
      destruct take_profit_targets as [[|t ts]|];
        first [apply extends_bulk_create_take_profits|apply extends_ret]. }
  split; [|split; [|split]].
  - rewrite Hrun. destruct (Hext c1) as [rest E].
    exists rest. rewrite E. subst c1. cbn. now rewrite <- app_assoc.
  - intros ->. split; reflexivity.
  - intros p ->. split; reflexivity.
  - intros -> ->. rewrite Hrun. reflexivity.
Qed.

Lemma create_order_limit_price_fields_witness :
  fst (Binance.get_trading_mode (Examples.client_at (B64.dec 50000 0))) = Ok "ONE_WAY"
  /\ PyStr.upper "limit" = "LIMIT"
  /\ exists rest,
      Binance.requests
        (snd (Binance.create_order (fun _ => "49000.5") "BTCUSDT" "buy" "limit" (B64.dec 2 1)
                None None None 10 (Examples.client_at (B64.dec 50000 0))))
      = [ Binance.ChangeLeverage "BTCUSDT" 10;
          Binance.CreateOrder
            {| Binance.symbol := "BTCUSDT"; Binance.side := "BUY"; Binance.type := "LIMIT";
               Binance.quantity := Some (B64.dec 2 1); Binance.positionSide := "BOTH";
               Binance.price := None; Binance.timeInForce := None;
               Binance.stopPrice := None; Binance.closePosition := None |} ] ++ rest.
Proof.
  split; [reflexivity|]. split; [reflexivity|].
  exact (proj1 (create_order_limit_price_fields _ _ (fun _ => "49000.5")
                  (Examples.client_at (B64.dec 50000 0)) "BTCUSDT" "buy" "limit" (B64.dec 2 1)
                  None None None 10 "ONE_WAY" eq_refl eq_refl)).
Defined.

(** ** The take-profit ladder *)

Section Ladder.
Context {F : Type} {PF : PyFloat F}.
Import Binance BinanceObs.

Lemma last_default {A} (l : list A) (d d' : A) : l <> [] -> last l d = last l d'.
Proof.
  induction l as [|a l IH]; [congruence|]. intros _.
  destruct l as [|b l]; [reflexivity|].
  change (last (b :: l) d = last (b :: l) d'). apply IH. discriminate.
Qed.

(** The loop sends the ladder: the index of the last target is the only
    one equal to [n - 1]. *)
Lemma ladder_from_ladder sym side_ position_side (chunk : F) (tps : list F) :
  forall i n, n = (i + List.length tps)%nat ->
    ladder_from sym side_ position_side chunk n i tps
    = ladder sym side_ position_side chunk tps.
Proof.
  induction tps as [|tp tps IH]; intros i n Hn; [reflexivity|].
  cbn [ladder_from]. destruct tps as [|tp' tps].
  - cbn in Hn. replace (Nat.eqb i (n - 1)) with true
      by (symmetry; apply Nat.eqb_eq; lia).
    reflexivity.
  - replace (Nat.eqb i (n - 1)) with false
      by (symmetry; apply Nat.eqb_neq; cbn in Hn; lia).
    rewrite (IH (S i) n) by (cbn in *; lia).
    unfold ladder. cbn [removelast map app].
    change (last (tp :: tp' :: tps) tp) with (last (tp' :: tps) tp).
    now rewrite (last_default (tp' :: tps) tp tp') by discriminate.
Qed.

Lemma take_profit_loop_run sym side_ position_side (chunk : F) (n : nat) (tps : list F) :
  forall (i : nat) (c : Client F),
    take_profit_loop sym side_ position_side chunk n i tps c
    = (Ok tt,
       with_orders c
         (open_orders c
          ++ booked (next_order_id c) (ladder_from sym side_ position_side chunk n i tps))
         (next_order_id c + Z.of_nat (List.length tps))
         (requests c
          ++ map CreateOrder (ladder_from sym side_ position_side chunk n i tps))).
Proof.
  induction tps as [|tp tps IH]; intros i c.
  - cbn. unfold ret. rewrite !app_nil_r, Z.add_0_r. now rewrite with_orders_same.
  - cbn [take_profit_loop ladder_from].
    erewrite bind_ok by reflexivity.
    rewrite IH. f_equal. unfold with_orders. cbn [open_orders next_order_id requests
      exchange_info ticker account booked map List.length].
    f_equal.
    + now rewrite <- app_assoc.
    + lia.
    + now rewrite <- app_assoc.
Qed.

Lemma get_quantity_precision_run (c : Client F) (sym : string) (d : Z) :
  listed_precision c sym = Some d -> get_quantity_precision sym c = (Ok d, c).
Proof.
  unfold listed_precision, get_quantity_precision. intros Hd.
  erewrite bind_ok by reflexivity.
  destruct (find_symbol sym (exchange_info c)); [|discriminate].
  injection Hd as <-. reflexivity.
Qed.

Lemma mode_for_take_profits_run (c : Client F) (trading_mode : option string) (mode : string) :
  mode_for_take_profits trading_mode c = Ok mode ->
  (match trading_mode with
   | Some s => ret s
   | None => get_trading_mode
   end) c = (Ok mode, c).
Proof.
  unfold mode_for_take_profits. destruct trading_mode as [s|].
  - now intros [= ->].
  - rewrite binance_get_trading_mode_run. destruct (account c); cbn; [|discriminate].
    now intros [= <-].
Qed.

Lemma sorted_length (l : list F) (r : bool) : List.length (sorted l r) = List.length l.
Proof.
  assert (Hins : forall x acc, List.length (insert_sorted x acc) = S (List.length acc)).
  { intros x acc. induction acc as [|y acc IH]; cbn; [reflexivity|].
    destruct (flt x y); cbn; [reflexivity|now rewrite IH]. }
  assert (Hsort : forall l acc, List.length (fold_left (fun acc x => insert_sorted x acc) l acc)
                                = (List.length acc + List.length l)%nat).
  { intros l'. induction l' as [|x l' IH]; intros acc; cbn; [lia|].
    rewrite IH, Hins. lia. }
  unfold sorted, sort_asc. destruct r.
  - rewrite length_rev, Hsort, length_rev. reflexivity.
  - rewrite Hsort. reflexivity.
Qed.

(** What a successful [bulk_create_take_profits] does to the client. *)
Lemma bulk_create_take_profits_run (c : Client F) sym side_ (quantity_ : F)
    (targets : list F) trading_mode mode d chunk :
  well_formed c ->
  targets <> [] ->
  mode_for_take_profits trading_mode c = Ok mode ->
  listed_precision c sym = Some d ->
  chunk_quantity quantity_ (List.length targets) d = Ok chunk ->
  let position_side := position_side_of mode side_ in
  let take := order_matches sym "TAKE_PROFIT_MARKET" position_side in
  let legs := ladder sym side_ position_side chunk
                (sorted targets (String.eqb (PyStr.upper side_) "SELL")) in
  bulk_create_take_profits sym side_ quantity_ (Some targets) trading_mode c
  = (Ok tt,
     with_orders c
       (filter (fun o => negb (take o)) (open_orders c) ++ booked (next_order_id c) legs)
       (next_order_id c + Z.of_nat (List.length targets))
       (requests c
        ++ cancellations sym (filter take (open_orders c))
        ++ map CreateOrder legs)).
Proof.
  intros Hwf Hne Hmode Hd Hchunk position_side take legs.
  unfold bulk_create_take_profits. destruct targets as [|t ts]; [congruence|].
  erewrite bind_ok by (apply mode_for_take_profits_run; exact Hmode).
  erewrite bind_ok
    by (unfold close_take_profit_orders; apply close_orders_of_type_run; exact Hwf).
  unfold chunk_quantity in Hchunk.
  destruct (float_of_int (Z.of_nat (List.length (t :: ts)))) as [len|] eqn:Hlen;
    [|discriminate].
  cbn [rbind] in Hchunk.
  destruct (fdiv quantity_ len) as [chunk0|] eqn:Hdiv; [|discriminate].
  cbn [rbind] in Hchunk.
  erewrite bind_ok by reflexivity.
  erewrite bind_ok by (unfold lift; rewrite Hdiv; reflexivity).
  erewrite bind_ok by (apply get_quantity_precision_run; exact Hd).
  erewrite bind_ok by (unfold lift; rewrite Hchunk; reflexivity).
  rewrite take_profit_loop_run.
  rewrite ladder_from_ladder by reflexivity.
  fold position_side. fold legs.
  f_equal. unfold with_orders.
  cbn [open_orders next_order_id requests exchange_info ticker account].
  rewrite sorted_length. fold take. f_equal.
  now rewrite <- app_assoc.
Qed.

Lemma created_app (rs rs' : list (Request F)) : created (rs ++ rs') = created rs ++ created rs'.
Proof.
  induction rs as [|r rs IH]; [reflexivity|].
  destruct r; cbn; now rewrite IH.
Qed.

Lemma created_cancellations sym (os : list (Order F)) : created (cancellations sym os) = [].
Proof. induction os; cbn; auto. Qed.

Lemma created_orders (ps : list (OrderParams F)) : created (map CreateOrder ps) = ps.
Proof. induction ps as [|p ps IH]; cbn; [reflexivity|now rewrite IH]. Qed.

Lemma explicit_quantities_app (ps ps' : list (OrderParams F)) :
  explicit_quantities (ps ++ ps') = explicit_quantities ps ++ explicit_quantities ps'.
Proof.
  induction ps as [|p ps IH]; [reflexivity|].
  cbn. destruct (quantity p); cbn; now rewrite IH.
Qed.

(** A ladder over [n] targets states [n - 1] quantities, all [chunk]. *)
Lemma explicit_quantities_ladder sym side_ position_side (chunk : F) (tps : list F) :
  explicit_quantities (ladder sym side_ position_side chunk tps)
  = repeat chunk (List.length tps - 1).
Proof.
  destruct tps as [|t ts]; [reflexivity|]. unfold ladder.
  rewrite explicit_quantities_app. cbn [explicit_quantities take_profit_params quantity].
  rewrite app_nil_r.
  replace (List.length (t :: ts) - 1)%nat with (List.length (removelast (t :: ts))).
  - induction (removelast (t :: ts)) as [|a l IH]; cbn; [reflexivity|now rewrite IH].
  - clear. revert t. induction ts as [|a ts IH]; intros t; [reflexivity|].
    change (removelast (t :: a :: ts)) with (t :: removelast (a :: ts)).
    cbn [List.length]. rewrite IH. cbn. lia.
Qed.

End Ladder.

(** ** Sorting the targets *)

Section SortingAnyFloat.
Context {F : Type} {PF : PyFloat F}.
Hypothesis flt_asym : forall a b : F, flt a b = true -> flt b a = false.

Lemma insert_sorted_perm (x : F) (l : list F) : Permutation (x :: l) (insert_sorted x l).
Proof.
  induction l as [|y l IH]; cbn; [reflexivity|].
  destruct (flt x y); [reflexivity|].
  rewrite perm_swap. now constructor.
Qed.

Lemma fold_insert_perm (l acc : list F) :
  Permutation (acc ++ l) (fold_left (fun acc x => insert_sorted x acc) l acc).
Proof.
  revert acc. induction l as [|x l IH]; intros acc; cbn.
  - now rewrite app_nil_r.
  - rewrite <- IH. rewrite <- insert_sorted_perm.
    now rewrite <- Permutation_middle.
Qed.

Lemma sorted_perm (l : list F) (r : bool) : Permutation l (sorted l r).
Proof.
  unfold sorted, sort_asc. destruct r.
  - rewrite <- Permutation_rev, <- fold_insert_perm. cbn. apply Permutation_rev.
  - rewrite <- fold_insert_perm. reflexivity.
Qed.

Lemma insert_sorted_hd (x a : F) (l : list F) :
  not_after a x -> HdRel not_after a l -> HdRel not_after a (insert_sorted x l).
Proof.
  intros Hax Hal. destruct l as [|y l]; cbn; [now constructor|].
  destruct (flt x y); constructor; [exact Hax|].
  now inversion Hal.
Qed.

Lemma insert_sorted_Sorted (x : F) (l : list F) :
  Sorted not_after l -> Sorted not_after (insert_sorted x l).
Proof.
  induction l as [|y l IH]; cbn; intros Hs.
  - repeat constructor.
  - inversion Hs as [|? ? Hs' Hhd]; subst.
    destruct (flt x y) eqn:Hxy.
    + constructor; [exact Hs|]. constructor. unfold not_after. now apply flt_asym.
    + constructor; [now apply IH|]. now apply insert_sorted_hd.
Qed.

Lemma sort_asc_Sorted (l : list F) : Sorted not_after (sort_asc l).
Proof.
  unfold sort_asc.
  assert (H : forall acc, Sorted not_after acc ->
                          Sorted not_after (fold_left (fun acc x => insert_sorted x acc) l acc)).
  { induction l as [|x l IH]; intros acc Hacc; cbn; [exact Hacc|].
    apply IH. now apply insert_sorted_Sorted. }
  apply H. constructor.
Qed.

End SortingAnyFloat.

Section SortingLists.
Context {A : Type}.

Lemma Sorted_impl_on (P : A -> Prop) (R R' : A -> A -> Prop) (l : list A) :
  (forall a b, P a -> P b -> R a b -> R' a b) ->
  Forall P l -> Sorted R l -> Sorted R' l.
Proof.
  intros Himp HP Hs. induction Hs as [|a l Hs IH Hhd]; [constructor|].
  inversion HP as [|? ? Ha HPl]; subst.
  constructor; [now apply IH|].
  destruct Hhd as [|b l Hab]; constructor.
  inversion HPl; subst. now apply Himp.
Qed.

Lemma Sorted_strongly_on (P : A -> Prop) (R : A -> A -> Prop) (l : list A) :
  (forall a b c, P a -> P b -> P c -> R a b -> R b c -> R a c) ->
  Forall P l -> Sorted R l -> StronglySorted R l.
Proof.
  intros Htrans HP Hs. induction Hs as [|a l Hs IH Hhd]; [constructor|].
  inversion HP as [|? ? Ha HPl]; subst.
  specialize (IH HPl).
  constructor; [exact IH|].
  destruct Hhd as [|b l Hab]; [constructor|].
  inversion IH as [|? ? Hl Hbl]; subst.
  inversion HPl as [|? ? Hb HPl']; subst.
  constructor; [exact Hab|].
  rewrite Forall_forall in *. intros x Hx.
  apply (Htrans a b x); auto.
Qed.

Lemma StronglySorted_snoc (R : A -> A -> Prop) (l : list A) (a : A) :
  StronglySorted R l -> Forall (fun x => R x a) l -> StronglySorted R (l ++ [a]).
Proof.
  intros Hs Hl. induction Hs as [|b l Hs IH Hb]; cbn.
  - repeat constructor.
  - inversion Hl as [|? ? Hba Hl']; subst.
    constructor; [now apply IH|].
    apply Forall_app. split; [exact Hb|]. now repeat constructor.
Qed.

Lemma StronglySorted_rev (R : A -> A -> Prop) (l : list A) :
  StronglySorted R l -> StronglySorted (fun a b => R b a) (rev l).
Proof.
  intros Hs. induction Hs as [|a l Hs IH Ha]; cbn; [constructor|].
  apply StronglySorted_snoc; [exact IH|].
  apply Forall_forall. intros x Hx. apply in_rev in Hx.
  rewrite Forall_forall in Ha. now apply Ha.
Qed.

End SortingLists.

Section SortingDoubles.
Import B64Order.

Ltac by_rank :=
  repeat match goal with
    | |- context [Z.compare ?a ?b] => destruct (Z.compare_spec a b)
    | |- context [Pos.compare_cont Eq ?a ?b] =>
        change (Pos.compare_cont Eq a b) with (Pos.compare a b);
        destruct (Pos.compare_spec a b)
    end;
  cbn; split; intros; try reflexivity; try discriminate; try lia.

Lemma leb_rank (x y : B64.float) :
  not_nan x -> not_nan y -> (B64.leb x y = true <-> lex_le (rank x) (rank y)).
Proof.
  unfold not_nan, B64.leb, SFleb, lex_le.
  destruct x as [[]|[]| |[] m1 e1], y as [[]|[]| |[] m2 e2]; cbn;
    intros; try discriminate; by_rank.
Qed.

Lemma ltb_rank (x y : B64.float) :
  not_nan x -> not_nan y -> (B64.ltb x y = true <-> lex_lt (rank x) (rank y)).
Proof.
  unfold not_nan, B64.ltb, SFltb, lex_lt.
  destruct x as [[]|[]| |[] m1 e1], y as [[]|[]| |[] m2 e2]; cbn;
    intros; try discriminate; by_rank.
Qed.

Lemma ltb_asym (x y : B64.float) : B64.ltb x y = true -> B64.ltb y x = false.
Proof.
  intros H.
  assert (Hx : not_nan x) by (destruct x; [reflexivity..|discriminate|reflexivity]).
  assert (Hy : not_nan y)
    by (destruct y; try reflexivity; destruct x as [[]|[]| |[]]; discriminate).
  apply (ltb_rank x y Hx Hy) in H.
  destruct (B64.ltb y x) eqn:E; [|reflexivity].
  apply (ltb_rank y x Hy Hx) in E.
  unfold lex_lt in *. destruct (rank x) as [[? ?] ?], (rank y) as [[? ?] ?]. lia.
Qed.

Lemma not_ltb_le (x y : B64.float) :
  not_nan x -> not_nan y -> B64.ltb y x = false -> le x y.
Proof.
  intros Hx Hy H. apply (leb_rank x y Hx Hy).
  assert (Hn : ~ lex_lt (rank y) (rank x))
    by (intros Hlt; apply (ltb_rank y x Hy Hx) in Hlt; congruence).
  unfold lex_lt, lex_le in *. destruct (rank x) as [[? ?] ?], (rank y) as [[? ?] ?]. lia.
Qed.

Lemma le_trans (x y z : B64.float) :
  not_nan x -> not_nan y -> not_nan z -> le x y -> le y z -> le x z.
Proof.
  intros Hx Hy Hz Hxy Hyz.
  apply (leb_rank x y Hx Hy) in Hxy. apply (leb_rank y z Hy Hz) in Hyz.
  apply (leb_rank x z Hx Hz).
  unfold lex_le in *.
  destruct (rank x) as [[? ?] ?], (rank y) as [[? ?] ?], (rank z) as [[? ?] ?]. lia.
Qed.

Lemma sort_asc_ascending (l : list B64.float) :
  Forall not_nan l -> StronglySorted le (sort_asc l).
Proof.
  intros Hl.
  assert (Hl' : Forall not_nan (sort_asc l)).
  { rewrite Forall_forall in *. intros x Hx. apply Hl.
    apply (Permutation_in x (Permutation_sym (sorted_perm l false))). exact Hx. }
  apply (Sorted_strongly_on not_nan); [exact le_trans|exact Hl'|].
  apply (Sorted_impl_on not_nan (fun a b => B64.ltb b a = false)); [|exact Hl'|].
  - intros a b Ha Hb. now apply not_ltb_le.
  - exact (sort_asc_Sorted (PF := binary64) ltb_asym l).
Qed.

(** Without NaN among them, [sorted] puts the targets in ascending order,
    and in descending order with [reverse]. *)
Lemma sorted_ordered (l : list B64.float) :
  Forall not_nan l ->
  StronglySorted le (sorted l false) /\ StronglySorted ge (sorted l true).
Proof.
  intros Hl. split.
  - now apply sort_asc_ascending.
  - unfold sorted. apply (StronglySorted_rev le). apply sort_asc_ascending.
    rewrite Forall_forall in *. intros x Hx. apply Hl. now apply in_rev.
Qed.

End SortingDoubles.

(** C1.  On a book with unique order ids, for a listed symbol, a leg
    quantity [chunk = round_more(quantity / N, precision)] that can be
    computed and [N >= 1] targets none of which is NaN,
    [bulk_create_take_profits] ends normally; after the cancel requests
    for the open take-profit orders of the symbol and position side it
    sends one order per target, in ascending order of the targets when the
    side is ['BUY'] and in descending order when it is ['SELL']; every
    order but the last states the quantity [chunk], and the last states no
    quantity and has [closePosition].  With no targets, or an empty list,
    the call changes nothing. *)
Theorem bulk_create_take_profits_ladder (c : Binance.Client B64.float)
    (sym side_ : string) (quantity_ : B64.float) (targets : list B64.float)
    (trading_mode : option string) (mode : string) (d : Z) (chunk : B64.float) :
  BinanceObs.well_formed c ->
  targets <> [] ->
  Forall B64Order.not_nan targets ->
  BinanceObs.mode_for_take_profits trading_mode c = Ok mode ->
  BinanceObs.listed_precision c sym = Some d ->
  BinanceObs.chunk_quantity quantity_ (List.length targets) d = Ok chunk ->
  let position_side := Binance.position_side_of mode side_ in
  let take := Binance.order_matches sym "TAKE_PROFIT_MARKET" position_side in
  let sorted_targets := sorted targets (String.eqb (PyStr.upper side_) "SELL") in
  let leg (q : option B64.float) (close : option bool) (tp : B64.float) :=
    {| Binance.symbol := sym;
       Binance.side := if String.eqb (PyStr.upper side_) "BUY" then "SELL" else "BUY";
       Binance.type := "TAKE_PROFIT_MARKET"; Binance.quantity := q;
       Binance.positionSide := position_side; Binance.price := None;
       Binance.timeInForce := None; Binance.stopPrice := Some tp;
       Binance.closePosition := close |} in
  let c' := snd (Binance.bulk_create_take_profits sym side_ quantity_ (Some targets)
                   trading_mode c) in
  Binance.bulk_create_take_profits sym side_ quantity_ (Some targets) trading_mode c
  = (Ok tt, c')
  /\ Binance.requests c'
     = Binance.requests c
       ++ BinanceObs.cancellations sym (filter take (Binance.open_orders c))
       ++ map Binance.CreateOrder
            (map (leg (Some chunk) None) (removelast sorted_targets)
             ++ [leg None (Some true) (last sorted_targets S754_nan)])
  /\ Permutation targets sorted_targets
  /\ (PyStr.upper side_ = "BUY" -> StronglySorted B64Order.le sorted_targets)
  /\ (PyStr.upper side_ = "SELL" -> StronglySorted B64Order.ge sorted_targets)
  /\ Binance.bulk_create_take_profits sym side_ quantity_ None trading_mode c = (Ok tt, c)
  /\ Binance.bulk_create_take_profits sym side_ quantity_ (Some []) trading_mode c = (Ok tt, c).
Proof.
  intros Hwf Hne Hnan Hmode Hd Hchunk position_side take sorted_targets leg c'.
  pose proof (bulk_create_take_profits_run c sym side_ quantity_ targets trading_mode
                mode d chunk Hwf Hne Hmode Hd Hchunk) as E.
  cbv zeta in E. fold position_side take sorted_targets in E.
  assert (Hperm : Permutation targets sorted_targets) by apply sorted_perm.
  assert (Hc' : c' = snd (Binance.bulk_create_take_profits sym side_ quantity_ (Some targets)
                            trading_mode c)) by reflexivity.
  rewrite E in Hc'. cbn [snd] in Hc'.
  split; [rewrite E, Hc'; reflexivity|].
  split.
  { rewrite Hc'. cbn [Binance.requests Binance.with_orders].
    do 3 f_equal. unfold BinanceObs.ladder.
    destruct sorted_targets as [|t ts] eqn:Es.
    - apply Permutation_sym, Permutation_nil in Hperm. congruence.
    - rewrite (last_default (t :: ts) S754_nan t) by discriminate. reflexivity. }
  split; [exact Hperm|].
  destruct (sorted_ordered targets Hnan) as [Hasc Hdesc].
  split; [|split; [|split; reflexivity]].
  - intros Hbuy. subst sorted_targets. rewrite Hbuy. exact Hasc.
  - intros Hsell. subst sorted_targets. rewrite Hsell. exact Hdesc.
Qed.

Lemma bulk_create_take_profits_ladder_witness :
  BinanceObs.well_formed ExampleBooks.client_with_book
  /\ Forall B64Order.not_nan [B64.dec 100 0; B64.dec 90 0; B64.dec 110 0]
  /\ BinanceObs.chunk_quantity (B64.dec 2 1) 3 3 = Ok (B64.dec 67 3)
  /\ sorted [B64.dec 100 0; B64.dec 90 0; B64.dec 110 0] (String.eqb (PyStr.upper "buy") "SELL")
     = [B64.dec 90 0; B64.dec 100 0; B64.dec 110 0]
  /\ StronglySorted B64Order.le
       (sorted [B64.dec 100 0; B64.dec 90 0; B64.dec 110 0]
          (String.eqb (PyStr.upper "buy") "SELL")).
Proof.
  split; [exact client_with_book_well_formed|].
  split; [repeat constructor|].
  split; [vm_compute; reflexivity|].
  split; [vm_compute; reflexivity|].
  refine (proj1 (proj2 (proj2 (proj2
    (bulk_create_take_profits_ladder ExampleBooks.client_with_book "BTCUSDT" "buy"
       (B64.dec 2 1) [B64.dec 100 0; B64.dec 90 0; B64.dec 110 0] None "ONE_WAY" 3
       (B64.dec 67 3) client_with_book_well_formed _ _ eq_refl eq_refl _)))) eq_refl).
  - discriminate.
  - repeat constructor.
  - vm_compute. reflexivity.
Defined.

(** ** The quantities of the ladder *)

(** C6, as stated: it does not hold.  For the quantity [0.001] and three
    targets at precision 3 the two stated quantities are [0.001] each, and
    their sum exceeds the total. *)
Lemma take_profit_quantities_exceed_total :
  BinanceObs.listed_precision (Examples.client_at (B64.dec 95 0)) "BTCUSDT" = Some 3
  /\ BinanceObs.explicit_quantities (BinanceObs.created (Binance.requests Inputs.after_ladder))
     = [B64.dec 1 3; B64.dec 1 3]
  /\ ~ (Qsum (map B64.to_Q
                (BinanceObs.explicit_quantities
                   (BinanceObs.created (Binance.requests Inputs.after_ladder))))
        <= B64.to_Q (B64.dec 1 3))%Q.
Proof.
  split; [reflexivity|]. split; [vm_compute; reflexivity|].
  intros H. apply Qle_bool_iff in H. vm_compute in H. discriminate H.
Qed.

Section LadderQuantities.
Import Binance BinanceObs.
Local Open Scope Q_scope.

Lemma lot_size_precision_nonneg {F : Type} (fs : list (Filter F)) :
  (0 <= lot_size_precision fs)%Z.
Proof.
  induction fs as [|f fs IH]; cbn; [lia|].
  destruct (String.eqb (filterType f) "LOT_SIZE"); [|exact IH].
  unfold step_precision. lia.
Qed.

Lemma listed_precision_nonneg {F : Type} (c : Client F) (sym : string) (d : Z) :
  listed_precision c sym = Some d -> (0 <= d)%Z.
Proof.
  unfold listed_precision. destruct (find_symbol sym (exchange_info c)); [|discriminate].
  intros [= <-]. apply lot_size_precision_nonneg.
Qed.

Lemma chunk_quantity_exact (q : Q) (n : nat) (d : Z) :
  (0 < n)%nat -> (0 <= d)%Z ->
  exists chunk, chunk_quantity q n d = Ok chunk
    /\ round_more (q / inject_Z (Z.of_nat n)) d = Ok chunk
    /\ q / inject_Z (Z.of_nat n) <= chunk
    /\ chunk - q / inject_Z (Z.of_nat n) < 1 / inject_Z (10 ^ d).
Proof.
  intros Hn Hd. unfold chunk_quantity. cbn [float_of_int exact rbind fdiv].
  unfold Exact.div.
  destruct (Qeq_bool (inject_Z (Z.of_nat n)) 0) eqn:E.
  - apply Qeq_bool_iff in E. unfold Qeq in E. cbn in E. lia.
  - cbn [rbind]. rewrite round_more_exact by exact Hd.
    eexists. split; [reflexivity|]. split; [reflexivity|].
    apply ceiling_quotient_bounds. now apply inject_pow10_pos.
Qed.

Lemma Qsum_repeat (x : Q) (k : nat) : Qsum (repeat x k) == inject_Z (Z.of_nat k) * x.
Proof.
  induction k as [|k IH].
  - cbn. ring.
  - change (Qsum (repeat x (S k))) with (x + Qsum (repeat x k)).
    rewrite IH, Nat2Z.inj_succ. unfold Z.succ. rewrite inject_Z_plus. ring.
Qed.

Lemma length_ladder {F : Type} sym side_ position_side (chunk : F) (tps : list F) :
  List.length (ladder sym side_ position_side chunk tps) = List.length tps.
Proof.
  destruct tps as [|t ts]; [reflexivity|].
  unfold ladder. rewrite length_app, length_map. cbn [List.length].
  revert t. induction ts as [|a ts IH]; intros t; [reflexivity|].
  change (removelast (t :: a :: ts)) with (t :: removelast (a :: ts)).
  cbn [List.length]. specialize (IH a). cbn [List.length] in IH. lia.
Qed.

(** The ladder sent by a successful [bulk_create_take_profits], in any
    arithmetic. *)
Lemma bulk_create_take_profits_quantities {F : Type} {PF : PyFloat F} (c : Client F)
    sym side_ (q : F) (targets : list F) trading_mode mode d chunk :
  well_formed c ->
  targets <> [] ->
  mode_for_take_profits trading_mode c = Ok mode ->
  listed_precision c sym = Some d ->
  chunk_quantity q (List.length targets) d = Ok chunk ->
  exists (legs : list (OrderParams F)) (final : OrderParams F),
    bulk_create_take_profits sym side_ q (Some targets) trading_mode c
    = (Ok tt, snd (bulk_create_take_profits sym side_ q (Some targets) trading_mode c))
    /\ created (requests (snd (bulk_create_take_profits sym side_ q (Some targets)
                                 trading_mode c)))
       = created (requests c) ++ legs ++ [final]
    /\ List.length (legs ++ [final]) = List.length targets
    /\ explicit_quantities (legs ++ [final]) = repeat chunk (List.length targets - 1)
    /\ quantity final = None /\ closePosition final = Some true.
Proof.
  intros Hwf Hne Hmode Hd Hchunk.
  pose proof (bulk_create_take_profits_run c sym side_ q targets trading_mode mode d chunk
                Hwf Hne Hmode Hd Hchunk) as E.
  cbv zeta in E. rewrite E. cbn [snd requests with_orders].
  set (tps := sorted targets (String.eqb (PyStr.upper side_) "SELL")) in *.
  set (ps := position_side_of mode side_) in *.
  assert (Htps : List.length tps = List.length targets) by apply sorted_length.
  destruct tps as [|t ts] eqn:Etps; [destruct targets; [congruence|discriminate]|].
  exists (map (take_profit_params sym side_ ps (Some chunk)) (removelast (t :: ts))),
    (take_profit_params sym side_ ps None (last (t :: ts) t)).
  change (map (take_profit_params sym side_ ps (Some chunk)) (removelast (t :: ts))
          ++ [take_profit_params sym side_ ps None (last (t :: ts) t)])
    with (ladder sym side_ ps chunk (t :: ts)).
  split; [reflexivity|].
  split; [now rewrite !created_app, created_cancellations, created_orders|].
  split; [now rewrite length_ladder|].
  split; [now rewrite explicit_quantities_ladder, Htps|].
  split; reflexivity.
Qed.

End LadderQuantities.

(** C6, amended.  For [N >= 1] targets on a listed symbol of precision
    [d], in any arithmetic in which [chunk = round_more(q / N, d)] can be
    computed, the ladder states [N - 1] quantities, each equal to [chunk],
    and its last order states none and has [closePosition].  In exact
    arithmetic [q / N <= chunk < q / N + 10^-d], so the sum of the stated
    quantities is at least [(N - 1) * q / N] and at most
    [(N - 1) * q / N + (N - 1) * 10^-d]; it is not bounded by [q]. *)
Theorem take_profit_quantities_bounds :
  (forall (F : Type) (PF : PyFloat F) (c : Binance.Client F) (sym side_ : string) (q : F)
          (targets : list F) (trading_mode : option string) (mode : string) (d : Z)
          (chunk : F),
      BinanceObs.well_formed c ->
      targets <> [] ->
      BinanceObs.mode_for_take_profits trading_mode c = Ok mode ->
      BinanceObs.listed_precision c sym = Some d ->
      BinanceObs.chunk_quantity q (List.length targets) d = Ok chunk ->
      let run := Binance.bulk_create_take_profits sym side_ q (Some targets) trading_mode c in
      exists (legs : list (Binance.OrderParams F)) (final : Binance.OrderParams F),
        run = (Ok tt, snd run)
        /\ BinanceObs.created (Binance.requests (snd run))
           = BinanceObs.created (Binance.requests c) ++ legs ++ [final]
        /\ List.length (legs ++ [final]) = List.length targets
        /\ BinanceObs.explicit_quantities (legs ++ [final])
           = repeat chunk (List.length targets - 1)
        /\ Binance.quantity final = None /\ Binance.closePosition final = Some true)
  /\ (forall (q : Q) (N : nat) (d : Z),
         (0 < N)%nat -> 0 <= d ->
         let n := inject_Z (Z.of_nat N) in
         let k := inject_Z (Z.of_nat (N - 1)) in
         exists chunk : Q,
           BinanceObs.chunk_quantity q N d = Ok chunk
           /\ round_more (q / n)%Q d = Ok chunk
           /\ (q / n <= chunk)%Q /\ (chunk - q / n < 1 / inject_Z (10 ^ d))%Q
           /\ (k * (q / n) <= Qsum (repeat chunk (N - 1)))%Q
           /\ (Qsum (repeat chunk (N - 1)) <= k * (q / n) + k * (1 / inject_Z (10 ^ d)))%Q).
Proof.
  split.
  - intros F PF c sym side_ q targets trading_mode mode d chunk Hwf Hne Hmode Hd Hchunk run.
    exact (bulk_create_take_profits_quantities c sym side_ q targets trading_mode mode d chunk
             Hwf Hne Hmode Hd Hchunk).
  - intros q N d HN Hd n k.
    destruct (chunk_quantity_exact q N d HN Hd) as [chunk [Hchunk [Hround [Hlo Hhi]]]].
    fold n in Hround, Hlo, Hhi.
    exists chunk. split; [exact Hchunk|]. split; [exact Hround|].
    split; [exact Hlo|]. split; [exact Hhi|].
    rewrite Qsum_repeat. fold k.
    assert (Hk : (0 <= k)%Q).
    { subst k. change 0%Q with (inject_Z 0). rewrite <- Zle_Qle. lia. }
    split; nra.
Qed.

Lemma take_profit_quantities_bounds_witness :
  (BinanceObs.well_formed ExampleBooks.client_with_book
   /\ Inputs.three_targets <> []
   /\ BinanceObs.chunk_quantity (B64.dec 2 1) (List.length Inputs.three_targets) 3
      = Ok (B64.dec 67 3)
   /\ exists legs final,
       BinanceObs.created
         (Binance.requests
            (snd (Binance.bulk_create_take_profits "BTCUSDT" "SELL" (B64.dec 2 1)
                    (Some Inputs.three_targets) None ExampleBooks.client_with_book)))
       = legs ++ [final]
       /\ BinanceObs.explicit_quantities (legs ++ [final]) = [B64.dec 67 3; B64.dec 67 3])
  /\ ((0 < 3)%nat /\ 0 <= 3
      /\ exists chunk : Q,
          round_more ((1 # 1000) / inject_Z 3)%Q 3 = Ok chunk
          /\ (Qsum (repeat chunk 2)
              <= inject_Z 2 * ((1 # 1000) / inject_Z 3) + inject_Z 2 * (1 / inject_Z (10 ^ 3)))%Q).
Proof.
  split.
  - split; [exact client_with_book_well_formed|]. split; [discriminate|].
    split; [vm_compute; reflexivity|].
    destruct (proj1 take_profit_quantities_bounds _ _ ExampleBooks.client_with_book
                "BTCUSDT" "SELL" (B64.dec 2 1) Inputs.three_targets None "ONE_WAY" 3
                (B64.dec 67 3) client_with_book_well_formed ltac:(discriminate)
                eq_refl eq_refl ltac:(vm_compute; reflexivity))
      as (legs & final & _ & Hc & _ & Hq & _).
    exists legs, final. split; [exact Hc|exact Hq].
  - split; [lia|]. split; [lia|].
    destruct (proj2 take_profit_quantities_bounds (1 # 1000)%Q 3%nat 3 ltac:(lia) ltac:(lia))
      as (chunk & _ & Hr & _ & _ & _ & Hsum).
    exists chunk. split; [exact Hr|exact Hsum].
Defined.

(** ** Position sizing against the minimum notional *)

(** C2, as stated, on doubles: it does not hold.  With a minimum notional
    of [0.55] and three targets the threshold is [0.55 * 3 =
    1.6500000000000001]; for 1 USDT at leverage 1 and a last price of 1 the
    quantity is raised to the threshold and then rounded to [1.65], whose
    notional is below the threshold. *)
Lemma sizing_below_threshold_on_doubles :
  Binance.ticker ExampleBooks.client_usdc "USDCUSDT" = Ok (B64.dec 1 0)
  /\ BinanceObs.notional_threshold (B64.dec 55 2) Inputs.near_targets
     = Ok Inputs.threshold_for_three
  /\ fst (Binance.calculate_quantity_from_usdt "USDCUSDT" (B64.dec 1 0) 1 true
            Inputs.near_targets ExampleBooks.client_usdc)
     = Ok (B64.dec 165 2)
  /\ B64.ltb (B64.mul (B64.dec 165 2) (B64.dec 1 0)) Inputs.threshold_for_three = true
  /\ ~ (B64.to_Q Inputs.threshold_for_three
        <= B64.to_Q (B64.dec 165 2) * B64.to_Q (B64.dec 1 0))%Q.
Proof.
  split; [reflexivity|]. split; [vm_compute; reflexivity|].
  split; [vm_compute; reflexivity|]. split; [vm_compute; reflexivity|].
  intros H. apply Qle_bool_iff in H. vm_compute in H. discriminate H.
Qed.

Section Sizing.
Context {F : Type} {PF : PyFloat F}.
Import Binance BinanceObs.

Lemma notional_threshold_run (c : Client F) (mn : F) (targets : option (list F))
    (threshold : F) :
  notional_threshold mn targets = Ok threshold ->
  (match targets with
   | Some (t :: ts) =>
       bind (lift (float_of_int (Z.of_nat (List.length (t :: ts)))))
         (fun n => ret (fmul mn n))
   | _ => ret mn
   end) c = (Ok threshold, c).
Proof.
  unfold notional_threshold. destruct targets as [[|t ts]|]; try now intros [= <-].
  unfold bind, lift, ret.
  destruct (float_of_int (Z.of_nat (List.length (t :: ts)))); cbn; [|discriminate].
  now intros [= <-].
Qed.

Lemma found_precision (c : Client F) (sym : string) (item : SymbolInfo F) :
  find_symbol sym (exchange_info c) = Some item ->
  listed_precision c sym = Some (lot_size_precision (filters item)).
Proof. unfold listed_precision. now intros ->. Qed.

(** The run of [calculate_quantity_from_usdt] once the price, the leverage
    as a float, the first quotient, the instrument and the threshold are
    known. *)
Lemma calculate_quantity_run (c : Client F) sym (usdt : F) (lev : Z) (adjust : bool)
    (targets : option (list F)) (price l quantity_ : F) (item : SymbolInfo F)
    (mn threshold : F) :
  ticker c sym = Ok price ->
  float_of_int lev = Ok l ->
  fdiv (fmul usdt l) price = Ok quantity_ ->
  find_symbol sym (exchange_info c) = Some item ->
  min_notional_of (filters item) fzero = Ok mn ->
  notional_threshold mn targets = Ok threshold ->
  fst (calculate_quantity_from_usdt sym usdt lev adjust targets c)
  = if flt (fmul quantity_ price) threshold
    then if adjust
         then rbind (fdiv threshold price)
                (fun q => round_more q (lot_size_precision (filters item)))
         else Raise (ValueError BelowMinNotional)
    else round_more quantity_ (lot_size_precision (filters item)).
Proof.
  intros Hp Hl Hq Hfind Hmn Hth.
  unfold calculate_quantity_from_usdt.
  erewrite bind_ok by (unfold client_futures_symbol_ticker; rewrite Hp; reflexivity).
  erewrite bind_ok by (unfold lift; rewrite Hl; reflexivity).
  erewrite bind_ok by (unfold lift; rewrite Hq; reflexivity).
  erewrite bind_ok by reflexivity.
  rewrite Hfind.
  erewrite bind_ok by (unfold lift; rewrite Hmn; reflexivity).
  erewrite bind_ok by (apply notional_threshold_run; exact Hth).
  destruct (flt (fmul quantity_ price) threshold).
  - destruct adjust.
    + unfold lift at 1. destruct (fdiv threshold price) as [q|e] eqn:Ediv.
      * erewrite bind_ok by reflexivity.
        erewrite bind_ok by (apply get_quantity_precision_run, found_precision; exact Hfind).
        reflexivity.
      * erewrite bind_raise by reflexivity. reflexivity.
    + erewrite bind_raise by reflexivity. reflexivity.
  - erewrite bind_ok by reflexivity.
    erewrite bind_ok by (apply get_quantity_precision_run, found_precision; exact Hfind).
    reflexivity.
Qed.

End Sizing.

Section SizingExact.
Import Binance BinanceObs.
Local Open Scope Q_scope.

Lemma exact_div_pos (x y : Q) : 0 < y -> Exact.div x y = Ok (x / y).
Proof.
  intros Hy. unfold Exact.div. destruct (Qeq_bool y 0) eqn:E; [|reflexivity].
  apply Qeq_bool_iff in E. rewrite E in Hy. discriminate.
Qed.

Lemma exact_ltb_lt (x y : Q) : Exact.ltb x y = true <-> x < y.
Proof.
  unfold Exact.ltb. rewrite negb_true_iff. split.
  - intros H. apply Qnot_le_lt. intros Hle. apply Qle_bool_iff in Hle. congruence.
  - intros H. destruct (Qle_bool y x) eqn:E; [|reflexivity].
    apply Qle_bool_iff in E. apply Qlt_not_le in H. contradiction.
Qed.

Lemma round_more_keeps_notional (x price threshold : Q) (d : Z) :
  (0 <= d)%Z -> 0 < price -> threshold <= x * price ->
  exists q, round_more x d = Ok q /\ threshold <= q * price.
Proof.
  intros Hd Hpos Hx. rewrite round_more_exact by exact Hd.
  eexists. split; [reflexivity|].
  destruct (ceiling_quotient_bounds x _ (inject_pow10_pos d Hd)) as [Hle _].
  nra.
Qed.

Lemma sizing_exact (c : Client Q) sym (usdt : Q) (lev : Z) (adjust : bool)
    (targets : option (list Q)) (price : Q) (item : SymbolInfo Q) (mn threshold : Q) :
  ticker c sym = Ok price -> 0 < price ->
  find_symbol sym (exchange_info c) = Some item ->
  min_notional_of (filters item) 0 = Ok mn ->
  notional_threshold mn targets = Ok threshold ->
  threshold <= usdt * inject_Z lev \/ adjust = true ->
  exists q, fst (calculate_quantity_from_usdt sym usdt lev adjust targets c) = Ok q
            /\ threshold <= q * price.
Proof.
  intros Hp Hpos Hfind Hmn Hth Hcase.
  rewrite (calculate_quantity_run (PF := exact) c sym usdt lev adjust targets price
             (inject_Z lev) (usdt * inject_Z lev / price) item mn threshold Hp eq_refl
             (exact_div_pos _ _ Hpos) Hfind Hmn Hth).
  assert (Hne : ~ price == 0) by (intros E; rewrite E in Hpos; discriminate).
  assert (Hraw : usdt * inject_Z lev / price * price == usdt * inject_Z lev)
    by (field; exact Hne).
  pose proof (lot_size_precision_nonneg (filters item)) as Hd.
  cbn [flt fmul fdiv exact].
  destruct (Exact.ltb (usdt * inject_Z lev / price * price) threshold) eqn:Elt.
  - apply exact_ltb_lt in Elt. rewrite Hraw in Elt.
    destruct Hcase as [Hge | ->]; [apply Qlt_not_le in Elt; contradiction|].
    rewrite exact_div_pos by exact Hpos. cbn [rbind].
    apply round_more_keeps_notional; [exact Hd|exact Hpos|].
    assert (E : threshold / price * price == threshold) by (field; exact Hne).
    rewrite E. apply Qle_refl.
  - apply round_more_keeps_notional; [exact Hd|exact Hpos|].
    apply Qnot_lt_le. intros Hlt. apply exact_ltb_lt in Hlt. congruence.
Qed.

End SizingExact.

(** C2, amended.  For a listed symbol, with [threshold] the minimum
    notional multiplied by the number of targets when there are some:
    in exact arithmetic and for a positive last price, if the raw notional
    [usdt_amount * leverage] reaches the threshold or
    [adjust_to_min_notional] is set, the call returns a quantity [q] with
    [q * price >= threshold]; in any arithmetic, if the notional
    [quantity * price] of the first quotient compares below the threshold
    and [adjust_to_min_notional] is not set, the call raises the
    [ValueError] for a quantity below the minimum notional. *)
Theorem sizing_meets_min_notional :
  (forall (c : Binance.Client Q) (sym : string) (usdt : Q) (lev : Z) (adjust : bool)
          (targets : option (list Q)) (price : Q) (item : Binance.SymbolInfo Q)
          (mn threshold : Q),
      Binance.ticker c sym = Ok price -> (0 < price)%Q ->
      Binance.find_symbol sym (Binance.exchange_info c) = Some item ->
      Binance.min_notional_of (Binance.filters item) 0%Q = Ok mn ->
      BinanceObs.notional_threshold mn targets = Ok threshold ->
      (threshold <= usdt * inject_Z lev)%Q \/ adjust = true ->
      exists q,
        fst (Binance.calculate_quantity_from_usdt sym usdt lev adjust targets c) = Ok q
        /\ (threshold <= q * price)%Q)
  /\ (forall (F : Type) (PF : PyFloat F) (c : Binance.Client F) (sym : string) (usdt : F)
             (lev : Z) (targets : option (list F)) (price l quantity_ : F)
             (item : Binance.SymbolInfo F) (mn threshold : F),
         Binance.ticker c sym = Ok price ->
         float_of_int lev = Ok l ->
         fdiv (fmul usdt l) price = Ok quantity_ ->
         Binance.find_symbol sym (Binance.exchange_info c) = Some item ->
         Binance.min_notional_of (Binance.filters item) fzero = Ok mn ->
         BinanceObs.notional_threshold mn targets = Ok threshold ->
         flt (fmul quantity_ price) threshold = true ->
         fst (Binance.calculate_quantity_from_usdt sym usdt lev false targets c)
         = Raise (ValueError BelowMinNotional)).
Proof.
  split.
  - exact sizing_exact.
  - intros F PF c sym usdt lev targets price l quantity_ item mn threshold
      Hp Hl Hq Hfind Hmn Hth Hlt.
    rewrite (calculate_quantity_run c sym usdt lev false targets price l quantity_ item mn
               threshold Hp Hl Hq Hfind Hmn Hth).
    now rewrite Hlt.
Qed.

Lemma sizing_meets_min_notional_witness :
  (Binance.ticker ExampleBooks.exact_client "BTCUSDT" = Ok 50000%Q
   /\ (0 < 50000)%Q
   /\ BinanceObs.notional_threshold 5%Q (Some [51000%Q; 52000%Q; 53000%Q])
      = Ok (5 * inject_Z 3)%Q
   /\ exists q,
       fst (Binance.calculate_quantity_from_usdt "BTCUSDT" 1000%Q 10 true
              (Some [51000%Q; 52000%Q; 53000%Q]) ExampleBooks.exact_client) = Ok q
       /\ (5 * inject_Z 3 <= q * 50000)%Q)
  /\ (B64.ltb (B64.mul (B64.dec 1 0) (B64.dec 1 0)) Inputs.threshold_for_three = true
      /\ fst (Binance.calculate_quantity_from_usdt "USDCUSDT" (B64.dec 1 0) 1 false
                Inputs.near_targets ExampleBooks.client_usdc)
         = Raise (ValueError BelowMinNotional)).
Proof.
  split.
  - split; [reflexivity|]. split; [reflexivity|]. split; [reflexivity|].
    apply (proj1 sizing_meets_min_notional ExampleBooks.exact_client "BTCUSDT" 1000%Q 10 true
             (Some [51000%Q; 52000%Q; 53000%Q]) 50000%Q _ 5%Q _
             eq_refl eq_refl eq_refl eq_refl eq_refl).
    right. reflexivity.
  - split; [vm_compute; reflexivity|].
    apply (proj2 sizing_meets_min_notional _ _ ExampleBooks.client_usdc "USDCUSDT"
             (B64.dec 1 0) 1 Inputs.near_targets (B64.dec 1 0) (B64.dec 1 0) (B64.dec 1 0)
             ExampleBooks.usdcusdt (B64.dec 55 2) Inputs.threshold_for_three);
      vm_compute; reflexivity.
Defined.

(** * Further properties *)

(** ** Failures of the Binance calls *)

Section BinanceFailures.
Context {F : Type} {PF : PyFloat F}.
Import Binance BinanceObs.

Lemma well_formed_booked (c : Client F) (f : Order F -> bool) (ps : list (OrderParams F))
    (r : list (Request F)) :
  well_formed c ->
  well_formed (with_orders c (filter f (open_orders c) ++ booked (next_order_id c) ps)
                 (next_order_id c + Z.of_nat (List.length ps)) r).
Proof.
  intros Hwf. apply (well_formed_filter c f r) in Hwf.
  destruct Hwf as [Hnd Hlt]. cbn [open_orders next_order_id with_orders] in Hnd, Hlt.
  generalize dependent (filter f (open_orders c)). generalize (next_order_id c).
  induction ps as [|p ps IH]; intros n book Hnd Hlt.
  - split; cbn [open_orders next_order_id with_orders booked List.length];
      rewrite ?app_nil_r, ?Z.add_0_r; assumption.
  - cbn [booked List.length].
    replace (book ++ {| orderId := n; params := p |} :: booked (n + 1) ps)
      with ((book ++ [ {| orderId := n; params := p |} ]) ++ booked (n + 1) ps)
      by (now rewrite <- app_assoc).
    replace (n + Z.of_nat (S (List.length ps))) with (n + 1 + Z.of_nat (List.length ps))
      by lia.
    apply IH.
    + rewrite map_app. cbn. rewrite Forall_forall in Hlt.
      apply NoDup_app; [exact Hnd|repeat constructor; intros []|].
      intros a Ha [<-|[]]. apply in_map_iff in Ha as [o [Ho Hin]].
      specialize (Hlt o Hin). lia.
    + apply Forall_app. split.
      * eapply Forall_impl; [|exact Hlt]. cbn. intros; lia.
      * repeat constructor. cbn. lia.
Qed.

Lemma mode_for_take_profits_with_orders (c : Client F) tm os n r :
  mode_for_take_profits tm (with_orders c os n r) = mode_for_take_profits tm c.
Proof.
  unfold mode_for_take_profits. rewrite !binance_get_trading_mode_run. cbn.
  destruct (account c); reflexivity.
Qed.

(** X1.  On an exchange that answers the requests, when the symbol is
    missing from the exchange information, or the quantity of a leg
    cannot be rounded, [bulk_create_take_profits] raises only after it
    has cancelled the open take-profit orders of the pair, and before it
    sends an order: the book is the old one without them, and the log
    ends with their cancellations. *)
Theorem bulk_create_take_profits_fails_after_sweep (c : Client F) sym side_ (q : F)
    (targets : list F) trading_mode mode (len chunk0 : F) (e : exn) :
  well_formed c ->
  targets <> [] ->
  mode_for_take_profits trading_mode c = Ok mode ->
  float_of_int (Z.of_nat (List.length targets)) = Ok len ->
  fdiv q len = Ok chunk0 ->
  match listed_precision c sym with
  | None => e = ValueError SymbolNotFound
  | Some d => round_more chunk0 d = Raise e
  end ->
  let take := order_matches sym "TAKE_PROFIT_MARKET" (position_side_of mode side_) in
  bulk_create_take_profits sym side_ q (Some targets) trading_mode c
  = (Raise e,
     with_orders c (filter (fun o => negb (take o)) (open_orders c)) (next_order_id c)
       (requests c ++ cancellations sym (filter take (open_orders c)))).
Proof.
  intros Hwf Hne Hmode Hlen Hdiv Hfail take. unfold bulk_create_take_profits.
  destruct targets as [|t ts]; [congruence|].
  erewrite bind_ok by (apply mode_for_take_profits_run; exact Hmode).
  erewrite bind_ok
    by (unfold close_take_profit_orders; apply close_orders_of_type_run; exact Hwf).
  fold take. set (c1 := with_orders c _ _ _).
  erewrite bind_ok by (unfold lift; rewrite Hlen; reflexivity).
  erewrite bind_ok by (unfold lift; rewrite Hdiv; reflexivity).
  unfold listed_precision in Hfail.
  unfold bind at 1, get_quantity_precision at 1, bind at 1, get_trading_symbols,
    client_futures_exchange_info.
  change (exchange_info c1) with (exchange_info c).
  destruct (find_symbol sym (exchange_info c)) as [item|].
  - unfold ret at 1, bind at 1, lift at 1. now rewrite Hfail.
  - unfold raise. now rewrite Hfail.
Qed.

End BinanceFailures.

Lemma bulk_create_take_profits_fails_after_sweep_witness :
  round_more (PF := binary64) Calls.nan 3 = Raise (ValueError NaNToInteger)
  /\ Binance.bulk_create_take_profits "BTCUSDT" "BUY" Calls.nan (Some Calls.two_targets) None
       ExampleBooks.client_with_book
     = (Raise (ValueError NaNToInteger),
        Binance.with_orders ExampleBooks.client_with_book
          (filter
             (fun o => negb (Binance.order_matches "BTCUSDT" "TAKE_PROFIT_MARKET" "BOTH" o))
             ExampleBooks.book)
          5 [Binance.CancelOrder "BTCUSDT" 2]).
Proof.
  split; [reflexivity|].
  exact (bulk_create_take_profits_fails_after_sweep (PF := binary64)
           ExampleBooks.client_with_book "BTCUSDT" "BUY" Calls.nan Calls.two_targets None
           "ONE_WAY" (B64.dec 2 0) Calls.nan (ValueError NaNToInteger)
           client_with_book_well_formed ltac:(discriminate) eq_refl eq_refl eq_refl eq_refl).
Defined.

(** ** The sequence of requests of [create_order] *)

Section OrderFlows.
Context {F : Type} {PF : PyFloat F}.
Import Binance BinanceObs.
Variable str : F -> string.

(** The order [create_order] sends first. *)
Lemma create_order_primary (c : Client F) sym side_ order_type (quantity_ : F)
    (price_ stop_loss : option F) (take_profit_targets : option (list F)) leverage mode :
  fst (get_trading_mode c) = Ok mode ->
  let order :=
    {| symbol := sym; side := PyStr.upper side_; type := PyStr.upper order_type;
       quantity := Some quantity_; positionSide := position_side_of mode side_;
       price := match price_ with
                | Some p => if String.eqb (PyStr.upper order_type) "LIMIT"
                            then Some (str p) else None
                | None => None
                end;
       timeInForce := match price_ with
                      | Some _ => if String.eqb (PyStr.upper order_type) "LIMIT"
                                  then Some "GTC" else None
                      | None => None
                      end;
       stopPrice := None; closePosition := None |} in
  let o := {| orderId := next_order_id c; params := order |} in
  create_order str sym side_ order_type quantity_ price_ stop_loss take_profit_targets
    leverage c
  = bind (match stop_loss with
          | Some sl => if truthy sl then create_stop_loss sym side_ (Some sl) None else ret tt
          | None => ret tt
          end)
      (fun _ =>
         bind (match take_profit_targets with
               | Some (t :: ts) =>
                   bulk_create_take_profits sym side_ quantity_ (Some (t :: ts)) None
               | _ => ret tt
               end)
           (fun _ => ret o))
      (with_orders c (open_orders c ++ [o]) (next_order_id c + 1)
         (requests c ++ [ChangeLeverage sym leverage; CreateOrder order])).
Proof.
  intros Hmode order o. unfold create_order.
  erewrite bind_ok by reflexivity.
  erewrite bind_ok
    by (unfold futures_change_leverage, client_futures_change_leverage;
        apply get_trading_mode_resolved; exact Hmode).
  erewrite bind_ok by reflexivity.
  subst o order. unfold with_orders. cbn. now rewrite <- app_assoc.
Qed.


(** X3.  A stop-loss price that is [None] or zero and targets that are
    [None] or empty ask for nothing: [create_order] then sends the
    leverage change and the order, nothing else, and returns the order.
    An order of another type than ['LIMIT'] carries neither [price] nor
    [timeInForce], whatever price is passed. *)
Theorem create_order_unprotected (c : Client F) (sym side_ order_type : string)
    (quantity_ : F) (price_ stop_loss : option F) (take_profit_targets : option (list F))
    (leverage : Z) (mode : string) :
  fst (get_trading_mode c) = Ok mode ->
  (forall sl, stop_loss = Some sl -> truthy sl = false) ->
  (forall targets, take_profit_targets = Some targets -> targets = []) ->
  exists order,
    create_order str sym side_ order_type quantity_ price_ stop_loss take_profit_targets
      leverage c
    = (Ok {| orderId := next_order_id c; params := order |},
       with_orders c
         (open_orders c ++ [ {| orderId := next_order_id c; params := order |} ])
         (next_order_id c + 1)
         (requests c ++ [ChangeLeverage sym leverage; CreateOrder order]))
    /\ symbol order = sym /\ side order = PyStr.upper side_
    /\ type order = PyStr.upper order_type
    /\ quantity order = Some quantity_
    /\ positionSide order = position_side_of mode side_
    /\ stopPrice order = None /\ closePosition order = None
    /\ (PyStr.upper order_type <> "LIMIT" -> price order = None /\ timeInForce order = None).
Proof.
  intros Hmode Hsl Htp. eexists. split.
  - rewrite (create_order_primary c sym side_ order_type quantity_ price_ stop_loss
               take_profit_targets leverage mode Hmode).
    assert (E1 : match stop_loss with
                 | Some sl => if truthy sl then create_stop_loss sym side_ (Some sl) None
                              else ret tt
                 | None => ret tt
                 end = ret tt).
    { destruct stop_loss as [sl|]; [|reflexivity]. now rewrite (Hsl sl eq_refl). }
    assert (E2 : match take_profit_targets with
                 | Some (t :: ts) =>
                     bulk_create_take_profits sym side_ quantity_ (Some (t :: ts)) None
                 | _ => ret tt
                 end = ret tt).
    { destruct take_profit_targets as [[|t ts]|]; try reflexivity.
      specialize (Htp _ eq_refl). discriminate. }
    rewrite E1, E2. reflexivity.
  - cbn. repeat split; try reflexivity;
      apply String.eqb_neq in H; rewrite H; now destruct price_.
Qed.

(** X4.  When the account request fails, [create_order] has changed the
    leverage and raises the client's exception before it sends an
    order. *)
Theorem create_order_stops_at_failed_lookup (c : Client F) (sym side_ order_type : string)
    (quantity_ : F) (price_ stop_loss : option F) (take_profit_targets : option (list F))
    (leverage : Z) (e : exn) :
  account c = Raise e ->
  create_order str sym side_ order_type quantity_ price_ stop_loss take_profit_targets
    leverage c
  = (Raise e,
     with_orders c (open_orders c) (next_order_id c)
       (requests c ++ [ChangeLeverage sym leverage])).
Proof.
  intros Hacc. unfold create_order.
  erewrite bind_ok by reflexivity.
  erewrite bind_raise; [reflexivity|].
  rewrite binance_get_trading_mode_run. cbn [account with_orders]. now rewrite Hacc.
Qed.

(** X5.  The protective calls look the trading mode up before they touch
    an order: when the account request fails, [create_stop_loss] (given
    no mode, or an empty one) and [bulk_create_take_profits] (given no
    mode) raise the client's exception and send nothing. *)
Theorem protective_calls_fail_before_requests (c : Client F) (sym side_ : string)
    (sl quantity_ : F) (targets : list F) (e : exn) :
  account c = Raise e ->
  targets <> [] ->
  create_stop_loss sym side_ (Some sl) None c = (Raise e, c)
  /\ create_stop_loss sym side_ (Some sl) (Some EmptyString) c = (Raise e, c)
  /\ bulk_create_take_profits sym side_ quantity_ (Some targets) None c = (Raise e, c).
Proof.
  intros Hacc Hne.
  assert (Hm : get_trading_mode c = (Raise e, c)).
  { rewrite binance_get_trading_mode_run. now rewrite Hacc. }
  repeat split.
  - unfold create_stop_loss. erewrite bind_raise; [reflexivity|exact Hm].
  - unfold create_stop_loss. erewrite bind_raise; [reflexivity|exact Hm].
  - unfold bulk_create_take_profits. destruct targets as [|t ts]; [congruence|].
    erewrite bind_raise; [reflexivity|exact Hm].
Qed.

End OrderFlows.



Lemma create_order_unprotected_witness :
  truthy Calls.zero = false
  /\ exists order,
      Binance.create_order (Calls.str_of "50000") "BTCUSDT" "buy" "market" (B64.dec 3 3)
        (Some (B64.dec 50000 0)) (Some Calls.zero) (Some []) 10 ExampleBooks.client_with_book
      = (Ok {| Binance.orderId := 5; Binance.params := order |},
         Binance.with_orders ExampleBooks.client_with_book
           (ExampleBooks.book ++ [ {| Binance.orderId := 5; Binance.params := order |} ]) 6
           [Binance.ChangeLeverage "BTCUSDT" 10; Binance.CreateOrder order])
      /\ Binance.price order = None.
Proof.
  split; [reflexivity|].
  destruct (create_order_unprotected (PF := binary64) (Calls.str_of "50000")
              ExampleBooks.client_with_book
              "BTCUSDT" "buy" "market" (B64.dec 3 3) (Some (B64.dec 50000 0))
              (Some Calls.zero) (Some []) 10 "ONE_WAY" eq_refl)
    as (order & Hrun & _ & _ & _ & _ & _ & _ & _ & Hprice).
  - intros sl [= <-]. reflexivity.
  - intros targets [= <-]. reflexivity.
  - exists order. split; [exact Hrun|]. apply Hprice. discriminate.
Defined.

Lemma create_order_stops_at_failed_lookup_witness :
  Binance.create_order (Calls.str_of "50000") "BTCUSDT" "buy" "limit" (B64.dec 3 3)
    (Some (B64.dec 50000 0)) (Some (B64.dec 45000 0)) (Some Calls.two_targets) 10
    Examples.client_down
  = (Raise (ClientError (-1021)),
     Binance.with_orders Examples.client_down [] 1 [Binance.ChangeLeverage "BTCUSDT" 10]).
Proof.
  exact (create_order_stops_at_failed_lookup (PF := binary64) (Calls.str_of "50000")
           Examples.client_down
           "BTCUSDT" "buy" "limit" (B64.dec 3 3) (Some (B64.dec 50000 0))
           (Some (B64.dec 45000 0)) (Some Calls.two_targets) 10 (ClientError (-1021)) eq_refl).
Defined.

Lemma protective_calls_fail_before_requests_witness :
  Binance.create_stop_loss "BTCUSDT" "buy" (Some (B64.dec 45000 0)) None Examples.client_down
  = (Raise (ClientError (-1021)), Examples.client_down)
  /\ Binance.bulk_create_take_profits "BTCUSDT" "buy" (B64.dec 3 3) (Some Calls.two_targets)
       None Examples.client_down
     = (Raise (ClientError (-1021)), Examples.client_down).
Proof.
  destruct (protective_calls_fail_before_requests (PF := binary64) Examples.client_down
              "BTCUSDT" "buy"
              (B64.dec 45000 0) (B64.dec 3 3) Calls.two_targets (ClientError (-1021))
              eq_refl ltac:(discriminate)) as (H1 & _ & H3).
  split; assumption.
Defined.

(** ** Sweeping and replacing protective orders *)

Section Replacing.
Context {F : Type} {PF : PyFloat F}.
Import Binance BinanceObs.

Lemma take_profit_params_match sym side_ position_side (use_qty : option F) (tp : F) n :
  order_matches sym "TAKE_PROFIT_MARKET" position_side
    {| orderId := n; params := take_profit_params sym side_ position_side use_qty tp |} = true.
Proof.
  unfold order_matches, take_profit_params. destruct use_qty; cbn [params symbol type positionSide];
    now rewrite !String.eqb_refl.
Qed.

Lemma booked_app (ps qs : list (OrderParams F)) :
  forall n, booked n (ps ++ qs) = booked n ps ++ booked (n + Z.of_nat (List.length ps)) qs.
Proof.
  induction ps as [|p ps IH]; intros n.
  - cbn. now rewrite Z.add_0_r.
  - cbn [booked app List.length]. rewrite IH. cbn. do 3 f_equal. lia.
Qed.

Lemma booked_all (f : Order F -> bool) (ps : list (OrderParams F)) :
  (forall n p, In p ps -> f {| orderId := n; params := p |} = true) ->
  forall n, filter f (booked n ps) = booked n ps.
Proof.
  intros H n. apply filter_all. revert n.
  induction ps as [|p ps IH]; intros n o; [intros []|].
  cbn [booked]. intros [<-|Hin].
  - apply H. now left.
  - apply (IH (fun n p Hp => H n p (or_intror Hp)) (n + 1)). exact Hin.
Qed.

Lemma ladder_matches sym side_ position_side (chunk : F) (tps : list F) n p :
  In p (ladder sym side_ position_side chunk tps) ->
  order_matches sym "TAKE_PROFIT_MARKET" position_side {| orderId := n; params := p |} = true.
Proof.
  unfold ladder. destruct tps as [|t ts]; [intros []|].
  intros Hin. apply in_app_or in Hin as [Hin|[<-|[]]].
  - apply in_map_iff in Hin as [tp [<- _]]. apply take_profit_params_match.
  - apply take_profit_params_match.
Qed.

Lemma filter_none {A} (f : A -> bool) (l : list A) :
  (forall x, In x l -> f x = false) -> filter f l = [].
Proof.
  induction l as [|a l IH]; [reflexivity|]. intros H. cbn.
  rewrite (H a (or_introl eq_refl)). apply IH. intros x Hx. apply H. now right.
Qed.

Lemma filter_negb_self {A} (f : A -> bool) (l : list A) :
  filter f (filter (fun x => negb (f x)) l) = [].
Proof.
  apply filter_none. intros x Hx. apply filter_In in Hx as [_ Hx].
  now destruct (f x).
Qed.

Lemma filter_negb_idem {A} (f : A -> bool) (l : list A) :
  filter (fun x => negb (f x)) (filter (fun x => negb (f x)) l)
  = filter (fun x => negb (f x)) l.
Proof.
  apply filter_all. intros x Hx. now apply filter_In in Hx as [_ Hx].
Qed.

(** The run of a second [bulk_create_take_profits] after a first one,
    on the model's [sorted]. *)
Lemma bulk_create_take_profits_twice_run (c : Client F) (sym side_ : string)
    (q1 q2 : F) (targets1 targets2 : list F) (trading_mode : option string) (mode : string)
    (d : Z) (chunk1 chunk2 : F) :
  well_formed c ->
  targets1 <> [] -> targets2 <> [] ->
  mode_for_take_profits trading_mode c = Ok mode ->
  listed_precision c sym = Some d ->
  chunk_quantity q1 (List.length targets1) d = Ok chunk1 ->
  chunk_quantity q2 (List.length targets2) d = Ok chunk2 ->
  let position_side := position_side_of mode side_ in
  let take := order_matches sym "TAKE_PROFIT_MARKET" position_side in
  let reverse := String.eqb (PyStr.upper side_) "SELL" in
  let legs1 := ladder sym side_ position_side chunk1 (sorted targets1 reverse) in
  let legs2 := ladder sym side_ position_side chunk2 (sorted targets2 reverse) in
  let c1 := snd (bulk_create_take_profits sym side_ q1 (Some targets1) trading_mode c) in
  let run2 := bulk_create_take_profits sym side_ q2 (Some targets2) trading_mode c1 in
  let first_id := next_order_id c + Z.of_nat (List.length targets1) in
  fst run2 = Ok tt
  /\ filter take (open_orders (snd run2)) = booked first_id legs2
  /\ filter (fun o => negb (take o)) (open_orders (snd run2))
     = filter (fun o => negb (take o)) (open_orders c)
  /\ requests (snd run2)
     = requests c1
       ++ cancellations sym (booked (next_order_id c) legs1)
       ++ map CreateOrder legs2.
Proof.
  intros Hwf Hne1 Hne2 Hmode Hd Hq1 Hq2 position_side take reverse legs1 legs2 c1 run2 first_id.
  assert (Hall : forall chunk tps n,
             filter take (booked n (ladder sym side_ position_side chunk tps))
             = booked n (ladder sym side_ position_side chunk tps)).
  { intros chunk tps n. apply booked_all. intros m p Hp. eapply ladder_matches; exact Hp. }
  assert (Hnone : forall chunk tps n,
             filter (fun o => negb (take o))
               (booked n (ladder sym side_ position_side chunk tps)) = []).
  { intros chunk tps n. apply filter_none. intros o Ho.
    rewrite <- (Hall chunk tps n) in Ho. apply filter_In in Ho as [_ ->]. reflexivity. }
  pose proof (bulk_create_take_profits_run c sym side_ q1 targets1 trading_mode mode d chunk1
                Hwf Hne1 Hmode Hd Hq1) as E1.
  cbv zeta in E1. fold position_side take reverse legs1 in E1.
  assert (Hc1 : c1 = with_orders c
                  (filter (fun o => negb (take o)) (open_orders c)
                   ++ booked (next_order_id c) legs1)
                  first_id
                  (requests c ++ cancellations sym (filter take (open_orders c))
                   ++ map CreateOrder legs1)).
  { subst c1. now rewrite E1. }
  assert (Hwf1 : well_formed c1).
  { rewrite Hc1. subst first_id.
    rewrite <- (sorted_length targets1 reverse),
      <- (length_ladder sym side_ position_side chunk1 (sorted targets1 reverse)).
    fold legs1. apply well_formed_booked. exact Hwf. }
  assert (Hm1 : mode_for_take_profits trading_mode c1 = Ok mode).
  { rewrite Hc1, mode_for_take_profits_with_orders. exact Hmode. }
  assert (Hd1 : listed_precision c1 sym = Some d).
  { rewrite Hc1. exact Hd. }
  pose proof (bulk_create_take_profits_run c1 sym side_ q2 targets2 trading_mode mode d chunk2
                Hwf1 Hne2 Hm1 Hd1 Hq2) as E2.
  cbv zeta in E2. fold position_side take reverse legs2 in E2.
  fold run2 in E2. rewrite E2. cbn [fst snd with_orders open_orders requests].
  assert (Hopen : open_orders c1
                  = filter (fun o => negb (take o)) (open_orders c)
                    ++ booked (next_order_id c) legs1)
    by (rewrite Hc1; reflexivity).
  assert (Hnext : next_order_id c1 = first_id) by (rewrite Hc1; reflexivity).
  rewrite Hopen, Hnext, !filter_app.
  subst legs1 legs2.
  repeat rewrite ?filter_app, ?Hall, ?Hnone, ?filter_negb_self, ?filter_negb_idem, ?app_nil_r.
  cbn [app]. repeat split; reflexivity.
Qed.

(** X7.  A sweep leaves nothing for a second sweep: after
    [close_stop_loss_orders], respectively [close_take_profit_orders],
    the same call returns without a request and leaves the client as it
    is. *)
Theorem close_orders_idempotent (c : Client F) (sym position_side : string) :
  well_formed c ->
  close_stop_loss_orders sym position_side (snd (close_stop_loss_orders sym position_side c))
  = (Ok tt, snd (close_stop_loss_orders sym position_side c))
  /\ close_take_profit_orders sym position_side
       (snd (close_take_profit_orders sym position_side c))
     = (Ok tt, snd (close_take_profit_orders sym position_side c)).
Proof.
  intros Hwf.
  assert (H : forall ty,
             close_orders_of_type ty sym position_side
               (snd (close_orders_of_type ty sym position_side c))
             = (Ok tt, snd (close_orders_of_type ty sym position_side c))).
  { intros ty. rewrite (close_orders_of_type_run ty sym position_side c Hwf). cbn [snd].
    rewrite close_orders_of_type_run by (apply well_formed_filter; exact Hwf).
    cbn [open_orders next_order_id requests with_orders].
    rewrite filter_negb_self, filter_negb_idem. cbn [cancellations map].
    now rewrite app_nil_r. }
  split; apply H.
Qed.

(** X8.  The two sweeps do not disturb each other: in either order they
    both succeed and leave the same book, the orders that are neither a
    stop nor a take-profit of the pair; the first sweep cancels what the
    second would have cancelled alone. *)
Theorem close_orders_commute (c : Client F) (sym position_side : string) :
  well_formed c ->
  let stop := order_matches sym "STOP_MARKET" position_side in
  let take := order_matches sym "TAKE_PROFIT_MARKET" position_side in
  let stops_first :=
    close_take_profit_orders sym position_side
      (snd (close_stop_loss_orders sym position_side c)) in
  let takes_first :=
    close_stop_loss_orders sym position_side
      (snd (close_take_profit_orders sym position_side c)) in
  fst stops_first = Ok tt /\ fst takes_first = Ok tt
  /\ open_orders (snd stops_first)
     = filter (fun o => negb (stop o) && negb (take o)) (open_orders c)
  /\ open_orders (snd takes_first) = open_orders (snd stops_first)
  /\ requests (snd stops_first)
     = requests c ++ cancellations sym (filter stop (open_orders c))
       ++ cancellations sym (filter take (open_orders c))
  /\ requests (snd takes_first)
     = requests c ++ cancellations sym (filter take (open_orders c))
       ++ cancellations sym (filter stop (open_orders c)).
Proof.
  intros Hwf stop take stops_first takes_first.
  assert (Hdisj : forall o, stop o = true -> take o = false).
  { intros o Ho. unfold stop, take, order_matches in *.
    apply andb_prop in Ho as [Ho _]. apply andb_prop in Ho as [_ Ho].
    apply String.eqb_eq in Ho. rewrite Ho. cbn. now rewrite andb_false_r. }
  assert (Hts : filter take (filter (fun o => negb (stop o)) (open_orders c))
                = filter take (open_orders c)).
  { rewrite filter_filter. apply filter_ext. intros o.
    destruct (stop o) eqn:Hs; [rewrite (Hdisj o Hs)|]; reflexivity. }
  assert (Hst : filter stop (filter (fun o => negb (take o)) (open_orders c))
                = filter stop (open_orders c)).
  { rewrite filter_filter. apply filter_ext. intros o.
    destruct (stop o) eqn:Hs; [rewrite (Hdisj o Hs)|]; cbn; [reflexivity|apply andb_false_r]. }
  subst stops_first takes_first.
  unfold close_stop_loss_orders, close_take_profit_orders.
  rewrite !(close_orders_of_type_run _ sym position_side c Hwf). cbn [snd].
  rewrite !close_orders_of_type_run by (apply well_formed_filter; exact Hwf).
  cbn [fst snd open_orders next_order_id requests with_orders].
  fold stop take. rewrite Hts, Hst, !filter_filter, <- !app_assoc.
  repeat split; try reflexivity.
  apply filter_ext. intros o. apply andb_comm.
Qed.

End Replacing.

(** X6.  Calling [bulk_create_take_profits] again, with targets none of
    which is NaN, replaces the ladder: of the take-profit orders of the
    pair, the book then holds exactly the second ladder, over the second
    targets in ascending order, or in descending order for ['SELL']; the
    second call cancelled the orders of the first ladder, and every
    other order of the book is as it was before the first call. *)
Theorem bulk_create_take_profits_replaces_ladder (c : Binance.Client B64.float)
    (sym side_ : string) (q1 q2 : B64.float) (targets1 targets2 : list B64.float)
    (trading_mode : option string) (mode : string) (d : Z) (chunk1 chunk2 : B64.float) :
  BinanceObs.well_formed c ->
  targets1 <> [] -> targets2 <> [] ->
  Forall B64Order.not_nan targets1 -> Forall B64Order.not_nan targets2 ->
  BinanceObs.mode_for_take_profits trading_mode c = Ok mode ->
  BinanceObs.listed_precision c sym = Some d ->
  BinanceObs.chunk_quantity q1 (List.length targets1) d = Ok chunk1 ->
  BinanceObs.chunk_quantity q2 (List.length targets2) d = Ok chunk2 ->
  let position_side := Binance.position_side_of mode side_ in
  let take := Binance.order_matches sym "TAKE_PROFIT_MARKET" position_side in
  let reverse := String.eqb (PyStr.upper side_) "SELL" in
  let sorted1 := sorted targets1 reverse in
  let sorted2 := sorted targets2 reverse in
  let legs1 := BinanceObs.ladder sym side_ position_side chunk1 sorted1 in
  let legs2 := BinanceObs.ladder sym side_ position_side chunk2 sorted2 in
  let c1 := snd (Binance.bulk_create_take_profits sym side_ q1 (Some targets1)
                   trading_mode c) in
  let run2 := Binance.bulk_create_take_profits sym side_ q2 (Some targets2) trading_mode c1 in
  let first_id := Binance.next_order_id c + Z.of_nat (List.length targets1) in
  fst run2 = Ok tt
  /\ filter take (Binance.open_orders (snd run2)) = BinanceObs.booked first_id legs2
  /\ filter (fun o => negb (take o)) (Binance.open_orders (snd run2))
     = filter (fun o => negb (take o)) (Binance.open_orders c)
  /\ Binance.requests (snd run2)
     = Binance.requests c1
       ++ BinanceObs.cancellations sym (BinanceObs.booked (Binance.next_order_id c) legs1)
       ++ map Binance.CreateOrder legs2
  /\ Permutation targets2 sorted2
  /\ (if reverse then StronglySorted B64Order.ge sorted2
      else StronglySorted B64Order.le sorted2).
Proof.
  intros Hwf Hne1 Hne2 Hnan1 Hnan2 Hmode Hd Hq1 Hq2 position_side take reverse sorted1 sorted2
    legs1 legs2 c1 run2 first_id.
  destruct (bulk_create_take_profits_twice_run c sym side_ q1 q2 targets1 targets2
              trading_mode mode d chunk1 chunk2 Hwf Hne1 Hne2 Hmode Hd Hq1 Hq2)
    as (E1 & E2 & E3 & E4).
  split; [exact E1|]. split; [exact E2|]. split; [exact E3|]. split; [exact E4|].
  split; [apply sorted_perm|].
  subst sorted2. destruct reverse; now apply sorted_ordered.
Qed.

Lemma client_at_well_formed (p : B64.float) : BinanceObs.well_formed (Examples.client_at p).
Proof. split; constructor. Defined.

Lemma bulk_create_take_profits_replaces_ladder_witness :
  BinanceObs.chunk_quantity (B64.dec 3 3) 3 3 = Ok (B64.dec 1 3)
  /\ BinanceObs.chunk_quantity (B64.dec 3 3) 2 3 = Ok (B64.dec 2 3)
  /\ Forall B64Order.not_nan Inputs.three_targets
  /\ Forall B64Order.not_nan Calls.two_targets
  /\ map Binance.orderId
       (filter (Binance.order_matches "BTCUSDT" "TAKE_PROFIT_MARKET" "BOTH")
          (Binance.open_orders
             (snd (Binance.bulk_create_take_profits "BTCUSDT" "BUY" (B64.dec 3 3)
                     (Some Calls.two_targets) None
                     (snd (Binance.bulk_create_take_profits "BTCUSDT" "BUY" (B64.dec 3 3)
                             (Some Inputs.three_targets) None
                             (Examples.client_at (B64.dec 95 0))))))))
     = [4; 5].
Proof.
  assert (Hnan1 : Forall B64Order.not_nan Inputs.three_targets) by (repeat constructor).
  assert (Hnan2 : Forall B64Order.not_nan Calls.two_targets) by (repeat constructor).
  split; [reflexivity|]. split; [reflexivity|]. split; [exact Hnan1|]. split; [exact Hnan2|].
  destruct (bulk_create_take_profits_replaces_ladder
              (Examples.client_at (B64.dec 95 0)) "BTCUSDT" "BUY" (B64.dec 3 3) (B64.dec 3 3)
              Inputs.three_targets Calls.two_targets None "ONE_WAY" 3 (B64.dec 1 3)
              (B64.dec 2 3) (client_at_well_formed _) ltac:(discriminate) ltac:(discriminate)
              Hnan1 Hnan2 eq_refl eq_refl eq_refl eq_refl) as (_ & E & _).
  change (Binance.position_side_of "ONE_WAY" "BUY") with "BOTH" in E.
  rewrite E. reflexivity.
Defined.

Lemma close_orders_idempotent_witness :
  Binance.requests Calls.after_stop_sweep = [Binance.CancelOrder "BTCUSDT" 1]
  /\ Binance.close_stop_loss_orders "BTCUSDT" "BOTH" Calls.after_stop_sweep
     = (Ok tt, Calls.after_stop_sweep).
Proof.
  split; [reflexivity|].
  exact (proj1 (close_orders_idempotent ExampleBooks.client_with_book
                  "BTCUSDT" "BOTH" client_with_book_well_formed)).
Defined.

Lemma close_orders_commute_witness :
  map Binance.orderId
    (Binance.open_orders
       (snd (Binance.close_take_profit_orders "BTCUSDT" "BOTH" Calls.after_stop_sweep)))
  = [3; 4].
Proof.
  destruct (close_orders_commute ExampleBooks.client_with_book
              "BTCUSDT" "BOTH" client_with_book_well_formed) as (_ & _ & E & _).
  unfold Calls.after_stop_sweep. rewrite E. reflexivity.
Defined.

(** ** Steps with trailing zeros and longer integer parts *)

Lemma rstrip_snoc (c : ascii) (s : string) :
  PyStr.rstrip c (s ++ String c EmptyString)%string = PyStr.rstrip c s.
Proof.
  induction s as [|a s IH].
  - cbn [String.append PyStr.rstrip]. now rewrite Ascii.eqb_refl.
  - cbn [String.append PyStr.rstrip]. now rewrite IH.
Qed.

Lemma contains_snoc (c z : ascii) (s : string) :
  z <> c -> PyStr.contains c (s ++ String z EmptyString)%string = PyStr.contains c s.
Proof.
  intros Hz. induction s as [|a s IH].
  - cbn [String.append PyStr.contains]. now apply Ascii.eqb_neq in Hz as ->.
  - cbn [String.append PyStr.contains]. now rewrite IH.
Qed.

Lemma split_nonempty (c : ascii) (s : string) : PyStr.split c s <> [].
Proof.
  destruct s as [|a s]; cbn [PyStr.split]; [discriminate|].
  destruct (Ascii.eqb a c); [discriminate|]. destruct (PyStr.split c s); discriminate.
Qed.

(** The first piece of a split, up to the trailing [z]s, when a [z] is
    appended to the string. *)
Lemma split_snoc_first (c z : ascii) (s : string) :
  z <> c ->
  PyStr.rstrip z (nth 0 (PyStr.split c (s ++ String z EmptyString)%string) EmptyString)
  = PyStr.rstrip z (nth 0 (PyStr.split c s) EmptyString).
Proof.
  intros Hz. induction s as [|a s IH].
  - cbn [String.append PyStr.split]. apply Ascii.eqb_neq in Hz as ->.
    cbn [PyStr.split nth PyStr.rstrip]. now rewrite Ascii.eqb_refl.
  - cbn [String.append PyStr.split]. destruct (Ascii.eqb a c); [reflexivity|].
    pose proof (split_nonempty c s) as H1.
    pose proof (split_nonempty c (s ++ String z EmptyString)%string) as H2.
    destruct (PyStr.split c s) as [|p ps]; [congruence|].
    destruct (PyStr.split c (s ++ String z EmptyString)%string) as [|q qs]; [congruence|].
    cbn [nth] in *. cbn [PyStr.rstrip]. now rewrite IH.
Qed.

Lemma split_snoc_second (c z : ascii) (s : string) :
  z <> c ->
  PyStr.rstrip z (nth 1 (PyStr.split c (s ++ String z EmptyString)%string) EmptyString)
  = PyStr.rstrip z (nth 1 (PyStr.split c s) EmptyString).
Proof.
  intros Hz. induction s as [|a s IH].
  - cbn [String.append PyStr.split]. apply Ascii.eqb_neq in Hz as ->. reflexivity.
  - cbn [String.append PyStr.split]. destruct (Ascii.eqb a c).
    + cbn [nth]. now apply split_snoc_first.
    + pose proof (split_nonempty c s) as H1.
      pose proof (split_nonempty c (s ++ String z EmptyString)%string) as H2.
      destruct (PyStr.split c s) as [|p ps]; [congruence|].
      destruct (PyStr.split c (s ++ String z EmptyString)%string) as [|q qs]; [congruence|].
      exact IH.
Qed.

(** X9.  Zeros at the end of a step string never change the precision
    read from it, neither Binance's [max(len(step.rstrip('0')) - 2, 0)]
    nor OKX's [_calc_precision]: ["0.0010"] counts as ["0.001"] does. *)
Theorem precision_ignores_trailing_zero (step : string) :
  Binance.step_precision (step ++ "0")%string = Binance.step_precision step
  /\ OKX._calc_precision (step ++ "0")%string = OKX._calc_precision step.
Proof.
  split.
  - unfold Binance.step_precision. now rewrite rstrip_snoc.
  - unfold OKX._calc_precision. rewrite contains_snoc by discriminate.
    destruct (PyStr.contains "." step); [|reflexivity].
    cbn [negb]. now rewrite split_snoc_second by discriminate.
Qed.

Lemma rstrip_before_point (c : ascii) (ip frac : string) :
  c <> "."%char ->
  PyStr.rstrip c (ip ++ String "." frac)%string = (ip ++ String "." (PyStr.rstrip c frac))%string.
Proof.
  intros Hc. induction ip as [|a ip IH].
  - cbn [String.append]. now apply rstrip_keeps_point.
  - cbn [String.append PyStr.rstrip]. rewrite IH.
    destruct ip; reflexivity.
Qed.

Lemma length_app (s t : string) :
  String.length (s ++ t)%string = (String.length s + String.length t)%nat.
Proof. induction s as [|a s IH]; cbn; [reflexivity|now rewrite IH]. Qed.

(** X10.  Binance's precision counts the characters before the point as
    well: for a step [ip.frac] with a non-empty [ip] it is the number of
    characters of [frac] without its trailing zeros, plus one for every
    character of [ip] after the first.  It is OKX's [_calc_precision]
    exactly when one character stands before the point. *)
Theorem step_precision_counts_integer_part (ip frac : string) :
  ip <> EmptyString ->
  Binance.step_precision (ip ++ String "." frac)%string
  = PyStr.len (PyStr.rstrip "0" frac) + (PyStr.len ip - 1)
  /\ (PyStr.contains "." ip = false -> PyStr.contains "." frac = false ->
      Binance.step_precision (ip ++ String "." frac)%string
      = OKX._calc_precision (ip ++ String "." frac)%string + (PyStr.len ip - 1)).
Proof.
  intros Hip.
  assert (E : Binance.step_precision (ip ++ String "." frac)%string
              = PyStr.len (PyStr.rstrip "0" frac) + (PyStr.len ip - 1)).
  { unfold Binance.step_precision. rewrite rstrip_before_point by discriminate.
    unfold PyStr.len. rewrite length_app. cbn [String.length].
    destruct ip as [|a ip]; [congruence|]. cbn [String.length]. lia. }
  split; [exact E|]. intros H1 H2. rewrite E. now rewrite calc_precision_point.
Qed.

Lemma step_precision_counts_integer_part_witness :
  Binance.step_precision "10.50" = 2 /\ OKX._calc_precision "10.50" = 1.
Proof.
  destruct (step_precision_counts_integer_part "10" "50" ltac:(discriminate)) as [E1 E2].
  split; [exact E1|]. specialize (E2 eq_refl eq_refl).
  assert (H : OKX._calc_precision ("10" ++ String "." "50")%string
              = PyStr.len (PyStr.rstrip "0" "50")) by lia.
  exact H.
Defined.

(** ** Sides and order types in any case *)

Lemma upper_char_idem (c : ascii) : PyStr.upper_char (PyStr.upper_char c) = PyStr.upper_char c.
Proof. destruct c as [[] [] [] [] [] [] [] []]; reflexivity. Qed.

Lemma upper_idem (s : string) : PyStr.upper (PyStr.upper s) = PyStr.upper s.
Proof.
  induction s as [|a s IH]; [reflexivity|].
  cbn [PyStr.upper]. now rewrite upper_char_idem, IH.
Qed.

Section AnyCase.
Context {F : Type} {PF : PyFloat F}.
Import Binance BinanceObs.

Lemma bind_ext {A B} (m : M A) (k k' : A -> M B) (c : Client F) :
  (forall a c', k a c' = k' a c') -> bind m k c = bind m k' c.
Proof. intros H. unfold bind. destruct (m c) as [[a|e] c']; [apply H|reflexivity]. Qed.

Lemma bind_ext_first {A B} (m m' : M A) (k : A -> M B) (c : Client F) :
  m c = m' c -> bind m k c = bind m' k c.
Proof. intros H. unfold bind. now rewrite H. Qed.

Lemma position_side_of_upper tm side_ :
  position_side_of tm (PyStr.upper side_) = position_side_of tm side_.
Proof. unfold position_side_of. now rewrite upper_idem. Qed.

Lemma closing_side_upper side_ : closing_side (PyStr.upper side_) = closing_side side_.
Proof. unfold closing_side. now rewrite upper_idem. Qed.

Lemma create_stop_loss_upper sym side_ (stop_loss : option F) trading_mode (c : Client F) :
  create_stop_loss sym (PyStr.upper side_) stop_loss trading_mode c
  = create_stop_loss sym side_ stop_loss trading_mode c.
Proof.
  unfold create_stop_loss. destruct stop_loss as [sl|]; [|reflexivity].
  apply bind_ext. intros tm c'.
  unfold stop_loss_params. now rewrite position_side_of_upper, closing_side_upper.
Qed.

Lemma take_profit_loop_upper sym side_ position_side (chunk : F) n (tps : list F) :
  forall i,
    take_profit_loop sym (PyStr.upper side_) position_side chunk n i tps
    = take_profit_loop sym side_ position_side chunk n i tps.
Proof.
  induction tps as [|tp tps IH]; intros i; [reflexivity|].
  cbn [take_profit_loop]. rewrite IH.
  unfold take_profit_params. now rewrite closing_side_upper.
Qed.

Lemma bulk_create_take_profits_upper sym side_ (quantity_ : F) targets trading_mode
    (c : Client F) :
  bulk_create_take_profits sym (PyStr.upper side_) quantity_ targets trading_mode c
  = bulk_create_take_profits sym side_ quantity_ targets trading_mode c.
Proof.
  unfold bulk_create_take_profits. destruct targets as [[|t ts]|]; try reflexivity.
  apply bind_ext. intros tm c'.
  rewrite position_side_of_upper, upper_idem.
  do 5 (apply bind_ext; intros ? ?).
  now rewrite take_profit_loop_upper.
Qed.

(** X11.  The side and the order type are read through [upper()] only:
    [create_order], [create_stop_loss] and [bulk_create_take_profits] do
    for ['buy'] what they do for ['BUY'], sending the same requests and
    returning the same result. *)
Theorem side_and_type_in_any_case (str : F -> string) (c : Client F)
    (sym side_ order_type : string) (quantity_ : F) (price_ stop_loss : option F)
    (take_profit_targets : option (list F)) (leverage : Z) (trading_mode : option string) :
  create_order str sym (PyStr.upper side_) (PyStr.upper order_type) quantity_ price_ stop_loss
    take_profit_targets leverage c
  = create_order str sym side_ order_type quantity_ price_ stop_loss take_profit_targets
      leverage c
  /\ create_stop_loss sym (PyStr.upper side_) stop_loss trading_mode c
     = create_stop_loss sym side_ stop_loss trading_mode c
  /\ bulk_create_take_profits sym (PyStr.upper side_) quantity_ take_profit_targets
       trading_mode c
     = bulk_create_take_profits sym side_ quantity_ take_profit_targets trading_mode c.
Proof.
  split; [|split; [apply create_stop_loss_upper|apply bulk_create_take_profits_upper]].
  unfold create_order. apply bind_ext. intros _ c1. apply bind_ext. intros tm c2.
  rewrite position_side_of_upper, !upper_idem.
  apply bind_ext. intros new_order c3.
  assert (E : forall c',
             match stop_loss with
             | Some sl => if truthy sl
                          then create_stop_loss sym (PyStr.upper side_) (Some sl) None
                          else ret tt
             | None => ret tt
             end c'
             = match stop_loss with
               | Some sl => if truthy sl then create_stop_loss sym side_ (Some sl) None
                            else ret tt
               | None => ret tt
               end c').
  { intros c'. destruct stop_loss as [sl|]; [destruct (truthy sl)|]; try reflexivity.
    apply create_stop_loss_upper. }
  rewrite (bind_ext_first _ _ _ c3 (E c3)).
  apply bind_ext. intros _ c4. apply bind_ext_first.
  destruct take_profit_targets as [[|t ts]|]; try reflexivity.
  apply bulk_create_take_profits_upper.
Qed.

End AnyCase.

(** ** The maximum leverage of a symbol *)

Section MaxLeverage.
Import BinanceReads.

Lemma max_initial_leverage_returned (bs : list Bracket) :
  forall acc m,
    max_initial_leverage acc bs = Returned m ->
    (acc = Some m \/ exists b, In b bs /\ initialLeverage b = Some m)
    /\ (forall a, acc = Some a -> a <= m)
    /\ (forall b l, In b bs -> initialLeverage b = Some l -> l <= m)
    /\ (forall b, In b bs -> initialLeverage b <> None)
    /\ (acc = None -> bs <> []).
Proof.
  induction bs as [|b bs IH]; intros acc m H.
  - cbn in H. destruct acc as [a|]; [|discriminate]. injection H as <-.
    split; [|split; [|split; [|split]]].
    + now left.
    + intros a' [= <-]. lia.
    + intros b l [].
    + intros b [].
    + discriminate.
  - cbn [max_initial_leverage] in H. destruct (initialLeverage b) as [l|] eqn:Hl; [|discriminate].
    apply IH in H as (Hin & Hacc & Hub & Hkeys & _).
    specialize (Hacc _ eq_refl).
    split; [|split; [|split; [|split]]].
    + destruct Hin as [Hin|(b' & Hb' & Hm)].
      * destruct acc as [a|]; injection Hin as Hin.
        -- destruct (Z.max_spec a l) as [[_ E]|[_ E]]; rewrite E in Hin; subst.
           ++ right. exists b. split; [now left|assumption].
           ++ now left.
        -- subst. right. exists b. split; [now left|assumption].
      * right. exists b'. split; [now right|assumption].
    + intros a ->. lia.
    + intros b' l' [<-|Hb'] Hl'.
      * rewrite Hl in Hl'. injection Hl' as <-. destruct acc; lia.
      * eapply Hub; eassumption.
    + intros b' [<-|Hb']; [congruence|now apply Hkeys].
    + discriminate.
Qed.

Lemma max_initial_leverage_total (bs : list Bracket) :
  (forall b, In b bs -> initialLeverage b <> None) ->
  forall acc, (acc = None -> bs <> []) -> exists m, max_initial_leverage acc bs = Returned m.
Proof.
  induction bs as [|b bs IH]; intros Hkeys acc Hne.
  - destruct acc as [a|]; [now exists a|]. now specialize (Hne eq_refl).
  - cbn [max_initial_leverage].
    destruct (initialLeverage b) as [l|] eqn:Hl.
    + apply IH; [intros b' Hb'; apply Hkeys; now right|discriminate].
    + exfalso. apply (Hkeys b); [now left|assumption].
Qed.

Lemma max_leverage_loop_returned (sym : string) (objs : list LeverageBracket) :
  forall acc m,
    max_leverage_loop sym objs acc = Returned m ->
    (m = acc \/ listed_leverage sym objs m)
    /\ acc <= m
    /\ (forall l, listed_leverage sym objs l -> l <= m)
    /\ complete sym objs.
Proof.
  induction objs as [|o objs IH]; intros acc m H.
  - cbn in H. injection H as <-. split; [|split; [|split]].
    + now left.
    + lia.
    + intros l (o' & b & [] & _).
    + intros o' [].
  - cbn [max_leverage_loop] in H. destruct (for_symbol sym o) eqn:Ho.
    + destruct (max_initial_leverage None (bracket_list_of o)) as [possible|e] eqn:Hp;
        [|discriminate].
      apply max_initial_leverage_returned in Hp as (Hin & _ & Hub & Hkeys & Hne).
      destruct Hin as [Hin|(b & Hb & Hl)]; [discriminate|].
      apply IH in H as (Hm & Hacc & Hall & Hcomplete).
      split; [|split; [|split]].
      * destruct Hm as [->|(o' & b' & Ho' & Hrest)].
        -- destruct (Z.max_spec acc possible) as [[_ E]|[_ E]]; rewrite E.
           ++ right. exists o, b. repeat split; [now left|assumption..].
           ++ now left.
        -- right. exists o', b'. split; [now right|assumption].
      * lia.
      * intros l (o' & b' & [<-|Ho'] & Hs & Hb' & Hl').
        -- specialize (Hub _ _ Hb' Hl'). lia.
        -- apply Hall. exists o', b'. repeat split; assumption.
      * intros o' [<-|Ho'] Hs; [|now apply Hcomplete].
        split; [now apply Hne|exact Hkeys].
    + apply IH in H as (Hm & Hacc & Hall & Hcomplete).
      split; [|split; [|split]].
      * destruct Hm as [->|(o' & b' & Ho' & Hrest)]; [now left|].
        right. exists o', b'. split; [now right|assumption].
      * exact Hacc.
      * intros l (o' & b' & [<-|Ho'] & Hs & Hb' & Hl'); [congruence|].
        apply Hall. exists o', b'. repeat split; assumption.
      * intros o' [<-|Ho'] Hs; [congruence|now apply Hcomplete].
Qed.

Lemma max_leverage_loop_total (sym : string) (objs : list LeverageBracket) :
  complete sym objs -> forall acc, exists m, max_leverage_loop sym objs acc = Returned m.
Proof.
  induction objs as [|o objs IH]; intros Hc acc; [now exists acc|].
  cbn [max_leverage_loop].
  assert (Hrest : complete sym objs) by (intros o' Ho'; apply Hc; now right).
  destruct (for_symbol sym o) eqn:Ho; [|now apply IH].
  destruct (Hc o (or_introl eq_refl) Ho) as [Hne Hkeys].
  destruct (max_initial_leverage_total _ Hkeys None (fun _ => Hne)) as [p ->].
  now apply IH.
Qed.

(** X12.  What [get_max_leverage_for_symbol] returns is at least 1, is
    the ['initialLeverage'] of a bracket listed for the symbol, and no
    bracket listed for the symbol has a larger one. *)
Theorem get_max_leverage_is_the_maximum (objs : list LeverageBracket) (sym : string) (m : Z) :
  get_max_leverage_for_symbol (Ok objs) sym = Returned m ->
  1 <= m
  /\ listed_leverage sym objs m
  /\ forall l, listed_leverage sym objs l -> l <= m.
Proof.
  unfold get_max_leverage_for_symbol.
  destruct (max_leverage_loop sym objs (-1)) as [m'|e] eqn:Hloop; [|discriminate].
  destruct (m' <? 1) eqn:Hlt; [discriminate|]. intros [= <-].
  apply Z.ltb_ge in Hlt.
  apply max_leverage_loop_returned in Hloop as (Hm & _ & Hall & _).
  repeat split; [exact Hlt| |exact Hall].
  destruct Hm as [->|Hm]; [lia|exact Hm].
Qed.

(** X13.  [get_max_leverage_for_symbol] returns exactly when every entry
    for the symbol is complete and a leverage of at least 1 is listed
    for it.  An answer without an entry for the symbol ends in its
    [ValueError]; an entry for the symbol without brackets ends in the
    [ValueError] of [max()], whatever the other entries list. *)
Theorem get_max_leverage_returns_iff (objs : list LeverageBracket) (sym : string) :
  ((exists m, get_max_leverage_for_symbol (Ok objs) sym = Returned m)
   <-> complete sym objs /\ exists l, listed_leverage sym objs l /\ 1 <= l)
  /\ ((forall o, In o objs -> for_symbol sym o = false) ->
      get_max_leverage_for_symbol (Ok objs) sym = Failed NoLeverageInfo)
  /\ (forall pre o post,
         objs = pre ++ o :: post -> complete sym pre ->
         for_symbol sym o = true -> bracket_list_of o = [] ->
         get_max_leverage_for_symbol (Ok objs) sym = Failed MaxOfEmpty).
Proof.
  split; [split|split].
  - intros [m H]. unfold get_max_leverage_for_symbol in H.
    destruct (max_leverage_loop sym objs (-1)) as [m'|e] eqn:Hloop; [|discriminate].
    destruct (m' <? 1) eqn:Hlt; [discriminate|]. injection H as <-.
    apply Z.ltb_ge in Hlt.
    apply max_leverage_loop_returned in Hloop as (Hm & _ & _ & Hc).
    split; [exact Hc|]. exists m'. split; [|exact Hlt].
    destruct Hm as [->|Hm]; [lia|exact Hm].
  - intros [Hc (l & Hl & Hge)]. unfold get_max_leverage_for_symbol.
    destruct (max_leverage_loop_total sym objs Hc (-1)) as [m Hloop]. rewrite Hloop.
    apply max_leverage_loop_returned in Hloop as (_ & _ & Hall & _).
    specialize (Hall l Hl).
    destruct (m <? 1) eqn:Hlt; [apply Z.ltb_lt in Hlt; lia|]. now exists m.
  - intros Hnone. unfold get_max_leverage_for_symbol.
    assert (Hloop : forall acc, max_leverage_loop sym objs acc = Returned acc).
    { induction objs as [|o objs IH]; intros acc; [reflexivity|].
      cbn [max_leverage_loop]. rewrite (Hnone o (or_introl eq_refl)).
      apply IH. intros o' Ho'. apply Hnone. now right. }
    now rewrite Hloop.
  - intros pre o post -> Hc Ho Hempty. unfold get_max_leverage_for_symbol.
    assert (Hloop : forall acc,
               max_leverage_loop sym (pre ++ o :: post) acc = Failed MaxOfEmpty).
    { induction pre as [|p pre IH]; intros acc.
      - cbn [app max_leverage_loop]. now rewrite Ho, Hempty.
      - cbn [app max_leverage_loop].
        assert (Hrest : complete sym pre) by (intros o' Ho'; apply Hc; now right).
        destruct (for_symbol sym p) eqn:Hp; [|now apply IH].
        destruct (Hc p (or_introl eq_refl) Hp) as [Hne Hkeys].
        destruct (max_initial_leverage_total _ Hkeys None (fun _ => Hne)) as [q ->].
        now apply IH. }
    now rewrite Hloop.
Qed.

Lemma get_max_leverage_is_the_maximum_witness :
  BinanceReads.get_max_leverage_for_symbol (Ok [Brackets.ethusdt; Brackets.btcusdt]) "BTCUSDT"
  = BinanceReads.Returned 125
  /\ forall l,
      BinanceReads.listed_leverage "BTCUSDT" [Brackets.ethusdt; Brackets.btcusdt] l -> l <= 125.
Proof.
  split; [reflexivity|].
  exact (proj2 (proj2 (get_max_leverage_is_the_maximum [Brackets.ethusdt; Brackets.btcusdt]
                         "BTCUSDT" 125 eq_refl))).
Defined.

Lemma get_max_leverage_returns_iff_witness :
  BinanceReads.get_max_leverage_for_symbol
    (Ok [Brackets.ethusdt; Brackets.btcusdt_bare; Brackets.btcusdt]) "BTCUSDT"
  = BinanceReads.Failed BinanceReads.MaxOfEmpty
  /\ BinanceReads.get_max_leverage_for_symbol (Ok [Brackets.ethusdt]) "BTCUSDT"
     = BinanceReads.Failed BinanceReads.NoLeverageInfo.
Proof.
  split.
  - apply (proj2 (proj2 (get_max_leverage_returns_iff
                           [Brackets.ethusdt; Brackets.btcusdt_bare; Brackets.btcusdt]
                           "BTCUSDT"))
             [Brackets.ethusdt] Brackets.btcusdt_bare [Brackets.btcusdt]);
      try reflexivity.
    intros o [<-|[]] H. discriminate H.
  - apply (proj1 (proj2 (get_max_leverage_returns_iff [Brackets.ethusdt] "BTCUSDT"))).
    intros o [<-|[]]. reflexivity.
Defined.

End MaxLeverage.

(** ** The minimum notional, read twice *)

Section MinNotional.
Context {F : Type} {PF : PyFloat F}.
Import Binance BinanceReads.

Lemma first_min_notional_app (l l' : list (Filter F)) :
  first_min_notional (l ++ l')
  = if existsb is_min_notional l then first_min_notional l else first_min_notional l'.
Proof.
  induction l as [|f l IH]; [reflexivity|].
  cbn [app first_min_notional existsb]. unfold is_min_notional at 1.
  destruct (String.eqb (filterType f) "MIN_NOTIONAL"); [reflexivity|exact IH].
Qed.

Lemma existsb_rev {A} (p : A -> bool) (l : list A) : existsb p (rev l) = existsb p l.
Proof.
  induction l as [|a l IH]; [reflexivity|].
  cbn [rev existsb]. rewrite existsb_app, IH. cbn [existsb].
  rewrite orb_false_r. apply orb_comm.
Qed.

(** The loop of the sizing keeps the last [MIN_NOTIONAL] filter. *)
Lemma min_notional_of_last (fs : list (Filter F)) :
  (forall f, In f fs -> is_min_notional f = true -> notional f <> None) ->
  forall acc,
    min_notional_of fs acc
    = Ok (if existsb is_min_notional fs then first_min_notional (rev fs) else acc).
Proof.
  induction fs as [|f fs IH]; intros Hall acc; [reflexivity|].
  assert (Hrest : forall g, In g fs -> is_min_notional g = true -> notional g <> None)
    by (intros g Hg; apply Hall; now right).
  cbn [min_notional_of existsb rev]. rewrite first_min_notional_app, existsb_rev.
  pose proof (Hall f (or_introl eq_refl)) as Hf. unfold is_min_notional at 1 in Hf.
  unfold is_min_notional at 1.
  destruct (String.eqb (filterType f) "MIN_NOTIONAL") eqn:Hty.
  - destruct (notional f) as [v|] eqn:Hv; [|now specialize (Hf eq_refl)].
    rewrite (IH Hrest). cbn [orb].
    destruct (existsb is_min_notional fs); [reflexivity|].
    cbn [first_min_notional]. now rewrite Hty, Hv.
  - rewrite (IH Hrest). cbn [orb].
    destruct (existsb is_min_notional fs); reflexivity.
Qed.

Lemma existsb_none {A} (p : A -> bool) (l : list A) :
  (forall x, In x l -> p x = false) -> existsb p l = false.
Proof.
  induction l as [|a l IH]; [reflexivity|]. intros H. cbn [existsb].
  rewrite (H a (or_introl eq_refl)). apply IH. intros x Hx. apply H. now right.
Qed.

(** X14.  [get_min_notional] reads the first [MIN_NOTIONAL] filter of a
    listed symbol, the sizing of [calculate_quantity_from_usdt] the last
    one.  When each such filter carries ['notional'] the sizing finds
    what [get_min_notional] would find in the reversed list; with a
    single such filter the two readings are the same number. *)
Theorem min_notional_first_and_last (c : Client F) (sym : string) (item : SymbolInfo F) :
  find_symbol sym (exchange_info c) = Some item ->
  get_min_notional sym c = (Ok (first_min_notional (filters item)), c)
  /\ ((forall f, In f (filters item) -> is_min_notional f = true -> notional f <> None) ->
      min_notional_of (filters item) fzero = Ok (first_min_notional (rev (filters item))))
  /\ (forall pre f post v,
         filters item = pre ++ f :: post ->
         is_min_notional f = true -> notional f = Some v ->
         (forall g, In g pre -> is_min_notional g = false) ->
         (forall g, In g post -> is_min_notional g = false) ->
         first_min_notional (filters item) = v
         /\ min_notional_of (filters item) fzero = Ok v).
Proof.
  intros Hfind. split; [|split].
  - unfold get_min_notional, bind, get_trading_symbols, client_futures_exchange_info.
    now rewrite Hfind.
  - intros Hall. rewrite (min_notional_of_last _ Hall).
    destruct (existsb is_min_notional (filters item)) eqn:Hex; [reflexivity|].
    rewrite <- existsb_rev in Hex.
    pose proof (first_min_notional_app (rev (filters item)) []) as E.
    rewrite app_nil_r, Hex in E. now rewrite E.
  - intros pre f post v -> Hf Hv Hpre Hpost.
    assert (Hfirst : first_min_notional (f :: post) = v).
    { cbn [first_min_notional]. unfold is_min_notional in Hf. now rewrite Hf, Hv. }
    split.
    + now rewrite first_min_notional_app, (existsb_none _ _ Hpre).
    + rewrite min_notional_of_last.
      * rewrite existsb_app. cbn [existsb]. rewrite Hf, orb_true_r.
        rewrite rev_app_distr. cbn [rev]. rewrite <- app_assoc.
        rewrite first_min_notional_app, existsb_rev, (existsb_none _ _ Hpost).
        cbn [app first_min_notional]. unfold is_min_notional in Hf. now rewrite Hf, Hv.
      * intros g Hg Hmin. apply in_app_or in Hg as [Hg|[<-|Hg]].
        -- rewrite (Hpre g Hg) in Hmin. discriminate.
        -- congruence.
        -- rewrite (Hpost g Hg) in Hmin. discriminate.
Qed.

End MinNotional.

Lemma min_notional_first_and_last_witness :
  Binance.find_symbol "BTCUSDT" (Binance.exchange_info (Examples.client_at (B64.dec 50000 0)))
  = Some Examples.btcusdt
  /\ BinanceReads.get_min_notional "BTCUSDT" (Examples.client_at (B64.dec 50000 0))
     = (Ok (B64.dec 5 0), Examples.client_at (B64.dec 50000 0))
  /\ Binance.min_notional_of (Binance.filters Examples.btcusdt) (S754_zero false)
     = Ok (B64.dec 5 0).
Proof.
  split; [reflexivity|].
  destruct (min_notional_first_and_last (PF := binary64) (Examples.client_at (B64.dec 50000 0))
              "BTCUSDT" Examples.btcusdt eq_refl) as (E1 & _ & E3).
  split; [exact E1|].
  refine (proj2 (E3 (firstn 2 (Binance.filters Examples.btcusdt))
                   (last (Binance.filters Examples.btcusdt)
                      {| Binance.filterType := EmptyString; Binance.stepSize := None;
                         Binance.tickSize := None; Binance.notional := None |})
                   [] (B64.dec 5 0) eq_refl eq_refl eq_refl _ _)).
  - intros g [<-|[<-|[]]]; reflexivity.
  - intros g [].
Defined.

(** ** Sizes on doubles are finite *)

Lemma shr_1_nonneg (mrs : shr_record) : 0 <= shr_m mrs -> 0 <= shr_m (shr_1 mrs).
Proof.
  destruct mrs as [m r s]. cbn [shr_m shr_1].
  destruct m as [|[p|p|]|[p|p|]]; cbn [shr_m]; lia.
Qed.

Lemma iter_pos_shr_1_nonneg (p : positive) :
  forall mrs, 0 <= shr_m mrs -> 0 <= shr_m (iter_pos shr_1 p mrs).
Proof.
  induction p as [p IH|p IH|]; intros mrs H; cbn [iter_pos].
  - apply IH, IH, shr_1_nonneg, H.
  - apply IH, IH, H.
  - apply shr_1_nonneg, H.
Qed.

Lemma shr_fexp_nonneg (m e : Z) (l : location) :
  0 <= m -> 0 <= shr_m (fst (shr_fexp B64.prec B64.emax m e l)).
Proof.
  intros Hm. unfold shr_fexp, shr.
  assert (H0 : 0 <= shr_m (shr_record_of_loc m l)) by (destruct l as [|[]]; exact Hm).
  destruct (fexp B64.prec B64.emax (Zdigits2 m + e) - e) as [|p|p]; cbn [fst];
    [exact H0| |exact H0].
  apply iter_pos_shr_1_nonneg, H0.
Qed.

Lemma round_nearest_even_nonneg (m : Z) (l : location) :
  0 <= m -> 0 <= round_nearest_even m l.
Proof.
  intros Hm. destruct l as [|[]]; cbn [round_nearest_even]; try lia.
  destruct (Z.even m); lia.
Qed.

Lemma binary_round_aux_zero_or_finite (s : bool) (m e : Z) (l : location) :
  0 <= m ->
  match binary_round_aux B64.prec B64.emax s m e l with
  | S754_nan => False
  | _ => True
  end.
Proof.
  intros Hm. unfold binary_round_aux.
  pose proof (shr_fexp_nonneg m e l Hm) as H1.
  destruct (shr_fexp B64.prec B64.emax m e l) as [mrs' e']. cbn [fst] in H1.
  pose proof (shr_fexp_nonneg _ e' loc_Exact
                (round_nearest_even_nonneg _ (loc_of_shr_record mrs') H1)) as H2.
  destruct (shr_fexp B64.prec B64.emax _ e' loc_Exact) as [mrs'' e'']. cbn [fst] in H2.
  destruct (shr_m mrs'') as [|p|p]; [exact I| |lia].
  destruct (e'' <=? B64.emax - B64.prec); exact I.
Qed.

Lemma div_core_nonneg (m1 e1 m2 e2 : Z) :
  0 <= m1 -> 0 < m2 ->
  0 <= fst (fst (SFdiv_core_binary B64.prec B64.emax m1 e1 m2 e2)).
Proof.
  intros H1 H2. unfold SFdiv_core_binary.
  set (s := e1 - e2 - _). set (m' := match s with Z.pos _ => _ | _ => _ end).
  assert (Hm' : 0 <= m').
  { subst m'. destruct s; [exact H1| |lia]. now apply Z.shiftl_nonneg. }
  pose proof (Z.div_pos m' m2 Hm' H2) as Hq. unfold Z.div in Hq.
  destruct (Z.div_eucl m' m2) as [q r]. exact Hq.
Qed.

Lemma truediv_finite (a b : Z) (y : B64.float) :
  B64.truediv a b = Ok y -> B64Finite.finite y = true.
Proof.
  unfold B64.truediv. destruct (b =? 0) eqn:Hb; [discriminate|].
  destruct (a =? 0); [now intros [= <-]|].
  apply Z.eqb_neq in Hb.
  pose proof (div_core_nonneg (Z.abs a) 0 (Z.abs b) 0 (Z.abs_nonneg a) ltac:(lia)) as Hq.
  destruct (SFdiv_core_binary B64.prec B64.emax (Z.abs a) 0 (Z.abs b) 0) as [[mz ez] lz].
  cbn [fst] in Hq.
  pose proof (binary_round_aux_zero_or_finite (xorb (a <? 0) (b <? 0)) mz ez lz Hq) as H.
  destruct (binary_round_aux B64.prec B64.emax _ mz ez lz);
    try discriminate; try contradiction; now intros [= <-].
Qed.

Lemma ceil_finite (x : B64.float) (n : Z) : B64.ceil x = Ok n -> B64Finite.finite x = true.
Proof. destruct x; cbn; congruence. Qed.

Lemma mul_finite (x s : B64.float) :
  B64Finite.finite (B64.mul x s) = true -> B64Finite.finite x = true.
Proof.
  destruct x as [| | |sx mx ex]; try reflexivity; destruct s as [| [] | |]; cbn; congruence.
Qed.

Lemma round_more_returns_finite (x y : B64.float) (digits : Z) :
  round_more (PF := binary64) x digits = Ok y -> B64Finite.finite y = true.
Proof.
  unfold round_more. cbn [float_of_int fmul math_ceil int_truediv binary64].
  destruct (B64.of_int (10 ^ digits)) as [s|]; [|discriminate]. cbn [rbind].
  destruct (B64.ceil (B64.mul x s)) as [n|]; [|discriminate]. cbn [rbind].
  apply truediv_finite.
Qed.

(** X15.  On doubles, for a precision [digits >= 0], [round_more]
    returns a finite number, and only for a finite number: NaN and the
    infinities, given or met on the way, end in an exception. *)
Theorem round_more_binary64_finite (x y : B64.float) (digits : Z) :
  0 <= digits ->
  round_more (PF := binary64) x digits = Ok y ->
  B64Finite.finite x = true /\ B64Finite.finite y = true.
Proof.
  intros _ H. split; [|exact (round_more_returns_finite x y digits H)].
  revert H. unfold round_more. cbn [float_of_int fmul math_ceil int_truediv binary64].
  destruct (B64.of_int (10 ^ digits)) as [s|]; [|discriminate]. cbn [rbind].
  destruct (B64.ceil (B64.mul x s)) as [n|] eqn:Hn; [|discriminate]. intros _.
  eapply mul_finite, ceil_finite, Hn.
Qed.

Lemma round_more_binary64_finite_witness :
  round_more (PF := binary64) (B64.dec 15 4) 3 = Ok (B64.dec 2 3)
  /\ B64Finite.finite (B64.dec 2 3) = true.
Proof.
  split; [reflexivity|].
  exact (proj2 (round_more_binary64_finite (B64.dec 15 4) (B64.dec 2 3) 3 ltac:(lia)
                  eq_refl)).
Defined.

Lemma bind_returned {F A B} (m : Binance.M A) (k : A -> Binance.M B) (c : Binance.Client F)
    (b : B) :
  fst (Binance.bind m k c) = Ok b ->
  exists a c', m c = (Ok a, c') /\ fst (k a c') = Ok b.
Proof.
  unfold Binance.bind. destruct (m c) as [[a|e] c']; [|discriminate].
  intros H. now exists a, c'.
Qed.

Lemma binance_round_more_last (c : Binance.Client B64.float) sym usdt leverage adjust targets
    (q : B64.float) :
  fst (Binance.calculate_quantity_from_usdt sym usdt leverage adjust targets c) = Ok q ->
  exists x d, round_more (PF := binary64) x d = Ok q.
Proof.
  unfold Binance.calculate_quantity_from_usdt. intros H.
  apply bind_returned in H as (price & c1 & _ & H).
  apply bind_returned in H as (lev & c2 & _ & H).
  apply bind_returned in H as (quantity_ & c3 & _ & H).
  apply bind_returned in H as (symbols & c4 & _ & H).
  destruct (Binance.find_symbol sym symbols) as [item|]; [|discriminate].
  apply bind_returned in H as (mn & c5 & _ & H).
  apply bind_returned in H as (mn' & c6 & _ & H).
  apply bind_returned in H as (q' & c7 & _ & H).
  apply bind_returned in H as (d & c8 & _ & H).
  now exists q', d.
Qed.

(** X16.  On doubles the sizes of Binance and Bybit, which end in
    [round_more], are finite numbers whenever the call returns; Bitget's
    size, which does not, can be an infinity: [1e308 * 100] overflows
    without an exception. *)
Theorem sizes_are_finite_where_rounded :
  (forall (c : Binance.Client B64.float) sym usdt leverage adjust targets q,
      fst (Binance.calculate_quantity_from_usdt sym usdt leverage adjust targets c) = Ok q ->
      B64Finite.finite q = true)
  /\ (forall (c : ByBit.Client B64.float) sym usdt leverage adjust targets q,
         ByBit.calculate_quantity_from_usdt c sym usdt leverage adjust targets = Ok q ->
         B64Finite.finite q = true)
  /\ BitGet.calculate_quantity_from_usdt (Large.bitget_at (B64.dec 1 0)) "BTCUSDT"
       Large.amount 100 true None
     = Ok (S754_infinity false)
  /\ ByBit.calculate_quantity_from_usdt (Large.bybit_at (B64.dec 1 0)) "BTCUSDT"
       Large.amount 100 true None
     = Raise OverflowError.
Proof.
  split; [|split; [|split]].
  - intros c sym usdt leverage adjust targets q H.
    destruct (binance_round_more_last c sym usdt leverage adjust targets q H) as (x & d & Hr).
    exact (round_more_returns_finite x q d Hr).
  - intros c sym usdt leverage adjust targets q. unfold ByBit.calculate_quantity_from_usdt.
    destruct (ByBit.get_current_price c sym) as [price|]; [|discriminate]. cbn [rbind].
    destruct (fle price fzero); [discriminate|].
    destruct (float_of_int leverage) as [lev|]; [|discriminate]. cbn [rbind].
    destruct (fdiv (fmul usdt lev) price) as [quantity_|]; [|discriminate]. cbn [rbind].
    apply round_more_returns_finite.
  - vm_compute. reflexivity.
  - vm_compute. reflexivity.
Qed.

Lemma sizes_are_finite_where_rounded_witness :
  fst (Binance.calculate_quantity_from_usdt "BTCUSDT" (B64.dec 100 0) 10 true None
         (Examples.client_at (B64.dec 50000 0)))
  = Ok (B64.dec 2 2)
  /\ B64Finite.finite (B64.dec 2 2) = true.
Proof.
  split; [reflexivity|].
  exact (proj1 sizes_are_finite_where_rounded (Examples.client_at (B64.dec 50000 0)) "BTCUSDT"
           (B64.dec 100 0) 10 true None (B64.dec 2 2) eq_refl).
Defined.

(** ** Rounding twice *)

Lemma round_more_exact_again (x q : Q) (d : Z) :
  0 <= d -> round_more (PF := exact) x d = Ok q -> round_more (PF := exact) q d = Ok q.
Proof.
  intros Hd Hq. rewrite round_more_exact in Hq by exact Hd. injection Hq as <-.
  rewrite round_more_exact by exact Hd. do 3 f_equal.
  pose proof (inject_pow10_pos d Hd) as Hs.
  rewrite <- (Qceiling_Z (Qceiling (x * inject_Z (10 ^ d)))) at 2.
  apply Qceiling_comp. field. lra.
Qed.

(** X17.  In exact arithmetic [round_more] is idempotent and monotone:
    a rounded quantity rounds to itself, and a larger quantity never
    rounds to a smaller one.  On doubles a second rounding can move the
    number: [round_more(1.1, 2)] is [1.11] and [round_more(1.11, 2)] is
    [1.12]. *)
Theorem round_more_idempotent_and_monotone (d : Z) :
  0 <= d ->
  (forall x q : Q, round_more x d = Ok q -> round_more q d = Ok q)
  /\ (forall x y qx qy : Q,
         (x <= y)%Q -> round_more x d = Ok qx -> round_more y d = Ok qy -> (qx <= qy)%Q)
  /\ (round_more (B64.dec 11 1) 2 = Ok (B64.dec 111 2)
      /\ round_more (B64.dec 111 2) 2 = Ok (B64.dec 112 2)).
Proof.
  intros Hd. split; [|split; [|split; vm_compute; reflexivity]].
  - intros x q. now apply round_more_exact_again.
  - intros x y qx qy Hxy Hx Hy.
    rewrite round_more_exact in Hx, Hy by exact Hd.
    injection Hx as <-. injection Hy as <-.
    pose proof (inject_pow10_pos d Hd) as Hs.
    apply Qmult_le_compat_r.
    + rewrite <- Zle_Qle. apply Qceiling_resp_le.
      apply Qmult_le_compat_r; [exact Hxy|]. now apply Qlt_le_weak.
    + apply Qinv_le_0_compat. now apply Qlt_le_weak.
Qed.

Lemma round_more_idempotent_and_monotone_witness :
  round_more (PF := exact) (1101 # 1000) 2 = Ok (111 # 100)
  /\ round_more (PF := exact) (111 # 100) 2 = Ok (111 # 100).
Proof.
  split; [reflexivity|].
  exact (proj1 (round_more_idempotent_and_monotone 2 ltac:(lia)) (1101 # 1000)%Q (111 # 100)%Q
           eq_refl).
Defined.

(** ** OKX: the minimum size *)

Lemma le_refl_not_nan (x : B64.float) : B64Order.not_nan x -> B64Order.le x x.
Proof.
  intros Hx. apply (leb_rank x x Hx Hx). unfold B64Order.lex_le.
  destruct (B64Order.rank x) as [[a b] c]. right. split; [reflexivity|].
  right. split; [reflexivity|lia].
Qed.

(** X18.  With [adjust_to_min_notional] OKX's size is never below the
    ['minSz'] of the instrument: on doubles, whenever the call returns a
    number, that number is at least the minimum size. *)
Theorem okx_size_at_least_min_size (c : OKX.Client B64.float) (sym : string)
    (usdt : B64.float) (leverage : Z) (targets : option (list B64.float))
    (i : @OKX.Instrument B64.float) (rest : list (@OKX.Instrument B64.float))
    (m q : B64.float) :
  OKX.get_instruments c "SWAP" sym = Ok (Some (i :: rest)) ->
  OKX.minSz i = Some m ->
  B64Order.not_nan m ->
  OKX.calculate_quantity_from_usdt c sym usdt leverage true targets = Ok q ->
  B64Order.not_nan q ->
  B64Order.le m q.
Proof.
  intros Hinst Hmin Hm. unfold OKX.calculate_quantity_from_usdt.
  destruct (OKX.get_current_price c sym) as [price|]; [|discriminate]. cbn [rbind].
  destruct (fle price fzero); [discriminate|].
  destruct (float_of_int leverage) as [lev|]; [|discriminate]. cbn [rbind].
  destruct (fdiv (fmul usdt lev) price) as [raw_qty|]; [|discriminate]. cbn [rbind].
  rewrite Hinst. cbn [rbind]. rewrite Hmin. rewrite andb_true_r.
  cbn [flt binary64].
  destruct (B64.ltb raw_qty m) eqn:Hlt; intros [= <-] Hq.
  - now apply le_refl_not_nan.
  - now apply not_ltb_le.
Qed.

Lemma okx_size_at_least_min_size_witness :
  OKX.calculate_quantity_from_usdt (Examples.okx_with_step "0.1") "BTC-USDT-SWAP"
    (B64.dec 100 0) 10 true None
  = Ok (B64.dec 1 0)
  /\ B64Order.le (B64.dec 1 0) (B64.dec 1 0).
Proof.
  split; [reflexivity|].
  exact (okx_size_at_least_min_size (Examples.okx_with_step "0.1") "BTC-USDT-SWAP"
           (B64.dec 100 0) 10 None _ [] (B64.dec 1 0) (B64.dec 1 0)
           eq_refl eq_refl eq_refl eq_refl eq_refl).
Defined.

(** ** Missing prices *)

Section MissingPrices.
Context {F : Type} {PF : PyFloat F}.
Hypothesis zero_le_zero : fle fzero fzero = true.

Lemma price_in_absent (sym : string) (l : list (ByBit.Ticker (F := F))) :
  (forall item, In item l -> ByBit.symbol item <> sym) -> ByBit.price_in sym l = fzero.
Proof.
  induction l as [|item l IH]; intros H; [reflexivity|].
  cbn [ByBit.price_in].
  destruct (String.eqb_spec (ByBit.symbol item) sym) as [E|_].
  - exfalso. apply (H item); [now left|exact E].
  - apply IH. intros x Hx. apply H. now right.
Qed.

(** X19.  An answer without a price for the symbol is read as the price
    [0.0], and the sizing of Bybit, Bitget and OKX then raises its
    [ValueError]: a refused request ([retCode] other than 0), an answer
    without the list, a list without the symbol on Bybit; an answer
    without ['data'] on Bitget and OKX, or without ['last'] on OKX. *)
Theorem sizing_rejects_missing_price (sym : string) (usdt : F) (leverage : Z) (adjust : bool)
    (targets : option (list F)) :
  (forall (c : ByBit.Client F) resp,
      ByBit.get_tickers c sym = Ok resp ->
      ByBit.retCode resp <> 0
      \/ ByBit.result_list resp = None
      \/ (exists l, ByBit.result_list resp = Some l
                    /\ forall item, In item l -> ByBit.symbol item <> sym) ->
      ByBit.calculate_quantity_from_usdt c sym usdt leverage adjust targets
      = Raise (ValueError BadPrice))
  /\ (forall c : BitGet.Client F,
         BitGet.mix_get_single_symbol_ticker c sym = Ok None ->
         BitGet.calculate_quantity_from_usdt c sym usdt leverage adjust targets
         = Raise (ValueError BadPrice))
  /\ (forall (c : OKX.Client F) resp,
         OKX.get_ticker c sym = Ok resp ->
         resp = None \/ resp = Some []
         \/ (exists t rest, resp = Some (t :: rest) /\ OKX.last t = None) ->
         OKX.calculate_quantity_from_usdt c sym usdt leverage adjust targets
         = Raise (ValueError BadPrice)).
Proof.
  split; [|split].
  - intros c resp Hresp Hcase.
    apply (bybit_rejects_bad_price c sym usdt leverage adjust targets fzero);
      [|exact zero_le_zero].
    unfold ByBit.get_current_price. rewrite Hresp. cbn [rbind].
    destruct Hcase as [Hcode|[Hnone|(l & Hl & Habs)]].
    + apply Z.eqb_neq in Hcode. rewrite Hcode.
      destruct (ByBit.result_list resp); reflexivity.
    + now rewrite Hnone.
    + rewrite Hl, (price_in_absent sym l Habs).
      destruct (ByBit.retCode resp =? 0); reflexivity.
  - intros c Hresp.
    apply (bitget_rejects_bad_price c sym usdt leverage adjust targets fzero);
      [|exact zero_le_zero].
    unfold BitGet.get_current_price. now rewrite Hresp.
  - intros c resp Hresp Hcase.
    apply (okx_rejects_bad_price c sym usdt leverage adjust targets fzero);
      [|exact zero_le_zero].
    unfold OKX.get_current_price. rewrite Hresp. cbn [rbind].
    destruct Hcase as [->|[->|(t & rest & -> & Hlast)]]; try reflexivity.
    now rewrite Hlast.
Qed.

End MissingPrices.

Lemma sizing_rejects_missing_price_witness :
  ByBit.calculate_quantity_from_usdt Refused.bybit "BTCUSDT" (B64.dec 100 0) 10 true None
  = Raise (ValueError BadPrice).
Proof.
  refine (proj1 (sizing_rejects_missing_price (PF := binary64) eq_refl "BTCUSDT"
                   (B64.dec 100 0) 10 true None) Refused.bybit _ eq_refl _).
  left. discriminate.
Defined.
